(** * GTPv0 Information Elements and the S-GW control-plane handlers

    A shallow embedding of [v0/ies/ie.go] (modules [Ies] and [IesValues])
    and of the S-GW example's session handlers (modules [sgw] and
    [sgwDelete], over the parts of packages [v2] and [v1] they use),
    followed by the properties their specification states about them
    (modules [IesFacts] and [SgwFacts]) and by further properties of the
    code itself (modules [IesMore], [SgwMore] and [SgwDeleteFacts]). *)

From Stdlib Require Import ZArith Lia.
From Stdlib.Strings Require Import Byte.
From stdpp Require Import base option list strings gmap.

Local Open Scope Z_scope.

(** ** Go runtime conventions shared by both packages *)

(** A Go call either returns a value, returns a non-nil [error], or panics
    (index or slice bounds out of range, nil dereference). *)
Inductive result (E A : Type) : Type :=
  | Ok (a : A)
  | Err (e : E)
  | Panic.
Arguments Ok {E A} a.
Arguments Err {E A} e.
Arguments Panic {E A}.

#[global] Instance result_ret {E} : MRet (result E) := fun _ a => Ok a.
#[global] Instance result_bind {E} : MBind (result E) := fun _ _ k r =>
  match r with
  | Ok a => k a
  | Err e => Err e
  | Panic => Panic
  end.

(** ** Bytes and byte slices *)

Module Bytes.

(** [int(b)] for a [uint8]. *)
Definition to_Z (b : byte) : Z := Z.of_N (Byte.to_N b).

(** [byte(v)]: the conversion keeps the low eight bits. *)
Definition of_Z (v : Z) : byte :=
  default x00 (Byte.of_N (Z.to_N (v mod 256))).

(** [len(b)] as a Go [int]. *)
Definition len {A} (b : list A) : Z := Z.of_nat (length b).

(** [make([]byte, n)]: panics on a negative length, otherwise zero-filled. *)
Definition make {E} (n : Z) : result E (list byte) :=
  if n <? 0 then Panic else Ok (replicate (Z.to_nat n) x00).

(** [b[k]]: panics out of range. *)
Definition index {E} (b : list byte) (k : Z) : result E byte :=
  if (0 <=? k) && (k <? len b)
  then match b !! Z.to_nat k with Some x => Ok x | None => Panic end
  else Panic.

(** [b[k] = v]: panics out of range. *)
Definition store {E} (b : list byte) (k : Z) (v : byte) : result E (list byte) :=
  if (0 <=? k) && (k <? len b) then Ok (<[Z.to_nat k := v]> b) else Panic.

(** [b[lo:hi]]. Go checks [hi] against the capacity; the model checks it
    against the length, which is what every call site guards. *)
Definition slice {E} (b : list byte) (lo hi : Z) : result E (list byte) :=
  if (0 <=? lo) && (lo <=? hi) && (hi <=? len b)
  then Ok (take (Z.to_nat (hi - lo)) (drop (Z.to_nat lo) b))
  else Panic.

(** [b[lo:]]. *)
Definition slice_from {E} (b : list byte) (lo : Z) : result E (list byte) :=
  if (0 <=? lo) && (lo <=? len b) then Ok (drop (Z.to_nat lo) b) else Panic.

(** [copy(b[lo:hi], src)]: writes [min(hi-lo, len(src))] bytes into the
    window of [b], leaving the rest of [b] as it was. *)
Definition copy {E} (b : list byte) (lo hi : Z) (src : list byte)
  : result E (list byte) :=
  if (0 <=? lo) && (lo <=? hi) && (hi <=? len b)
  then
    let n := Z.to_nat (Z.min (hi - lo) (len src)) in
    Ok (take (Z.to_nat lo) b ++ take n src ++ drop (Z.to_nat lo + n)%nat b)
  else Panic.

(** [binary.BigEndian.PutUint16(b[lo:hi], v)]: panics unless the window has
    two bytes. *)
Definition PutUint16 {E} (b : list byte) (lo hi : Z) (v : Z)
  : result E (list byte) :=
  if (0 <=? lo) && (lo <=? hi) && (hi <=? len b) && (2 <=? hi - lo)
  then Ok (<[Z.to_nat (lo + 1) := of_Z v]>
           (<[Z.to_nat lo := of_Z (Z.shiftr v 8)]> b))
  else Panic.

(** [binary.BigEndian.Uint16(b[lo:hi])]. *)
Definition Uint16 {E} (b : list byte) (lo hi : Z) : result E Z :=
  w ← slice b lo hi;
  match w with
  | h :: l :: _ => Ok (Z.lor (Z.shiftl (to_Z h) 8) (to_Z l))
  | _ => Panic
  end.

End Bytes.

(** ** Package [ies] (GTPv0) *)

Module Ies.

Import Bytes.

Inductive error : Set :=
  | ErrTooShortToDecode
  | ErrTooShortToSerialize
  | ErrInvalidLength.

Abbreviation res := (result error).

(** The [IE] struct: [Type uint8], [Length uint16], [Payload []byte]. *)
Record IE : Type := mkIE {
  Type_ : byte;
  Length : Z;
  Payload : list byte
}.

Definition with_Type (t : byte) (i : IE) : IE := mkIE t (Length i) (Payload i).
Definition with_Length (l : Z) (i : IE) : IE := mkIE (Type_ i) l (Payload i).
Definition with_Payload (p : list byte) (i : IE) : IE := mkIE (Type_ i) (Length i) p.

(** [uint16(n)] for an [int]. *)
Definition uint16 (n : Z) : Z := n mod 65536.

(** The static table of TV payload lengths. *)
Definition tvLengthMap (t : byte) : option Z :=
  match to_Z t with
  | 0 => Some 0
  | 1 => Some 1
  | 2 => Some 8
  | 3 => Some 6
  | 4 => Some 4
  | 5 => Some 4
  | 6 => Some 3
  | 8 => Some 1
  | 9 => Some 28
  | 11 => Some 1
  | 12 => Some 3
  | 13 => Some 1
  | 14 => Some 1
  | 15 => Some 1
  | 16 => Some 2
  | 17 => Some 2
  | 18 => Some 3
  | 19 => Some 1
  | 127 => Some 4
  | _ => None
  end.

Definition IsTV (i : IE) : bool := to_Z (Type_ i) <? 128.

Definition Len (i : IE) : Z :=
  match tvLengthMap (Type_ i) with
  | Some l => l + 1
  | None =>
      if to_Z (Type_ i) <? 128
      then 1 + len (Payload i)
      else 3 + len (Payload i)
  end.

Definition SetLength (i : IE) : IE :=
  match tvLengthMap (Type_ i) with
  | Some _ => with_Length 0 i
  | None => with_Length (uint16 (len (Payload i))) i
  end.

Definition New (t : byte) (p : list byte) : IE :=
  SetLength (mkIE t 0 p).

Definition SerializeTo (i : IE) (b : list byte) : res (list byte) :=
  if len b <? Len i then Err ErrTooShortToSerialize
  else
    b ← store b 0 (Type_ i);
    '(offset, b) ← (if negb (IsTV i)
                     then b ← PutUint16 b 1 3 (Length i); Ok (1 + 2, b)
                     else Ok (1, b));
    copy b offset (Len i) (Payload i).

Definition Serialize (i : IE) : res (list byte) :=
  b ← make (Len i);
  SerializeTo i b.

Definition decodeTVFromBytes (i : IE) (b : list byte) : res IE :=
  let l := len b in
  if l <? 2 then Err ErrTooShortToDecode
  else if Len i >? l then Err ErrInvalidLength
  else
    let i := with_Length 0 i in
    p ← slice b 1 (Len i);
    Ok (with_Payload p i).

Definition decodeTLVFromBytes (i : IE) (b : list byte) : res IE :=
  let l := len b in
  if l <? 3 then Err ErrTooShortToDecode
  else
    n ← Uint16 b 1 3;
    let i := with_Length n i in
    if Length i + 3 >? l then Err ErrInvalidLength
    else
      p ← slice b 3 (3 + Length i);
      Ok (with_Payload p i).

Definition DecodeFromBytes (i : IE) (b : list byte) : res IE :=
  if len b <? 2 then Err ErrTooShortToDecode
  else
    t ← index b 0;
    let i := with_Type t i in
    if IsTV i then decodeTVFromBytes i b else decodeTLVFromBytes i b.

(** [&IE{}]: the zero value. *)
Definition zeroIE : IE := mkIE x00 0 [].

Definition Decode (b : list byte) : res IE := DecodeFromBytes zeroIE b.

(** The loop of [DecodeMultiIEs]; [ies] is the slice appended to, and one
    unit of [fuel] is spent per iteration ([Panic] stands for none left,
    which [DecodeMultiIEs] below never reaches). *)
Fixpoint DecodeMultiIEs_loop (fuel : nat) (ies : list IE) (b : list byte)
  : res (list IE) :=
  if len b =? 0 then Ok ies
  else
    match fuel with
    | O => Panic
    | S fuel =>
        i ← Decode b;
        let ies := ies ++ [i] in
        b ← slice_from b (Len i);
        DecodeMultiIEs_loop fuel ies b
    end.

(** Every iteration drops at least one byte ([Len] is at least 1), so
    [length b] iterations always suffice. *)
Definition DecodeMultiIEs (b : list byte) : res (list IE) :=
  DecodeMultiIEs_loop (length b) [] b.

End Ies.
Module IesClaims.
Import Bytes Ies.
(** A payload whose length is valid for its type: the table length for a
    type of the static table, at most 65535 bytes for a TLV type. *)
Definition valid_payload (t : byte) (p : list byte) : bool :=
  match tvLengthMap t with
  | Some l => len p =? l
  | None => (128 <=? to_Z t) && (len p <=? 65535)
  end.

(** The least number of bytes [Decode] needs to see for the format the
    type byte announces. *)
Definition min_header (t : byte) : Z := if to_Z t <? 128 then 2 else 3.

Definition header_short (b : list byte) : bool :=
  match b with
  | [] => true
  | t :: _ => len b <? min_header t
  end.

(** The payload length an IE announces: the table entry for a TV type (no
    entry counts as zero), the 2-byte length field for a TLV type. *)
Definition effective_length (b : list byte) : Z :=
  match b with
  | t :: rest =>
      if to_Z t <? 128 then default 0 (tvLengthMap t)
      else match rest with
           | h :: l :: _ => to_Z h * 256 + to_Z l
           | _ => 0
           end
  | [] => 0
  end.

(** The bytes that follow the type byte (TV) or the type and length bytes
    (TLV). *)
Definition remaining (b : list byte) : Z :=
  match b with
  | t :: _ => len b - (if to_Z t <? 128 then 1 else 3)
  | [] => 0
  end.

(** The IE built from a type and a payload, and its encoding. *)
Definition build (tp : byte * list byte) : IE := New tp.1 tp.2.

Definition encoded (tp : byte * list byte) (w : list byte) : Prop :=
  Serialize (build tp) = Ok w.

(** [b] with its last byte cut off. *)
Definition truncate1 (b : list byte) : list byte := take (length b - 1) b.

(** Some iteration of the loop of [DecodeMultiIEs] on [b] reaches a
    [Decode] that fails with [e]. *)
Inductive inner_decode_fails : list byte -> error -> Prop :=
  | fails_now (b : list byte) (e : error) :
      b <> [] -> Decode b = Err e -> inner_decode_fails b e
  | fails_later (b : list byte) (i : IE) (e : error) :
      b <> [] -> Decode b = Ok i ->
      inner_decode_fails (drop (Z.to_nat (Len i)) b) e ->
      inner_decode_fails b e.

End IesClaims.

(** ** Package [ies] (GTPv0): the named types and the value constructors *)

Module Binary.
Import Bytes.
(** [binary.BigEndian.PutUint32(b[lo:hi], v)]: panics unless the window has
    four bytes. *)
Definition PutUint32 {E} (b : list byte) (lo hi : Z) (v : Z)
  : result E (list byte) :=
  if (0 <=? lo) && (lo <=? hi) && (hi <=? len b) && (4 <=? hi - lo)
  then Ok (<[Z.to_nat (lo + 3) := of_Z v]>
           (<[Z.to_nat (lo + 2) := of_Z (Z.shiftr v 8)]>
            (<[Z.to_nat (lo + 1) := of_Z (Z.shiftr v 16)]>
             (<[Z.to_nat lo := of_Z (Z.shiftr v 24)]> b))))
  else Panic.
End Binary.

Module IesValues.
Import Bytes Binary Ies.

(** The named TV types. *)
Definition Cause : byte := x01.
Definition IMSI : byte := x02.
Definition RouteingAreaIdentity : byte := x03.
Definition TemporaryLogicalLinkIdentity : byte := x04.
Definition PacketTMSI : byte := x05.
Definition QualityOfServiceProfile : byte := x06.
Definition ReorderingRequired : byte := x08.
Definition AuthenticationTriplet : byte := x09.
Definition MAPCause : byte := x0b.
Definition PTMSISignature : byte := x0c.
Definition MSValidated : byte := x0d.
Definition Recovery : byte := x0e.
Definition SelectionMode : byte := x0f.
Definition FlowLabelDataI : byte := x10.
Definition FlowLabelSignalling : byte := x11.
Definition FlowLabelDataII : byte := x12.
Definition MSNotReachableReason : byte := x13.
Definition ChargingID : byte := x7f.

(** The named TLV types. *)
Definition EndUserAddress : byte := x80.
Definition MMContext : byte := x81.
Definition PDPContext : byte := x82.
Definition AccessPointName : byte := x83.
Definition ProtocolConfigurationOptions : byte := x84.
Definition GSNAddress : byte := x85.
Definition MSISDN : byte := x86.
Definition ChargingGatewayAddress : byte := xfb.
Definition PrivateExtension : byte := xff.

Definition newUint8ValIE (t v : byte) : IE := New t [v].

(** [PutUint16] writes through [i.Payload], the slice [New] was given. *)
Definition newUint16ValIE (t : byte) (v : Z) : res IE :=
  p ← make 2;
  let i := New t p in
  p ← PutUint16 (Payload i) 0 (len (Payload i)) v;
  Ok (with_Payload p i).

Definition newUint32ValIE (t : byte) (v : Z) : res IE :=
  p ← make 4;
  let i := New t p in
  p ← PutUint32 (Payload i) 0 (len (Payload i)) v;
  Ok (with_Payload p i).

(** [[]byte(str)] is the string's bytes. *)
Definition newStringIE (t : byte) (str : string) : IE :=
  New t (String.list_byte_of_string str).

End IesValues.

Module IesShapes.
Import Bytes Ies.

(** The bytes [SerializeTo] writes before the payload: the type, and for a
    TLV type the Length field, high byte first. *)
Definition header (i : IE) : list byte :=
  if IsTV i then [Type_ i]
  else [Type_ i; of_Z (Z.shiftr (Length i) 8); of_Z (Length i)].

(** How many payload bytes [SerializeTo] copies. *)
Definition copied (i : IE) : nat :=
  Z.to_nat (Z.min (Len i - len (header i)) (len (Payload i))).

(** The encodings of a list of IEs, one after the other. *)
Definition encode_all (l : list IE) : res (list byte) :=
  ws ← mapM Serialize l; Ok (concat ws).

(** The number a byte string denotes, most significant byte first. *)
Definition be_value (p : list byte) : Z :=
  fold_left (fun acc x => acc * 256 + to_Z x) p 0.

(** Encoding the IE built from a type and a payload, then decoding it. *)
Definition roundtrip (t : byte) (p : list byte) : res IE :=
  w ← Serialize (New t p); Decode w.

Definition named_TV : list byte :=
  [IesValues.Cause; IesValues.IMSI; IesValues.RouteingAreaIdentity;
   IesValues.TemporaryLogicalLinkIdentity; IesValues.PacketTMSI;
   IesValues.QualityOfServiceProfile; IesValues.ReorderingRequired;
   IesValues.AuthenticationTriplet; IesValues.MAPCause; IesValues.PTMSISignature;
   IesValues.MSValidated; IesValues.Recovery; IesValues.SelectionMode; IesValues.FlowLabelDataI;
   IesValues.FlowLabelSignalling; IesValues.FlowLabelDataII; IesValues.MSNotReachableReason;
   IesValues.ChargingID].

Definition named_TLV : list byte :=
  [IesValues.EndUserAddress; IesValues.MMContext; IesValues.PDPContext; IesValues.AccessPointName;
   IesValues.ProtocolConfigurationOptions; IesValues.GSNAddress; IesValues.MSISDN;
   IesValues.ChargingGatewayAddress; IesValues.PrivateExtension].

End IesShapes.

(** ** Package [v2] (GTPv2-C): what the S-GW handlers use of it

    The handlers of the S-GW example are embedded from their source;
    the source of package [v2] and of its sub-packages [v2/ies] and
    [v2/messages] is not part of the verified sources.  Everything in
    module [v2] is modelled from the specification's description of that
    interface, and kept to what the handlers call. *)

Module v2.

(** A [net.Addr] / [*net.UDPAddr], by its printed host and port. *)
Record UDPAddr : Set := mkAddr { IP : string; Port : string }.

#[global] Instance UDPAddr_eq_dec : EqDecision UDPAddr.
Proof. solve_decision. Defined.

(** Modelled from the spec: the interface roles a TEID is recorded under.
    The constants' numeric codes are not in the handlers' source, which
    only needs them distinct, so they are an enumeration, with
    [IFTypeOther] for a code received on the wire that is none of the
    named ones. *)
Inductive IFType : Set :=
  | IFTypeS1USGWGTPU
  | IFTypeS5S8SGWGTPU
  | IFTypeS5S8SGWGTPC
  | IFTypeS5S8PGWGTPC
  | IFTypeS11MMEGTPC
  | IFTypeS11S4SGWGTPC
  | IFTypeOther (code : N).

#[global] Instance IFType_eq_dec : EqDecision IFType.
Proof. solve_decision. Defined.

Definition IFType_to_N (t : IFType) : N :=
  match t with
  | IFTypeS1USGWGTPU => 0
  | IFTypeS5S8SGWGTPU => 1
  | IFTypeS5S8SGWGTPC => 2
  | IFTypeS5S8PGWGTPC => 3
  | IFTypeS11MMEGTPC => 4
  | IFTypeS11S4SGWGTPC => 5
  | IFTypeOther code => 6 + code
  end%N.

Definition IFType_of_N (n : N) : IFType :=
  match n with
  | 0 => IFTypeS1USGWGTPU
  | 1 => IFTypeS5S8SGWGTPU
  | 2 => IFTypeS5S8SGWGTPC
  | 3 => IFTypeS5S8PGWGTPC
  | 4 => IFTypeS11MMEGTPC
  | 5 => IFTypeS11S4SGWGTPC
  | _ => IFTypeOther (n - 6)
  end%N.

#[global] Instance IFType_countable : Countable IFType.
Proof.
  refine (inj_countable' IFType_to_N IFType_of_N _).
  intros []; try reflexivity.
  unfold IFType_to_N, IFType_of_N.
  destruct code as [|p]; [reflexivity|].
  replace (6 + N.pos p - 6)%N with (N.pos p) by lia.
  destruct (6 + N.pos p)%N as [|q] eqn:E; [lia|].
  do 3 (destruct q as [q|q|]; try lia; try reflexivity).
Defined.

(** Modelled from the spec: the protocol-level cause codes the handlers put
    on the wire. *)
Inductive CauseCode : Set :=
  | CauseRequestAccepted
  | CauseNoResourcesAvailable
  | CausePGWNotResponding
  | CauseOther (code : N).

#[global] Instance CauseCode_eq_dec : EqDecision CauseCode.
Proof. solve_decision. Defined.

(** *** Sub-package [v2/ies] *)

Module ies.

(** Modelled from the spec: the IE type codes; the handlers only compare
    and report them. *)
Inductive IEType : Set :=
  | IMSI
  | Cause
  | AccessPointName
  | EPSBearerID
  | MobileEquipmentIdentity
  | MSISDN
  | Indication
  | RATType
  | ServingNetwork
  | FullyQualifiedTEID
  | BearerContext
  | ChargingID
  | BearerQoS
  | FullyQualifiedCSID
  | OtherType (code : N).

#[global] Instance IEType_eq_dec : EqDecision IEType.
Proof. solve_decision. Defined.

(** Modelled from the spec: the decoded content of an IE, as its typed
    accessors ([TEID()], [IPAddress()], [IMSI()], ...) present it. *)
Inductive Value : Set :=
  | NoValue
  | Text (s : string)
  | Number (n : N)
  | PLMN (mcc mnc : string)
  | CauseValue (cause : CauseCode)
  | FTEID (ifType : IFType) (teid : N) (v4 v6 : string)
  | CSID (nodeID : string) (csid : N)
  | QoS (params : list N).

(** Modelled from the spec: an IE has a type, an instance discriminator, a
    payload and, when grouped, an ordered list of child IEs. *)
#[local] Unset Elimination Schemes.
Inductive IE : Set :=
  | mkIE (Type_ : IEType) (instance : N) (value : Value) (ChildIEs : list IE).
#[local] Set Elimination Schemes.

Definition Type_ (i : IE) : IEType := let 'mkIE t _ _ _ := i in t.
Definition Instance (i : IE) : N := let 'mkIE _ n _ _ := i in n.
Definition value (i : IE) : Value := let 'mkIE _ _ v _ := i in v.
Definition ChildIEs (i : IE) : list IE := let 'mkIE _ _ _ c := i in c.

Definition WithInstance (n : N) (i : IE) : IE :=
  mkIE (Type_ i) n (value i) (ChildIEs i).

(** Modelled from the spec: the typed accessors of an IE ([TEID()],
    [InterfaceType()], [IPAddress()]; [text] stands for [IMSI()],
    [MSISDN()], [MobileEquipmentIdentity()] and [AccessPointName()],
    [number] for [RATType()]); on an IE of another kind they return the
    zero value. *)
Definition TEID (i : IE) : N :=
  match value i with FTEID _ teid _ _ => teid | _ => 0%N end.
Definition InterfaceType (i : IE) : IFType :=
  match value i with FTEID ifType _ _ _ => ifType | _ => IFTypeOther 0 end.
Definition IPAddress (i : IE) : string :=
  match value i with FTEID _ _ v4 _ => v4 | _ => EmptyString end.
Definition text (i : IE) : string :=
  match value i with Text s => s | _ => EmptyString end.
Definition MCC (i : IE) : string :=
  match value i with PLMN mcc _ => mcc | _ => EmptyString end.
Definition MNC (i : IE) : string :=
  match value i with PLMN _ mnc => mnc | _ => EmptyString end.
Definition number (i : IE) : N :=
  match value i with Number n => n | _ => 0%N end.

(** Modelled from the spec: the constructors the handlers call.
    [NewCause] keeps the cause value of its five arguments, the others
    being zero or nil at every call. *)
Definition NewCause (cause : CauseCode) : IE := mkIE Cause 0 (CauseValue cause) [].
Definition NewEPSBearerID (ebi : N) : IE := mkIE EPSBearerID 0 (Number ebi) [].
Definition NewBearerQoS (params : list N) : IE := mkIE BearerQoS 0 (QoS params) [].
Definition NewFullyQualifiedCSID (nodeID : string) (csid : N) : IE :=
  mkIE FullyQualifiedCSID 0 (CSID nodeID csid) [].
Definition NewFullyQualifiedTEID (ifType : IFType) (teid : N) (v4 v6 : string) : IE :=
  mkIE FullyQualifiedTEID 0 (FTEID ifType teid v4 v6) [].
Definition NewBearerContext (children : list IE) : IE :=
  mkIE BearerContext 0 NoValue children.

(** Modelled from the spec: a grouped IE supports [add(childIE)] and
    [remove(type, instance)]. *)
Definition Add (child : IE) (i : IE) : IE :=
  mkIE (Type_ i) (Instance i) (value i) (ChildIEs i ++ [child]).
Definition Remove (t : IEType) (instance : N) (i : IE) : IE :=
  mkIE (Type_ i) (Instance i) (value i)
    (filter (fun c => ~ (Type_ c = t /\ Instance c = instance)) (ChildIEs i)).

End ies.

(** *** Errors

    Modelled from the spec: the error taxonomy of package [v2], with
    [ErrWrap] for [errors.Wrap] and [ErrNet] for the errors of package
    [net] and of the transport. *)

Inductive error : Set :=
  | ErrRequiredIEMissing (t : ies.IEType)
  | ErrUnknownIMSI
  | ErrUnknownTEID
  | ErrUnknownInterface
  | ErrUnexpectedType
  | ErrTimeout
  | ErrWrap (msg : string) (cause : error)
  | ErrNet (msg : string).

#[global] Instance error_eq_dec : EqDecision error.
Proof. solve_decision. Defined.

Abbreviation res := (result error).

(** *** Sub-package [v2/messages]

    Modelled from the spec: each message kind exposes named accessors bound
    to specific IE types; the records below hold the fields the handlers
    read or write, [None] standing for a nil IE. *)

Module messages.

Module CreateSessionRequest.
Record t : Set := mk {
  TEID : N;
  SequenceNumber : N;
  IMSI : option ies.IE;
  MSISDN : option ies.IE;
  MEI : option ies.IE;
  ULI : option ies.IE;
  ServingNetwork : option ies.IE;
  RATType : option ies.IE;
  IndicationFlags : option ies.IE;
  SenderFTEIDC : option ies.IE;
  PGWS5S8FTEIDC : option ies.IE;
  APN : option ies.IE;
  SelectionMode : option ies.IE;
  PDNType : option ies.IE;
  PAA : option ies.IE;
  APNRestriction : option ies.IE;
  AMBR : option ies.IE;
  MMEFQCSID : option ies.IE
}.
End CreateSessionRequest.

Module CreateSessionResponse.
Record t : Set := mk {
  TEID : N;
  SequenceNumber : N;
  Cause : option ies.IE;
  SenderFTEIDC : option ies.IE;
  SGWFQCSID : option ies.IE;
  BearerContextsCreated : option ies.IE;
  Others : list ies.IE
}.
End CreateSessionResponse.

Module ModifyBearerRequest.
Record t : Set := mk {
  TEID : N;
  SequenceNumber : N;
  BearerContextsToBeModified : option ies.IE
}.
End ModifyBearerRequest.

Module ModifyBearerResponse.
Record t : Set := mk {
  TEID : N;
  SequenceNumber : N;
  Cause : option ies.IE;
  BearerContextsModified : option ies.IE
}.
End ModifyBearerResponse.

(** Modelled from the spec: what goes over a connection is one of the
    typed messages above or, for the request [CreateSession] builds, the
    list of IEs it was given. *)
Inductive Message : Set :=
  | CSReq (m : CreateSessionRequest.t)
  | CSReqOf (ies : list ies.IE)
  | CSRsp (m : CreateSessionResponse.t)
  | MBReq (m : ModifyBearerRequest.t)
  | MBRsp (m : ModifyBearerResponse.t)
  | OtherMessage (msgType : N) (teid seq : N).

Definition Sequence (m : Message) : N :=
  match m with
  | CSReq m => CreateSessionRequest.SequenceNumber m
  | CSReqOf _ => 0%N
  | CSRsp m => CreateSessionResponse.SequenceNumber m
  | MBReq m => ModifyBearerRequest.SequenceNumber m
  | MBRsp m => ModifyBearerResponse.SequenceNumber m
  | OtherMessage _ _ seq => seq
  end.

Definition SetSequenceNumber (seq : N) (m : Message) : Message :=
  match m with
  | CSReq m =>
      let 'CreateSessionRequest.mk a _ c d e f g h i j k l n o p q r s := m in
      CSReq (CreateSessionRequest.mk a seq c d e f g h i j k l n o p q r s)
  | CSReqOf l => CSReqOf l
  | CSRsp m =>
      let 'CreateSessionResponse.mk a _ c d e f g := m in
      CSRsp (CreateSessionResponse.mk a seq c d e f g)
  | MBReq m =>
      let 'ModifyBearerRequest.mk a _ c := m in
      MBReq (ModifyBearerRequest.mk a seq c)
  | MBRsp m =>
      let 'ModifyBearerResponse.mk a _ c d := m in
      MBRsp (ModifyBearerResponse.mk a seq c d)
  | OtherMessage ty teid _ => OtherMessage ty teid seq
  end.

(** Modelled from the spec:
    [NewCreateSessionResponse(teid, seq, ies...)] with the one IE the
    handler passes, a Cause. *)
Definition NewCreateSessionResponse (teid seq : N) (cause : ies.IE)
  : CreateSessionResponse.t :=
  CreateSessionResponse.mk teid seq (Some cause) None None None [].

(** Modelled from the spec:
    [NewModifyBearerResponse(teid, seq, ies...)] with the two IEs the
    handler passes, a Cause and a bearer context. *)
Definition NewModifyBearerResponse (teid seq : N) (cause brCtx : ies.IE)
  : ModifyBearerResponse.t :=
  ModifyBearerResponse.mk teid seq (Some cause) (Some brCtx).

End messages.

(** *** Sessions and bearers *)

(** Modelled from the spec: one QoS-scoped data flow within a Session. *)
Record Bearer : Type := mkBearer {
  EBI : N;
  APN : string;
  RemoteAddress : option UDPAddr;
  OutgoingTEID : N
}.

(** Modelled from the spec: one subscriber's control-plane context on one
    connection, with its mapping from interface role to TEID and its
    default bearer. *)
Record Session : Type := mkSession {
  PeerAddr : UDPAddr;
  IMSI : string;
  MSISDN : string;
  IMEI : string;
  MCC : string;
  MNC : string;
  RATType : N;
  teidMap : gmap IFType N;
  DefaultBearer : Bearer;
  isActive : bool
}.

(** Assignments to the fields of a Session and of a Bearer. *)
Definition set_IMSI (v : string) (s : Session) : Session :=
  mkSession (PeerAddr s) v (MSISDN s) (IMEI s) (MCC s) (MNC s) (RATType s)
    (teidMap s) (DefaultBearer s) (isActive s).
Definition set_MSISDN (v : string) (s : Session) : Session :=
  mkSession (PeerAddr s) (IMSI s) v (IMEI s) (MCC s) (MNC s) (RATType s)
    (teidMap s) (DefaultBearer s) (isActive s).
Definition set_IMEI (v : string) (s : Session) : Session :=
  mkSession (PeerAddr s) (IMSI s) (MSISDN s) v (MCC s) (MNC s) (RATType s)
    (teidMap s) (DefaultBearer s) (isActive s).
Definition set_MCC (v : string) (s : Session) : Session :=
  mkSession (PeerAddr s) (IMSI s) (MSISDN s) (IMEI s) v (MNC s) (RATType s)
    (teidMap s) (DefaultBearer s) (isActive s).
Definition set_MNC (v : string) (s : Session) : Session :=
  mkSession (PeerAddr s) (IMSI s) (MSISDN s) (IMEI s) (MCC s) v (RATType s)
    (teidMap s) (DefaultBearer s) (isActive s).
Definition set_RATType (v : N) (s : Session) : Session :=
  mkSession (PeerAddr s) (IMSI s) (MSISDN s) (IMEI s) (MCC s) (MNC s) v
    (teidMap s) (DefaultBearer s) (isActive s).
Definition set_teidMap (v : gmap IFType N) (s : Session) : Session :=
  mkSession (PeerAddr s) (IMSI s) (MSISDN s) (IMEI s) (MCC s) (MNC s)
    (RATType s) v (DefaultBearer s) (isActive s).
Definition set_DefaultBearer (v : Bearer) (s : Session) : Session :=
  mkSession (PeerAddr s) (IMSI s) (MSISDN s) (IMEI s) (MCC s) (MNC s)
    (RATType s) (teidMap s) v (isActive s).
Definition set_isActive (v : bool) (s : Session) : Session :=
  mkSession (PeerAddr s) (IMSI s) (MSISDN s) (IMEI s) (MCC s) (MNC s)
    (RATType s) (teidMap s) (DefaultBearer s) v.

Definition set_EBI (v : N) (b : Bearer) : Bearer :=
  mkBearer v (APN b) (RemoteAddress b) (OutgoingTEID b).
Definition set_APN (v : string) (b : Bearer) : Bearer :=
  mkBearer (EBI b) v (RemoteAddress b) (OutgoingTEID b).

(** Modelled from the spec: a Bearer's remote address and remote TEID are
    set through [SetRemoteAddress] and [SetOutgoingTEID]. *)
Definition SetRemoteAddress (v : UDPAddr) (b : Bearer) : Bearer :=
  mkBearer (EBI b) (APN b) (Some v) (OutgoingTEID b).
Definition SetOutgoingTEID (v : N) (b : Bearer) : Bearer :=
  mkBearer (EBI b) (APN b) (RemoteAddress b) v.

(** Modelled from the spec:
    [NewSession(peerAddr, &Subscriber{Location: &Location{}})] is a session
    with zero-valued subscriber fields, no TEID recorded and its default
    bearer. *)
Definition NewSession (peer : UDPAddr) : Session :=
  mkSession peer EmptyString EmptyString EmptyString EmptyString EmptyString
    0 ∅ (mkBearer 0 EmptyString None 0) false.

(** Modelled from the spec: [addTEID(role, teid)] records the endpoint
    under the role; [getTEID(role)] fails with [UnknownInterface] if the
    role was never recorded. *)
Definition AddTEID (t : IFType) (teid : N) (s : Session) : Session :=
  set_teidMap (<[t := teid]> (teidMap s)) s.

Definition GetTEID (t : IFType) (s : Session) : res N :=
  match teidMap s !! t with
  | Some teid => Ok teid
  | None => Err ErrUnknownInterface
  end.

(** Modelled from the spec: [Activate] moves the Session to its Active
    state. *)
Definition Activate (s : Session) : Session := set_isActive true s.

(** *** Connections and their session store *)

(** A [*Session]. *)
Definition ptr := positive.

(** Modelled from the spec: a connection holds its Sessions indexed by
    subscriber identity, the TEID view being read off the Sessions' own
    endpoint mappings, and a counter from which local TEIDs are
    allocated. *)
Record Conn : Type := mkConn {
  Sessions : gmap string ptr;
  teidCounter : N
}.

(** Modelled from the spec: [getByIMSI] fails with [UnknownIMSI] when
    absent. *)
Definition GetSessionByIMSI (imsi : string) (c : Conn) : res ptr :=
  match Sessions c !! imsi with
  | Some p => Ok p
  | None => Err ErrUnknownIMSI
  end.

Definition has_TEID (heap : gmap ptr Session) (teid : N) (p : ptr) : bool :=
  match heap !! p with
  | Some s => existsb (fun kv => (kv.2 =? teid)%N) (map_to_list (teidMap s))
  | None => false
  end.

(** Modelled from the spec: [getByTEID(t)] returns the Session on which
    [t] is registered, and fails with [UnknownTEID] when there is none. *)
Definition GetSessionByTEID (heap : gmap ptr Session) (teid : N) (c : Conn)
  : res ptr :=
  match list_find (fun kp => has_TEID heap teid kp.2 = true)
                  (map_to_list (Sessions c)) with
  | Some (_, (_, p)) => Ok p
  | None => Err ErrUnknownTEID
  end.

(** Modelled from the spec: [addSession] for an IMSI already present
    discards the existing Session, then inserts the new one. *)
Definition AddSession (heap : gmap ptr Session) (p : ptr) (c : Conn)
  : res Conn :=
  match heap !! p with
  | Some s => Ok (mkConn (<[IMSI s := p]> (delete (IMSI s) (Sessions c)))
                         (teidCounter c))
  | None => Panic
  end.

(** Modelled from the spec: [removeSession] takes the Session out of the
    store; lookups no longer reach it. *)
Definition RemoveSession (p : ptr) (c : Conn) : Conn :=
  mkConn (filter (fun kv => kv.2 <> p) (Sessions c)) (teidCounter c).

(** Modelled from the spec: [newLocalTEID(role)] allocates a fresh TEID
    from the connection's counter and returns it, with the given address,
    as a fully-qualified tunnel-endpoint IE. *)
Definition NewFTEID (t : IFType) (v4 v6 : string) (c : Conn) : Conn * ies.IE :=
  let teid := (teidCounter c + 1)%N in
  (mkConn (Sessions c) teid, ies.NewFullyQualifiedTEID t teid v4 v6).

(** Modelled from the spec: the Session [CreateSession] returns carries
    what the IEs of the request say: the subscriber IEs, the endpoints of
    its top-level tunnel-endpoint IEs, and the access-point name. *)
Definition absorb (s : Session) (oi : option ies.IE) : Session :=
  match oi with
  | None => s
  | Some i =>
      match ies.Type_ i with
      | ies.IMSI => set_IMSI (ies.text i) s
      | ies.MSISDN => set_MSISDN (ies.text i) s
      | ies.MobileEquipmentIdentity => set_IMEI (ies.text i) s
      | ies.ServingNetwork => set_MNC (ies.MNC i) (set_MCC (ies.MCC i) s)
      | ies.RATType => set_RATType (ies.number i) s
      | ies.FullyQualifiedTEID => AddTEID (ies.InterfaceType i) (ies.TEID i) s
      | ies.AccessPointName =>
          set_DefaultBearer (set_APN (ies.text i) (DefaultBearer s)) s
      | _ => s
      end
  end.

Definition sessionOfIEs (raddr : UDPAddr) (l : list (option ies.IE)) : Session :=
  fold_left absorb l (NewSession raddr).

End v2.

(** ** Package [v1]: the user-plane relay table *)

Module v1.

Inductive UPlane : Set := S1U | S5U.

(** Modelled from the spec: a relay entry names the egress connection, the
    egress TEID and the destination address; entries are keyed by ingress
    TEID. *)
Record RelayEntry : Type := mkRelay {
  egress : UPlane;
  egressTEID : N;
  destination : option v2.UDPAddr
}.

Record UPlaneConn : Type := mkUPlaneConn { relayMap : gmap N RelayEntry }.

(** Modelled from the spec:
    [install(ingressTEID, egressConnection, egressTEID, destination)]. *)
Definition RelayTo (to : UPlane) (teidIn teidOut : N)
    (raddr : option v2.UDPAddr) (c : UPlaneConn) : UPlaneConn :=
  mkUPlaneConn (<[teidIn := mkRelay to teidOut raddr]> (relayMap c)).

End v1.

(** ** Package [main]: the S-GW's control-plane handlers *)

Module sgw.

Import v2 v2.messages.

(** The two control-plane connections: the handlers' [s11Conn] argument
    and the global [sgw.s5cConn]. *)
Inductive CPlane : Set := S11 | S5C.

#[global] Instance CPlane_eq_dec : EqDecision CPlane.
Proof. solve_decision. Defined.

(** The lines the handlers send to [sgw.loggerCh]. *)
Inductive Line : Set :=
  | Received (from : UDPAddr)
  | SentCreateSessionRequest (pgwAddr imsi : string)
  | SentWithFailureCode (code : CauseCode) (imsi : string)
  | SessionCreated (imsi : string)
  | StartedListening (imsi : string).

(** What leaves the process: a message written to a connection's
    transport, or a line sent to the logger. *)
Inductive Event : Set :=
  | Sent (c : CPlane) (to : UDPAddr) (m : Message)
  | Logged (l : Line).

(** The state the handlers work on: the Session objects allocated so far
    (the handlers hold pointers into them), the connections' stores, the
    relay tables, and what has left the process, oldest first. *)
Record World : Type := mkWorld {
  heap : gmap ptr Session;
  s11Conn : Conn;
  s5cConn : Conn;
  s1uConn : v1.UPlaneConn;
  s5uConn : v1.UPlaneConn;
  out : list Event
}.

(** What the handlers take from outside during one run: the command-line
    flags, the functions of package [net], whether the transport accepts a
    write, what [s11Session.WaitMessage(5 * time.Second)] returns (the
    message that arrived for the session, or the timeout error once the 5
    seconds have elapsed), and how many steps of the waiting goroutine
    complete before the handler's 10-second timer fires. *)
Record Env : Type := mkEnv {
  s11 : string;
  s5c : string;
  s1u : string;
  s5u : string;
  ResolveUDPAddr : string -> res UDPAddr;
  SplitHostPort : string -> res (string * string);
  transport : CPlane -> UDPAddr -> Message -> option error;
  WaitMessage : res Message;
  timerAfter : nat
}.

(** *** State and error passing *)

Definition M (A : Type) : Type := World -> World * res A.

#[global] Instance M_ret : MRet M := fun _ a w => (w, Ok a).
#[global] Instance M_bind : MBind M := fun _ _ k m w =>
  match m w with
  | (w', Ok a) => k a w'
  | (w', Err e) => (w', Err e)
  | (w', Panic) => (w', Panic)
  end.

#[global] Instance M_fmap : FMap M := fun _ _ f m w =>
  match m w with
  | (w', Ok a) => (w', Ok (f a))
  | (w', Err e) => (w', Err e)
  | (w', Panic) => (w', Panic)
  end.

Definition fail {A} (e : error) : M A := fun w => (w, Err e).
Definition panic {A} : M A := fun w => (w, Panic).
Definition lift {A} (r : res A) : M A := fun w => (w, r).
Definition get : M World := fun w => (w, Ok w).

Definition conn (c : CPlane) (w : World) : Conn :=
  match c with S11 => s11Conn w | S5C => s5cConn w end.

Definition set_conn (c : CPlane) (v : Conn) (w : World) : World :=
  match c with
  | S11 => mkWorld (heap w) v (s5cConn w) (s1uConn w) (s5uConn w) (out w)
  | S5C => mkWorld (heap w) (s11Conn w) v (s1uConn w) (s5uConn w) (out w)
  end.

Definition set_heap (h : gmap ptr Session) (w : World) : World :=
  mkWorld h (s11Conn w) (s5cConn w) (s1uConn w) (s5uConn w) (out w).

Definition emit (e : Event) : M unit := fun w =>
  (mkWorld (heap w) (s11Conn w) (s5cConn w) (s1uConn w) (s5uConn w)
     (out w ++ [e]), Ok tt).

(** [sgw.loggerCh <- line]. *)
Definition log (l : Line) : M unit := emit (Logged l).

(** Allocation of a Session object; the handler gets the pointer. *)
Definition new (s : Session) : M ptr := fun w =>
  let p := fresh (dom (heap w)) in
  (set_heap (<[p := s]> (heap w)) w, Ok p).

(** Reading and writing through a [*Session]. *)
Definition load (p : ptr) : M Session := fun w =>
  match heap w !! p with
  | Some s => (w, Ok s)
  | None => (w, Panic)
  end.

Definition update (p : ptr) (f : Session -> Session) : M unit := fun w =>
  match heap w !! p with
  | Some s => (set_heap (<[p := f s]> (heap w)) w, Ok tt)
  | None => (w, Panic)
  end.

(** The methods of [*v2.Conn] and [*v2.Session], on the state. *)
Definition GetTEID (p : ptr) (t : IFType) : M N :=
  s ← load p; lift (v2.GetTEID t s).

Definition GetSessionByIMSI (c : CPlane) (imsi : string) : M ptr := fun w =>
  (w, v2.GetSessionByIMSI imsi (conn c w)).

Definition GetSessionByTEID (c : CPlane) (teid : N) : M ptr := fun w =>
  (w, v2.GetSessionByTEID (heap w) teid (conn c w)).

Definition AddSession (c : CPlane) (p : ptr) : M unit := fun w =>
  match v2.AddSession (heap w) p (conn c w) with
  | Ok v => (set_conn c v w, Ok tt)
  | Err e => (w, Err e)
  | Panic => (w, Panic)
  end.

Definition RemoveSession (c : CPlane) (p : ptr) : M unit := fun w =>
  (set_conn c (v2.RemoveSession p (conn c w)) w, Ok tt).

Definition NewFTEID (c : CPlane) (t : IFType) (v4 v6 : string) : M ies.IE :=
  fun w =>
    let '(v, ie) := v2.NewFTEID t v4 v6 (conn c w) in
    (set_conn c v w, Ok ie).

(** Modelled from the spec: [send(address, message)] hands the message to
    the transport, whose error, if any, it returns. *)
Definition SendMessageTo (env : Env) (c : CPlane) (to : UDPAddr) (m : Message)
  : M unit :=
  match transport env c to m with
  | Some e => fail e
  | None => emit (Sent c to m)
  end.

(** Modelled from the spec: [respondTo(address, request, response)] copies
    the request's sequence number into the response before sending. *)
Definition RespondTo (env : Env) (c : CPlane) (to : UDPAddr) (req rsp : Message)
  : M unit :=
  SendMessageTo env c to (SetSequenceNumber (Sequence req) rsp).

(** Modelled from the spec: [CreateSession] builds a Create-Session request
    from the IEs it is given (nil ones are skipped), sends it to the peer
    and returns the Session it made from them. *)
Definition CreateSession (env : Env) (c : CPlane) (raddr : UDPAddr)
    (l : list (option ies.IE)) : M ptr :=
  sess ← new (sessionOfIEs raddr l);
  SendMessageTo env c raddr (CSReqOf (omap id l));;
  mret sess.

Definition RelayTo (from to : v1.UPlane) (teidIn teidOut : N)
    (raddr : option UDPAddr) : M unit := fun w =>
  match from with
  | v1.S1U =>
      (mkWorld (heap w) (s11Conn w) (s5cConn w)
         (v1.RelayTo to teidIn teidOut raddr (s1uConn w)) (s5uConn w) (out w),
       Ok tt)
  | v1.S5U =>
      (mkWorld (heap w) (s11Conn w) (s5cConn w)
         (s1uConn w) (v1.RelayTo to teidIn teidOut raddr (s5uConn w)) (out w),
       Ok tt)
  end.

(** *** The goroutine a handler starts, and the [select] that awaits it *)

(** What the [select] gets from the goroutine: a value on [doneCh], an
    error on [failCh], nothing because the goroutine returned without
    sending, or nothing yet because it is still running when the timer
    fires. *)
Inductive Report : Set :=
  | Done
  | Failed (err : error)
  | Returned
  | Running.

Inductive gres (A : Type) : Type :=
  | Next (a : A) (budget : nat)
  | Stop (r : Report)
  | GPanic.
Arguments Next {A} a budget.
Arguments Stop {A} r.
Arguments GPanic {A}.

(** A goroutine body: it runs on the state with a budget of steps, the
    number the timer lets it complete. *)
Definition G (A : Type) : Type := nat -> World -> World * gres A.

#[global] Instance G_ret : MRet G := fun _ a n w => (w, Next a n).
#[global] Instance G_bind : MBind G := fun _ _ k m n w =>
  match m n w with
  | (w', Next a n') => k a n' w'
  | (w', Stop r) => (w', Stop r)
  | (w', GPanic) => (w', GPanic)
  end.

(** One step of the goroutine; an error of the step is what [onErr] makes
    of it. *)
Definition step {A} (m : M A) (onErr : error -> G A) : G A := fun n w =>
  match n with
  | O => (w, Stop Running)
  | S n' =>
      match m w with
      | (w', Ok a) => (w', Next a n')
      | (w', Err e) => onErr e n' w'
      | (w', Panic) => (w', GPanic)
      end
  end.

(** [failCh <- err], [doneCh <- struct{}{}]: received by the [select]
    unless the timer has fired. *)
Definition send {A} (r : Report) : G A := fun n w =>
  match n with
  | O => (w, Stop Running)
  | S _ => (w, Stop r)
  end.

(** [return] without a send. *)
Definition stop {A} : G A := fun _ w => (w, Stop Returned).

Definition gpanic {A} : G A := fun _ w => (w, GPanic).

Definition fails {A} (e : error) : G A := send (Failed e).

(** *** handleCreateSessionRequest *)

(** The goroutine of [handleCreateSessionRequest]: it waits for the P-GW's
    answer and relays it, or answers the MME itself when none comes.
    [Add] on a nil [BearerContextsCreated] dereferences nil; [SetLength]
    recomputes the header's length field, which the messages here do not
    carry. *)
Definition createSessionWaiter (env : Env) (mmeAddr : UDPAddr)
    (csReqFromMME : CreateSessionRequest.t) (s11Session s5Session : ptr)
    (laddr : UDPAddr) (pgwAddrString : string) : G unit :=
  s11mmeTEID ← step (GetTEID s11Session IFTypeS11MMEGTPC) fails;
  waited ← step (mret (WaitMessage env)) fails;
  match waited with
  | Panic => gpanic
  | Err err =>
      let csRspFromSGW :=
        NewCreateSessionResponse s11mmeTEID 0
          (ies.NewCause CauseNoResourcesAvailable) in
      step (RespondTo env S11 mmeAddr (CSReq csReqFromMME) (CSRsp csRspFromSGW))
           fails;;
      step (s ← load s11Session;
            log (SentWithFailureCode CausePGWNotResponding (IMSI s))) fails;;
      fails err
  | Ok message =>
      csRspFromPGW ← match message with
                     | CSRsp m => mret m
                     | _ => fails ErrUnexpectedType
                     end;
      s11IP ← match SplitHostPort env (s11 env) with
              | Ok (host, _) => mret host
              | Err _ => stop
              | Panic => gpanic
              end;
      senderFTEID ←
        step (NewFTEID S11 IFTypeS11S4SGWGTPC s11IP EmptyString) fails;
      s1usgwFTEID ←
        step (NewFTEID S11 IFTypeS1USGWGTPU s11IP EmptyString) fails;
      brCtx ← match CreateSessionResponse.BearerContextsCreated csRspFromPGW with
              | Some brCtx =>
                  mret (ies.Remove ies.ChargingID 0 (ies.Add s1usgwFTEID brCtx))
              | None => gpanic
              end;
      let csRspFromSGW :=
        CreateSessionResponse.mk
          s11mmeTEID
          (CreateSessionResponse.SequenceNumber csRspFromPGW)
          (CreateSessionResponse.Cause csRspFromPGW)
          (Some senderFTEID)
          (Some (ies.WithInstance 1 (ies.NewFullyQualifiedCSID (IP laddr) 1)))
          (Some brCtx)
          (CreateSessionResponse.Others csRspFromPGW) in
      step (RespondTo env S11 mmeAddr (CSReq csReqFromMME) (CSRsp csRspFromSGW))
           fails;;
      step (update s11Session
              (AddTEID (ies.InterfaceType senderFTEID) (ies.TEID senderFTEID)))
           fails;;
      step (update s11Session
              (AddTEID (ies.InterfaceType s1usgwFTEID) (ies.TEID s1usgwFTEID)))
           fails;;
      s11sgwTEID ← step (GetTEID s11Session IFTypeS11S4SGWGTPC) fails;
      s5cpgwTEID ← step (GetTEID s5Session IFTypeS5S8PGWGTPC) fails;
      s5csgwTEID ← step (GetTEID s5Session IFTypeS5S8SGWGTPC) fails;
      step (s ← load s5Session; log (SessionCreated (IMSI s))) fails;;
      send Done
  end.

(** The [select] over [doneCh], [failCh] and [time.After(10 * time.Second)],
    on the state the goroutine has reached.  In the [doneCh] case the
    handler's [err] is nil (it returned earlier otherwise), so the branch
    that removes the session is not taken.  When the goroutine has
    returned without sending, or is still running when the timer fires,
    the timer's case is the one taken. *)
Definition awaitWaiter (env : Env) (s11Session : ptr) (g : G unit) : M unit :=
  fun w =>
    match g (timerAfter env) w with
    | (w', Stop Done) => (update s11Session Activate) w'
    | (w', Stop (Failed err)) =>
        (RemoveSession S11 s11Session;; fail err) w'
    | (w', Stop Returned) | (w', Stop Running) | (w', Next _ _) =>
        (RemoveSession S11 s11Session;; fail ErrTimeout) w'
    | (w', GPanic) => (w', Panic)
    end.

(** The handler up to the start of the goroutine: validation of the
    request, the new S11 session, the request to the P-GW and the new S5
    session.  It returns the locals the rest of the handler uses.  The
    message arrives already asserted to its type: handlers are registered
    per message type. *)
Definition createSessionSetup (env : Env) (mmeAddr : UDPAddr)
    (csReqFromMME : CreateSessionRequest.t)
  : M (ptr * ptr * UDPAddr * string) :=
  log (Received mmeAddr);;
  s11Session ← new (NewSession mmeAddr);
  (* s11Bearer := s11Session.GetDefaultBearer(): the bearer inside it *)
  pgwAddrString ←
    match CreateSessionRequest.PGWS5S8FTEIDC csReqFromMME with
    | Some ie =>
        update s11Session (AddTEID IFTypeS5S8PGWGTPC (ies.TEID ie));;
        mret (ies.IPAddress ie +:+ ":2123")
    | None => fail (ErrRequiredIEMissing ies.FullyQualifiedTEID)
    end;
  match CreateSessionRequest.SenderFTEIDC csReqFromMME with
  | Some ie => update s11Session (AddTEID IFTypeS11MMEGTPC (ies.TEID ie))
  | None => fail (ErrRequiredIEMissing ies.FullyQualifiedTEID)
  end;;
  laddr ← lift (ResolveUDPAddr env (s5c env));
  raddr ← lift (ResolveUDPAddr env pgwAddrString);
  match CreateSessionRequest.IMSI csReqFromMME with
  | Some ie =>
      let imsi := ies.text ie in
      w ← get;
      match v2.GetSessionByIMSI imsi (s11Conn w) with
      | Err err =>
          if decide (err = ErrUnknownIMSI) then mret tt
          else fail (ErrWrap "got something unexpected" err)
      | Ok sess => RemoveSession S11 sess
      | Panic => panic
      end;;
      update s11Session (set_IMSI imsi)
  | None => fail (ErrRequiredIEMissing ies.IMSI)
  end;;
  match CreateSessionRequest.MSISDN csReqFromMME with
  | Some ie => update s11Session (set_MSISDN (ies.text ie))
  | None => fail (ErrRequiredIEMissing ies.MSISDN)
  end;;
  match CreateSessionRequest.MEI csReqFromMME with
  | Some ie => update s11Session (set_IMEI (ies.text ie))
  | None => fail (ErrRequiredIEMissing ies.MobileEquipmentIdentity)
  end;;
  match CreateSessionRequest.APN csReqFromMME with
  | Some ie =>
      update s11Session
        (fun s => set_DefaultBearer (set_APN (ies.text ie) (DefaultBearer s)) s)
  | None => fail (ErrRequiredIEMissing ies.AccessPointName)
  end;;
  match CreateSessionRequest.ServingNetwork csReqFromMME with
  | Some ie =>
      update s11Session (set_MCC (ies.MCC ie));;
      update s11Session (set_MNC (ies.MNC ie))
  | None => fail (ErrRequiredIEMissing ies.ServingNetwork)
  end;;
  match CreateSessionRequest.RATType csReqFromMME with
  | Some ie => update s11Session (set_RATType (ies.number ie))
  | None => fail (ErrRequiredIEMissing ies.RATType)
  end;;
  AddSession S11 s11Session;;
  let s5cIP := IP laddr in
  s5cFTEID ← NewFTEID S5C IFTypeS5S8SGWGTPC s5cIP EmptyString;
  s5uFTEID ←
    ies.WithInstance 2 <$> NewFTEID S5C IFTypeS5S8SGWGTPU s5cIP EmptyString;
  s5Session ←
    CreateSession env S5C raddr
      [ CreateSessionRequest.IMSI csReqFromMME;
        CreateSessionRequest.MSISDN csReqFromMME;
        CreateSessionRequest.MEI csReqFromMME;
        CreateSessionRequest.ServingNetwork csReqFromMME;
        CreateSessionRequest.RATType csReqFromMME;
        CreateSessionRequest.IndicationFlags csReqFromMME;
        Some s5cFTEID;
        CreateSessionRequest.PGWS5S8FTEIDC csReqFromMME;
        CreateSessionRequest.APN csReqFromMME;
        CreateSessionRequest.SelectionMode csReqFromMME;
        CreateSessionRequest.PDNType csReqFromMME;
        CreateSessionRequest.PAA csReqFromMME;
        CreateSessionRequest.APNRestriction csReqFromMME;
        CreateSessionRequest.AMBR csReqFromMME;
        CreateSessionRequest.ULI csReqFromMME;
        Some (ies.NewBearerContext
                [ ies.NewEPSBearerID 5;
                  s5uFTEID;
                  ies.NewBearerQoS [1; 2; 1; 255; 0; 0; 0; 0]%N ]);
        CreateSessionRequest.MMEFQCSID csReqFromMME;
        Some (ies.WithInstance 1 (ies.NewFullyQualifiedCSID s5cIP 1)) ];
  update s5Session
    (AddTEID (ies.InterfaceType s5uFTEID) (ies.TEID s5uFTEID));;
  AddSession S5C s5Session;;
  s5 ← load s5Session;
  log (SentCreateSessionRequest pgwAddrString (IMSI s5));;
  mret (s11Session, s5Session, laddr, pgwAddrString).

Definition handleCreateSessionRequest (env : Env) (mmeAddr : UDPAddr)
    (csReqFromMME : CreateSessionRequest.t) : M unit :=
  '(s11Session, s5Session, laddr, pgwAddrString) ←
    createSessionSetup env mmeAddr csReqFromMME;
  awaitWaiter env s11Session
    (createSessionWaiter env mmeAddr csReqFromMME s11Session s5Session
       laddr pgwAddrString).

(** *** handleModifyBearerRequest *)

(** [bearer] is the pointer to the Session whose default bearer the Go
    argument points into. *)
Definition handleFTEIDU (env : Env) (ie : ies.IE) (session bearer : ptr)
  : M unit :=
  if decide (ies.Type_ ie <> ies.FullyQualifiedTEID) then fail ErrUnexpectedType
  else
    addr ← lift (ResolveUDPAddr env (ies.IPAddress ie +:+ ":2152"));
    update bearer
      (fun s => set_DefaultBearer (SetRemoteAddress addr (DefaultBearer s)) s);;
    update bearer
      (fun s => set_DefaultBearer
                  (SetOutgoingTEID (ies.TEID ie) (DefaultBearer s)) s);;
    update session (AddTEID (ies.InterfaceType ie) (ies.TEID ie)).

(** [for _, ie := range l { ... }], left at the first error. *)
Fixpoint forEach (l : list ies.IE) (body : ies.IE -> M unit) : M unit :=
  match l with
  | [] => mret tt
  | ie :: l => body ie;; forEach l body
  end.

Definition handleModifyBearerRequest (env : Env) (mmeAddr : UDPAddr)
    (mbReqFromMME : ModifyBearerRequest.t) : M unit :=
  log (Received mmeAddr);;
  s11Session ← GetSessionByTEID S11 (ModifyBearerRequest.TEID mbReqFromMME);
  s ← load s11Session;
  s5cSession ← GetSessionByIMSI S5C (IMSI s);
  (* s1uBearer, s5uBearer: the default bearers inside the two sessions *)
  match ModifyBearerRequest.BearerContextsToBeModified mbReqFromMME with
  | Some brCtxIE =>
      forEach (ies.ChildIEs brCtxIE) (fun ie =>
        match ies.Type_ ie with
        | ies.Indication => mret tt
        | ies.FullyQualifiedTEID => handleFTEIDU env ie s11Session s11Session
        | _ => mret tt
        end)
  | None => mret tt
  end;;
  s11mmeTEID ← GetTEID s11Session IFTypeS11MMEGTPC;
  s1usgwTEID ← GetTEID s11Session IFTypeS1USGWGTPU;
  s5usgwTEID ← GetTEID s5cSession IFTypeS5S8SGWGTPU;
  s5uBearer ← DefaultBearer <$> load s5cSession;
  RelayTo v1.S1U v1.S5U s1usgwTEID
    (OutgoingTEID s5uBearer) (RemoteAddress s5uBearer);;
  s1uBearer ← DefaultBearer <$> load s11Session;
  RelayTo v1.S5U v1.S1U s5usgwTEID
    (OutgoingTEID s1uBearer) (RemoteAddress s1uBearer);;
  '(s1uIP, _) ← lift (SplitHostPort env (s1u env));
  let mbRspFromSGW :=
    NewModifyBearerResponse s11mmeTEID 0
      (ies.NewCause CauseRequestAccepted)
      (ies.NewBearerContext
         [ ies.NewCause CauseRequestAccepted;
           ies.NewEPSBearerID (EBI s1uBearer);
           ies.NewFullyQualifiedTEID IFTypeS1USGWGTPU s1usgwTEID s1uIP EmptyString ]) in
  RespondTo env S11 mmeAddr (MBReq mbReqFromMME) (MBRsp mbRspFromSGW);;
  s ← load s11Session;
  log (StartedListening (IMSI s)).

End sgw.

(** ** The vocabulary of the handlers' claims *)

Module SgwClaims.

Import v2 v2.messages sgw.

(** The IEs [handleCreateSessionRequest] requires, with the type it
    reports for each, in the order it checks them. *)
Definition required : list (ies.IEType * (CreateSessionRequest.t -> option ies.IE)) :=
  [ (ies.FullyQualifiedTEID, CreateSessionRequest.PGWS5S8FTEIDC);
    (ies.FullyQualifiedTEID, CreateSessionRequest.SenderFTEIDC);
    (ies.IMSI, CreateSessionRequest.IMSI);
    (ies.MSISDN, CreateSessionRequest.MSISDN);
    (ies.MobileEquipmentIdentity, CreateSessionRequest.MEI);
    (ies.AccessPointName, CreateSessionRequest.APN);
    (ies.ServingNetwork, CreateSessionRequest.ServingNetwork);
    (ies.RATType, CreateSessionRequest.RATType) ].

(** The type of the first required IE that the request lacks. *)
Definition first_missing (req : CreateSessionRequest.t) : option ies.IEType :=
  match list_find (fun tf => ~ is_Some (tf.2 req)) required with
  | Some (_, (t, _)) => Some t
  | None => None
  end.

(** The request lacks one of the IEs the specification lists: the peer's
    control-plane tunnel endpoint, the requester's own tunnel endpoint,
    the subscriber identity, the device identity, the access-point name,
    the network identity, the RAT type. *)
Definition lacks_listed_IE (req : CreateSessionRequest.t) : Prop :=
  CreateSessionRequest.PGWS5S8FTEIDC req = None \/
  CreateSessionRequest.SenderFTEIDC req = None \/
  CreateSessionRequest.IMSI req = None \/
  CreateSessionRequest.MEI req = None \/
  CreateSessionRequest.APN req = None \/
  CreateSessionRequest.ServingNetwork req = None \/
  CreateSessionRequest.RATType req = None.

(** The addresses the handler resolves before it reads the subscriber
    IEs do resolve. *)
Definition addresses_resolve (env : Env) (req : CreateSessionRequest.t) : Prop :=
  (exists laddr, ResolveUDPAddr env (s5c env) = Ok laddr) /\
  (forall ie, CreateSessionRequest.PGWS5S8FTEIDC req = Some ie ->
     exists raddr, ResolveUDPAddr env (ies.IPAddress ie +:+ ":2123") = Ok raddr).

(** The event is a message written to connection [c]. *)
Definition sent_on (c : CPlane) (e : Event) : bool :=
  match e with
  | Sent c' _ _ => bool_decide (c' = c)
  | Logged _ => false
  end.

(** The Session object [p] is registered in the store of [c]. *)
Definition registered (p : ptr) (c : Conn) : Prop :=
  exists imsi, Sessions c !! imsi = Some p.

(** A computation of a handler, or of its goroutine, relates the state it
    starts from to the state it leaves by [R], whatever it returns. *)
Definition M_keeps (R : World -> World -> Prop) {A} (m : M A) : Prop :=
  forall w w' r, m w = (w', r) -> R w w'.

Definition G_keeps (R : World -> World -> Prop) {A} (g : G A) : Prop :=
  forall n w w' r, g n w = (w', r) -> R w w'.

(** What the goroutine of [handleCreateSessionRequest] leaves alone: the
    upstream connection, the entries of the requester-side store, and
    every Session object but the new requester-side one, which stays
    allocated. *)
Definition waiter_frame (p11 : ptr) (w w' : World) : Prop :=
  s5cConn w' = s5cConn w /\
  Sessions (s11Conn w') = Sessions (s11Conn w) /\
  (forall q, q <> p11 -> heap w' !! q = heap w !! q) /\
  (is_Some (heap w !! p11) -> is_Some (heap w' !! p11)).

(** The state changes by events that all satisfy [P] being appended to
    its output. *)
Definition only_emits (P : Event -> Prop) (w w' : World) : Prop :=
  exists tail, out w' = out w ++ tail /\ Forall P tail.

(** What the loop over the bearer-context children leaves alone:
    everything but the Session object it updates, which stays
    allocated. *)
Definition loop_frame (p : ptr) (w w' : World) : Prop :=
  out w' = out w /\
  s11Conn w' = s11Conn w /\
  s5cConn w' = s5cConn w /\
  s1uConn w' = s1uConn w /\
  s5uConn w' = s5uConn w /\
  (forall q, q <> p -> heap w' !! q = heap w !! q) /\
  (is_Some (heap w !! p) -> is_Some (heap w' !! p)).

End SgwClaims.

(** ** Sample runs: a requester, a request and small states *)

Module Samples.

Import v2 v2.messages sgw.

Definition mme : UDPAddr := mkAddr "10.0.0.1" "2123".

Definition imsi : string := "001010000000001".

(** A Create-Session request with every required IE. *)
Definition request : CreateSessionRequest.t :=
  CreateSessionRequest.mk 0 7
    (Some (ies.mkIE ies.IMSI 0 (ies.Text imsi) []))
    (Some (ies.mkIE ies.MSISDN 0 (ies.Text "8130900000001") []))
    (Some (ies.mkIE ies.MobileEquipmentIdentity 0 (ies.Text "123450000000001") []))
    None
    (Some (ies.mkIE ies.ServingNetwork 0 (ies.PLMN "001" "01") []))
    (Some (ies.mkIE ies.RATType 0 (ies.Number 6) []))
    None
    (Some (ies.NewFullyQualifiedTEID IFTypeS11MMEGTPC 100 "10.0.0.1" EmptyString))
    (Some (ies.NewFullyQualifiedTEID IFTypeS5S8PGWGTPC 0 "10.0.0.3" EmptyString))
    (Some (ies.mkIE ies.AccessPointName 0 (ies.Text "internet") []))
    None None None None None None.

(** The same request without its RAT type. *)
Definition request_without_rat : CreateSessionRequest.t :=
  CreateSessionRequest.mk 0 7
    (CreateSessionRequest.IMSI request)
    (CreateSessionRequest.MSISDN request)
    (CreateSessionRequest.MEI request)
    None
    (CreateSessionRequest.ServingNetwork request)
    None
    None
    (CreateSessionRequest.SenderFTEIDC request)
    (CreateSessionRequest.PGWS5S8FTEIDC request)
    (CreateSessionRequest.APN request)
    None None None None None None.

(** An environment whose addresses resolve; the answer of the peer, the
    transport and the timer are the parameters. *)
Definition env (wait : res Message)
    (tr : CPlane -> UDPAddr -> Message -> option error) (timer : nat) : Env :=
  mkEnv "10.0.0.2:2123" "10.0.1.2:2123" "10.0.2.2:2152" "10.0.3.2:2152"
    (fun a => Ok (mkAddr a "udp"))
    (fun a => Ok (a, "2123"))
    tr wait timer.

Definition accepts : CPlane -> UDPAddr -> Message -> option error :=
  fun _ _ _ => None.

(** A transport that refuses what is written to the requester-side
    connection. *)
Definition refuses_S11 : CPlane -> UDPAddr -> Message -> option error :=
  fun c _ _ =>
    match c with
    | S11 => Some (ErrNet "write: network is unreachable")
    | S5C => None
    end.

Definition empty_conn : Conn := mkConn ∅ 0.
Definition no_relay : v1.UPlaneConn := v1.mkUPlaneConn ∅.

(** No session anywhere. *)
Definition fresh_world : World :=
  mkWorld ∅ empty_conn empty_conn no_relay no_relay [].

(** The subscriber already has a Session on the S11 connection. *)
Definition old_session : Session :=
  set_IMSI imsi (AddTEID IFTypeS11MMEGTPC 90 (NewSession mme)).

Definition world_with_session : World :=
  mkWorld {[ 1%positive := old_session ]}
    (mkConn {[ imsi := 1%positive ]} 0) empty_conn no_relay no_relay [].

(** An S11 session and its S5 peer, as a completed Create-Session flow
    leaves them ... *)
Definition s11_established : Session :=
  set_IMSI imsi
    (AddTEID IFTypeS1USGWGTPU 202
       (AddTEID IFTypeS11S4SGWGTPC 201
          (AddTEID IFTypeS11MMEGTPC 100 (NewSession mme)))).

Definition s5_established : Session :=
  set_IMSI imsi
    (AddTEID IFTypeS5S8SGWGTPU 302
       (AddTEID IFTypeS5S8SGWGTPC 301
          (NewSession (mkAddr "10.0.0.3:2123" "udp")))).

Definition world_established : World :=
  mkWorld {[ 1%positive := s11_established; 2%positive := s5_established ]}
    (mkConn {[ imsi := 1%positive ]} 202)
    (mkConn {[ imsi := 2%positive ]} 302)
    no_relay no_relay [].

(** ... and as a flow still waiting for the P-GW holds them: the S11
    session has no local TEID yet. *)
Definition s11_pending : Session :=
  set_IMSI imsi (AddTEID IFTypeS11MMEGTPC 100 (NewSession mme)).

Definition world_pending : World :=
  mkWorld {[ 1%positive := s11_pending; 2%positive := s5_established ]}
    (mkConn {[ imsi := 1%positive ]} 0)
    (mkConn {[ imsi := 2%positive ]} 302)
    no_relay no_relay [].

(** A Modify-Bearer request carrying the eNodeB's tunnel endpoint. *)
Definition modify_request (teid : N) : ModifyBearerRequest.t :=
  ModifyBearerRequest.mk teid 8
    (Some (ies.NewBearerContext
             [ ies.NewEPSBearerID 5;
               ies.NewFullyQualifiedTEID (IFTypeOther 0) 400 "10.0.2.9" EmptyString ])).

End Samples.

(** ** Package [main]: the handlers of the deletion flows

    [handleDeleteSessionRequest] and [handleDeleteBearerResponse] exchange
    messages of their own kinds and do not touch the relay tables; they
    are embedded over the state they act on: the Session objects, the two
    stores and what leaves the process. *)

Module sgwDelete.

Import v2.

Module DeleteSessionRequest.
Record t : Set := mk {
  TEID : N;
  SequenceNumber : N;
  IEs : list ies.IE
}.
End DeleteSessionRequest.

Module DeleteSessionResponse.
Record t : Set := mk {
  TEID : N;
  SequenceNumber : N;
  Cause : option ies.IE;
  Others : list ies.IE
}.
End DeleteSessionResponse.

(** Modelled from the spec: the message kinds of the deletion flows, with
    the header fields and the IEs the handlers read or write. *)
Inductive Message : Set :=
  | DSReq (m : DeleteSessionRequest.t)
  | DSRsp (m : DeleteSessionResponse.t)
  | OtherMessage (msgType : N) (teid seq : N) (ies : list ies.IE).

Definition TEID (m : Message) : N :=
  match m with
  | DSReq m => DeleteSessionRequest.TEID m
  | DSRsp m => DeleteSessionResponse.TEID m
  | OtherMessage _ teid _ _ => teid
  end.

Definition Sequence (m : Message) : N :=
  match m with
  | DSReq m => DeleteSessionRequest.SequenceNumber m
  | DSRsp m => DeleteSessionResponse.SequenceNumber m
  | OtherMessage _ _ seq _ => seq
  end.

Definition SetSequenceNumber (seq : N) (m : Message) : Message :=
  match m with
  | DSReq m =>
      DSReq (DeleteSessionRequest.mk (DeleteSessionRequest.TEID m) seq
               (DeleteSessionRequest.IEs m))
  | DSRsp m =>
      DSRsp (DeleteSessionResponse.mk (DeleteSessionResponse.TEID m) seq
               (DeleteSessionResponse.Cause m) (DeleteSessionResponse.Others m))
  | OtherMessage ty teid _ l => OtherMessage ty teid seq l
  end.

(** [dsRspFromSGW.SetTEID(teid)]. *)
Definition SetTEID (teid : N) (m : DeleteSessionResponse.t)
  : DeleteSessionResponse.t :=
  DeleteSessionResponse.mk teid (DeleteSessionResponse.SequenceNumber m)
    (DeleteSessionResponse.Cause m) (DeleteSessionResponse.Others m).

(** Modelled from the spec: [NewDeleteSessionResponse(teid, seq, ies...)]
    with the one IE the handler passes, a Cause. *)
Definition NewDeleteSessionResponse (teid seq : N) (cause : ies.IE)
  : DeleteSessionResponse.t :=
  DeleteSessionResponse.mk teid seq (Some cause) [].

(** The lines the two handlers send to [sgw.loggerCh]. *)
Inductive Line : Set :=
  | Received (from : UDPAddr)
  | SentWithFailureCode (code : CauseCode) (imsi : string)
  | SessionDeleted (imsi : string).

(** What leaves the handler: a message written to a connection's
    transport, a message handed to a Session, or a line sent to the
    logger. *)
Inductive Event : Set :=
  | Sent (c : sgw.CPlane) (to : UDPAddr) (m : Message)
  | Passed (to : ptr) (m : Message)
  | Logged (l : Line).

Record World : Type := mkWorld {
  heap : gmap ptr Session;
  s11Conn : Conn;
  s5cConn : Conn;
  out : list Event
}.

(** What the handlers take from outside during one run: whether the
    transport accepts a write, what
    [s11Session.WaitMessage(5 * time.Second)] returns, and what
    [v2.PassMessageTo] returns. *)
Record Env : Type := mkEnv {
  transport : sgw.CPlane -> UDPAddr -> Message -> option error;
  WaitMessage : res Message;
  passes : ptr -> Message -> option error
}.

Definition M (A : Type) : Type := World -> World * res A.

#[global] Instance M_ret : MRet M := fun _ a w => (w, Ok a).
#[global] Instance M_bind : MBind M := fun _ _ k m w =>
  match m w with
  | (w', Ok a) => k a w'
  | (w', Err e) => (w', Err e)
  | (w', Panic) => (w', Panic)
  end.

Definition fail {A} (e : error) : M A := fun w => (w, Err e).
Definition lift {A} (r : res A) : M A := fun w => (w, r).

Definition conn (c : sgw.CPlane) (w : World) : Conn :=
  match c with sgw.S11 => s11Conn w | sgw.S5C => s5cConn w end.

Definition set_conn (c : sgw.CPlane) (v : Conn) (w : World) : World :=
  match c with
  | sgw.S11 => mkWorld (heap w) v (s5cConn w) (out w)
  | sgw.S5C => mkWorld (heap w) (s11Conn w) v (out w)
  end.

Definition emit (e : Event) : M unit := fun w =>
  (mkWorld (heap w) (s11Conn w) (s5cConn w) (out w ++ [e]), Ok tt).

Definition log (l : Line) : M unit := emit (Logged l).

Definition load (p : ptr) : M Session := fun w =>
  match heap w !! p with
  | Some s => (w, Ok s)
  | None => (w, Panic)
  end.

Definition GetTEID (p : ptr) (t : IFType) : M N :=
  s ← load p; lift (v2.GetTEID t s).

Definition GetSessionByIMSI (c : sgw.CPlane) (imsi : string) : M ptr := fun w =>
  (w, v2.GetSessionByIMSI imsi (conn c w)).

Definition GetSessionByTEID (c : sgw.CPlane) (teid : N) : M ptr := fun w =>
  (w, v2.GetSessionByTEID (heap w) teid (conn c w)).

Definition RemoveSession (c : sgw.CPlane) (p : ptr) : M unit := fun w =>
  (set_conn c (v2.RemoveSession p (conn c w)) w, Ok tt).

(** Modelled from the spec: [send(address, message)] and
    [respondTo(address, request, response)], as for the other handlers. *)
Definition SendMessageTo (env : Env) (c : sgw.CPlane) (to : UDPAddr) (m : Message)
  : M unit :=
  match transport env c to m with
  | Some e => fail e
  | None => emit (Sent c to m)
  end.

Definition RespondTo (env : Env) (c : sgw.CPlane) (to : UDPAddr) (req rsp : Message)
  : M unit :=
  SendMessageTo env c to (SetSequenceNumber (Sequence req) rsp).

(** Modelled from the spec: [DeleteSession(teid, ies...)] sends a
    Delete-Session request with these IEs to the peer of the Session the
    TEID belongs to. *)
Definition DeleteSession (env : Env) (c : sgw.CPlane) (teid : N)
    (l : list ies.IE) : M unit :=
  sess ← GetSessionByTEID c teid;
  s ← load sess;
  SendMessageTo env c (PeerAddr s) (DSReq (DeleteSessionRequest.mk teid 0 l)).

(** Modelled from the spec: [PassMessageTo(session, message, timeout)]
    hands the message, unmodified, to the Session, and reports an error
    when that does not complete in time. *)
Definition PassMessageTo (env : Env) (p : ptr) (m : Message) : M unit :=
  match passes env p m with
  | Some e => fail e
  | None => emit (Passed p m)
  end.

(** *** handleDeleteSessionRequest *)

(** The goroutine of [handleDeleteSessionRequest].  The [select] that
    awaits it has no timer case, and every path of the goroutine ends in a
    send on [failCh] or on [doneCh]: the handler returns the error sent on
    [failCh], here the error of the computation, or nil after [doneCh]. *)
Definition deleteSessionWaiter (env : Env) (mmeAddr : UDPAddr)
    (dsReqFromMME : DeleteSessionRequest.t) (s11Session : ptr) : M unit :=
  s11mmeTEID ← GetTEID s11Session IFTypeS11MMEGTPC;
  match WaitMessage env with
  | Panic => fun w => (w, Panic)
  | Err err =>
      let dsRspFromSGW :=
        NewDeleteSessionResponse s11mmeTEID 0
          (ies.NewCause CausePGWNotResponding) in
      RespondTo env sgw.S11 mmeAddr (DSReq dsReqFromMME) (DSRsp dsRspFromSGW);;
      s ← load s11Session;
      log (SentWithFailureCode CausePGWNotResponding (IMSI s));;
      fail err
  | Ok message =>
      dsRspFromSGW ← match message with
                     | DSRsp m => mret m
                     | _ => fail ErrUnexpectedType
                     end;
      let dsRspFromSGW := SetTEID s11mmeTEID dsRspFromSGW in
      RespondTo env sgw.S11 mmeAddr (DSReq dsReqFromMME) (DSRsp dsRspFromSGW);;
      s ← load s11Session;
      log (SessionDeleted (IMSI s));;
      RemoveSession sgw.S11 s11Session
  end.

(** The handler up to the start of the goroutine; it returns the
    [s11Session] the goroutine uses.  The message arrives already asserted
    to its type. *)
Definition deleteSessionSetup (env : Env) (mmeAddr : UDPAddr)
    (dsReqFromMME : DeleteSessionRequest.t) : M ptr :=
  log (Received mmeAddr);;
  s11Session ← GetSessionByTEID sgw.S11 (DeleteSessionRequest.TEID dsReqFromMME);
  s ← load s11Session;
  s5Session ← GetSessionByIMSI sgw.S5C (IMSI s);
  s5cpgwTEID ← GetTEID s5Session IFTypeS5S8PGWGTPC;
  s5 ← load s5Session;
  DeleteSession env sgw.S5C s5cpgwTEID
    [ies.NewEPSBearerID (EBI (DefaultBearer s5))];;
  mret s11Session.

Definition handleDeleteSessionRequest (env : Env) (mmeAddr : UDPAddr)
    (dsReqFromMME : DeleteSessionRequest.t) : M unit :=
  s11Session ← deleteSessionSetup env mmeAddr dsReqFromMME;
  deleteSessionWaiter env mmeAddr dsReqFromMME s11Session.

(** *** handleDeleteBearerResponse *)

Definition handleDeleteBearerResponse (env : Env) (mmeAddr : UDPAddr)
    (msg : Message) : M unit :=
  log (Received mmeAddr);;
  s11Session ← GetSessionByTEID sgw.S11 (TEID msg);
  s ← load s11Session;
  s5Session ← GetSessionByIMSI sgw.S5C (IMSI s);
  PassMessageTo env s5Session msg.

End sgwDelete.

Module DeleteSamples.

Import v2 sgwDelete.

(** The two Sessions of a subscriber after a completed Create-Session
    flow, the upstream one with the P-GW's control TEID. *)
Definition s5_with_pgw : Session :=
  AddTEID IFTypeS5S8PGWGTPC 500 Samples.s5_established.

Definition world : World :=
  mkWorld {[ 1%positive := Samples.s11_established; 2%positive := s5_with_pgw ]}
    (mkConn {[ Samples.imsi := 1%positive ]} 202)
    (mkConn {[ Samples.imsi := 2%positive ]} 302)
    [].

(** An environment whose transport accepts every write and in which every
    message is passed on; the answer of the peer is the parameter. *)
Definition env (wait : res Message) : Env :=
  mkEnv (fun _ _ _ => None) wait (fun _ _ => None).

Definition request : DeleteSessionRequest.t :=
  DeleteSessionRequest.mk 201 9 [].

(** The P-GW's answer to the Delete-Session request. *)
Definition pgw_answer : DeleteSessionResponse.t :=
  DeleteSessionResponse.mk 301 0 (Some (ies.NewCause CauseRequestAccepted)) [].

(** A Delete-Bearer response of the MME (message type 100). *)
Definition bearer_response : Message := OtherMessage 100 201 11 [].

End DeleteSamples.

(** ** The vocabulary of the further properties of the handlers *)

Module SgwShapes.
Import v2 v2.messages sgw.

(** The Session object [handleCreateSessionRequest] has built for the
    requester's side when it registers it. *)
Definition s11_of_request (mmeAddr : UDPAddr) (pgw sender imsi msisdn mei apn net rat : ies.IE)
  : Session :=
  mkSession mmeAddr (ies.text imsi) (ies.text msisdn) (ies.text mei)
    (ies.MCC net) (ies.MNC net) (ies.number rat)
    (<[IFTypeS11MMEGTPC := ies.TEID sender]>
       (<[IFTypeS5S8PGWGTPC := ies.TEID pgw]> ∅))
    (mkBearer 0 (ies.text apn) None 0) false.

(** The IEs of the request it sends upstream. *)
Definition upstream_ies (req : CreateSessionRequest.t) (s5cIP : string) (c : N)
  : list ies.IE :=
  omap id
    [ CreateSessionRequest.IMSI req;
      CreateSessionRequest.MSISDN req;
      CreateSessionRequest.MEI req;
      CreateSessionRequest.ServingNetwork req;
      CreateSessionRequest.RATType req;
      CreateSessionRequest.IndicationFlags req;
      Some (ies.NewFullyQualifiedTEID IFTypeS5S8SGWGTPC (c + 1) s5cIP EmptyString);
      CreateSessionRequest.PGWS5S8FTEIDC req;
      CreateSessionRequest.APN req;
      CreateSessionRequest.SelectionMode req;
      CreateSessionRequest.PDNType req;
      CreateSessionRequest.PAA req;
      CreateSessionRequest.APNRestriction req;
      CreateSessionRequest.AMBR req;
      CreateSessionRequest.ULI req;
      Some (ies.NewBearerContext
              [ ies.NewEPSBearerID 5;
                ies.WithInstance 2
                  (ies.NewFullyQualifiedTEID IFTypeS5S8SGWGTPU (c + 1 + 1)
                     s5cIP EmptyString);
                ies.NewBearerQoS [1; 2; 1; 255; 0; 0; 0; 0]%N ]);
      CreateSessionRequest.MMEFQCSID req;
      Some (ies.WithInstance 1 (ies.NewFullyQualifiedCSID s5cIP 1)) ]%N.

(** The requester-side store once the subscriber's previous Session, if
    any, has been taken out. *)
Definition without_previous (imsi : string) (c : Conn) : gmap string ptr :=
  match Sessions c !! imsi with
  | Some old => filter (fun kv => kv.2 <> old) (Sessions c)
  | None => Sessions c
  end.



(** The tunnel-endpoint children of a bearer context, in order. *)
Definition FTEID_children (brCtx : option ies.IE) : list ies.IE :=
  match brCtx with
  | Some brCtxIE =>
      filter (fun c => ies.Type_ c = ies.FullyQualifiedTEID) (ies.ChildIEs brCtxIE)
  | None => []
  end.

(** The state with one more event in its output. *)
Definition with_event (e : Event) (w : World) : World :=
  mkWorld (heap w) (s11Conn w) (s5cConn w) (s1uConn w) (s5uConn w) (out w ++ [e]).

End SgwShapes.

(** ** Further sample runs *)

Module MoreSamples.
Import v2 v2.messages sgw Samples.

(** A transport that refuses what is written to the upstream connection. *)
Definition refuses_S5C : CPlane -> UDPAddr -> Message -> option error :=
  fun c _ _ =>
    match c with
    | S11 => None
    | S5C => Some (ErrNet "write: network is unreachable")
    end.

(** The P-GW's answer to the sample request. *)
Definition pgw_answer : CreateSessionResponse.t :=
  CreateSessionResponse.mk 0 0
    (Some (ies.NewCause CauseRequestAccepted))
    (Some (ies.NewFullyQualifiedTEID IFTypeS5S8PGWGTPC 500 "10.0.0.3" EmptyString))
    None
    (Some (ies.NewBearerContext
             [ ies.NewEPSBearerID 5;
               ies.mkIE ies.ChargingID 0 (ies.Number 9) [] ]))
    [].

(** The subscriber identity IE of the sample request, and the local and
    peer addresses the sample environment resolves for it. *)
Definition imsi_ie : ies.IE := ies.mkIE ies.IMSI 0 (ies.Text imsi) [].
Definition s5c_addr : UDPAddr := mkAddr "10.0.1.2:2123" "udp".
Definition pgw_addr : string := "10.0.0.3:2123".

(** The tunnel endpoint of the eNodeB in the sample Modify-Bearer request. *)
Definition enb_fteid : ies.IE :=
  ies.NewFullyQualifiedTEID (IFTypeOther 0) 400 "10.0.2.9" EmptyString.

End MoreSamples.

(** * Proofs: the GTPv0 IE codec *)

Module IesFacts.

Import Bytes Ies IesClaims.

(** ** Bytes and 16-bit words *)

Lemma to_Z_range (x : byte) : 0 <= to_Z x < 256.
Proof.
  unfold to_Z. pose proof (Byte.to_N_bounded x). lia.
Qed.

Lemma of_to_Z (x : byte) : of_Z (to_Z x) = x.
Proof. destruct x; reflexivity. Qed.

Lemma to_of_Z (v : Z) : to_Z (of_Z v) = v mod 256.
Proof.
  unfold of_Z, to_Z.
  assert (H : 0 <= v mod 256 < 256) by (apply Z.mod_pos_bound; lia).
  destruct (Byte.of_N (Z.to_N (v mod 256))) as [x|] eqn:Hx.
  - apply Byte.to_of_N in Hx. simpl. rewrite Hx. lia.
  - apply Byte.of_N_None_iff in Hx. lia.
Qed.

Lemma land_shiftl8 (h l : Z) : 0 <= l < 256 -> Z.land (Z.shiftl h 8) l = 0.
Proof.
  intros Hl. apply Z.bits_inj'. intros n Hn.
  rewrite Z.land_spec, Z.bits_0.
  destruct (Z.ltb_spec n 8) as [Hlt|Hge].
  - rewrite Z.shiftl_spec_low by lia. reflexivity.
  - destruct (Z.eq_dec l 0) as [->|Hnz].
    + rewrite Z.bits_0. apply andb_false_r.
    + rewrite (Z.bits_above_log2 l n), andb_false_r; [reflexivity|lia|].
      apply Z.lt_le_trans with 8; [|lia].
      apply Z.log2_lt_pow2; simpl; lia.
Qed.

Lemma lor_shiftl8 (h l : Z) :
  0 <= l < 256 -> Z.lor (Z.shiftl h 8) l = h * 256 + l.
Proof.
  intros Hl.
  rewrite <- Z.lxor_lor, <- Z.add_nocarry_lxor by (apply land_shiftl8; lia).
  rewrite Z.shiftl_mul_pow2 by lia. reflexivity.
Qed.

Lemma uint16_bytes (v : Z) :
  0 <= v < 65536 ->
  Z.lor (Z.shiftl (to_Z (of_Z (Z.shiftr v 8))) 8) (to_Z (of_Z v)) = v.
Proof.
  intros Hv. rewrite !to_of_Z, lor_shiftl8 by (apply Z.mod_pos_bound; lia).
  rewrite Z.shiftr_div_pow2 by lia. change (2 ^ 8) with 256.
  rewrite (Z.mod_small (v / 256)) by (split; [apply Z.div_pos|apply Z.div_lt_upper_bound]; lia).
  pose proof (Z.div_mod v 256). lia.
Qed.

(** ** Lengths, the table, and the slice operations *)

Lemma len_cons {A} (x : A) (l : list A) : len (x :: l) = 1 + len l.
Proof. unfold len. simpl length. lia. Qed.

Lemma len_nonneg {A} (l : list A) : 0 <= len l.
Proof. unfold len. lia. Qed.

Lemma tvLengthMap_Some (t : byte) (l : Z) :
  tvLengthMap t = Some l -> to_Z t < 128 /\ 0 <= l <= 28.
Proof.
  intros H. destruct t; vm_compute in H; try discriminate H;
    injection H as <-; vm_compute; intuition congruence.
Qed.

Lemma tvLengthMap_zero (t : byte) : tvLengthMap t = Some 0 <-> t = x00.
Proof.
  split; [|intros ->; reflexivity].
  intros H. destruct t; vm_compute in H; congruence.
Qed.

Lemma Len_pos (i : IE) : 1 <= Len i.
Proof.
  unfold Len. destruct (tvLengthMap (Type_ i)) as [l|] eqn:Hl.
  - apply tvLengthMap_Some in Hl. lia.
  - pose proof (len_nonneg (Payload i)). destruct (_ <? _); lia.
Qed.

Lemma Decode_nil : Decode [] = Err ErrTooShortToDecode.
Proof. reflexivity. Qed.

Lemma Decode_one (t : byte) : Decode [t] = Err ErrTooShortToDecode.
Proof. reflexivity. Qed.

Ltac zbool :=
  repeat match goal with
  | |- context [?a <? ?b] => destruct (Z.ltb_spec a b); try lia
  | |- context [?a <=? ?b] => destruct (Z.leb_spec a b); try lia
  | |- context [?a >? ?b] => rewrite (Z.gtb_ltb a b)
  | |- context [?a =? ?b] => destruct (Z.eqb_spec a b); try lia
  end.

Section BytesLemmas.
Context {E : Type}.

Lemma index_head (t : byte) (rest : list byte) : index (E:=E) (t :: rest) 0 = Ok t.
Proof.
  unfold index. rewrite len_cons. pose proof (len_nonneg rest).
  zbool; reflexivity.
Qed.

Lemma slice_in (b : list byte) (lo hi : Z) :
  0 <= lo -> lo <= hi -> hi <= len b ->
  slice (E:=E) b lo hi = Ok (take (Z.to_nat (hi - lo)) (drop (Z.to_nat lo) b)).
Proof. intros. unfold slice. zbool; reflexivity. Qed.

Lemma slice_from_in (b : list byte) (lo : Z) :
  0 <= lo -> lo <= len b ->
  slice_from (E:=E) b lo = Ok (drop (Z.to_nat lo) b).
Proof. intros. unfold slice_from. zbool; reflexivity. Qed.

Lemma store_head (t v : byte) (rest : list byte) :
  store (E:=E) (t :: rest) 0 v = Ok (v :: rest).
Proof.
  unfold store. rewrite len_cons. pose proof (len_nonneg rest).
  zbool; reflexivity.
Qed.

Lemma copy_in (b src : list byte) (lo hi : Z) :
  0 <= lo -> lo <= hi -> hi <= len b ->
  copy (E:=E) b lo hi src =
    Ok (take (Z.to_nat lo) b
        ++ take (Z.to_nat (Z.min (hi - lo) (len src))) src
        ++ drop (Z.to_nat lo + Z.to_nat (Z.min (hi - lo) (len src)))%nat b).
Proof. intros. unfold copy. zbool; reflexivity. Qed.

Lemma PutUint16_at1 (t x y : byte) (rest : list byte) (v : Z) :
  PutUint16 (E:=E) (t :: x :: y :: rest) 1 3 v =
    Ok (t :: of_Z (Z.shiftr v 8) :: of_Z v :: rest).
Proof.
  unfold PutUint16. rewrite !len_cons. pose proof (len_nonneg rest).
  zbool; reflexivity.
Qed.

Lemma Uint16_at1 (t h l : byte) (rest : list byte) :
  Uint16 (E:=E) (t :: h :: l :: rest) 1 3 =
    Ok (Z.lor (Z.shiftl (to_Z h) 8) (to_Z l)).
Proof.
  unfold Uint16. rewrite slice_in; rewrite ?len_cons; try lia.
  - reflexivity.
  - pose proof (len_nonneg rest). lia.
Qed.

End BytesLemmas.

(** ** What [Decode] returns, by the shape of its input *)

Lemma Len_fresh (t : byte) (n : Z) :
  to_Z t < 128 -> Len (mkIE t n []) = default 0 (tvLengthMap t) + 1.
Proof.
  intros Ht. unfold Len. cbn [Type_ Payload].
  destruct (tvLengthMap t); simpl; [lia|]. zbool; reflexivity.
Qed.

Lemma tv_length_nonneg (t : byte) : 0 <= default 0 (tvLengthMap t).
Proof.
  destruct (tvLengthMap t) eqn:E; [apply tvLengthMap_Some in E|]; simpl; lia.
Qed.

Lemma Decode_tv (t x : byte) (rest : list byte) :
  to_Z t < 128 ->
  Decode (t :: x :: rest) =
    let l := default 0 (tvLengthMap t) in
    if l >? 1 + len rest then Err ErrInvalidLength
    else Ok (mkIE t 0 (take (Z.to_nat l) (x :: rest))).
Proof.
  intros Ht. cbv zeta.
  pose proof (tv_length_nonneg t) as Hl. pose proof (len_nonneg rest) as Hr.
  unfold Decode, DecodeFromBytes, decodeTVFromBytes, IsTV.
  rewrite index_head, !len_cons.
  unfold with_Type, with_Length, with_Payload, zeroIE.
  cbn [mbind result_bind Type_ Length Payload].
  rewrite !Len_fresh by assumption.
  zbool; try reflexivity. rewrite slice_in by (rewrite ?len_cons; lia).
  cbn [mbind result_bind]. rewrite Z.add_simpl_r. reflexivity.
Qed.

Lemma Decode_tlv_short (t x : byte) :
  128 <= to_Z t -> Decode [t; x] = Err ErrTooShortToDecode.
Proof.
  intros Ht. unfold Decode, DecodeFromBytes, decodeTLVFromBytes, IsTV.
  rewrite index_head. change (len [t; x]) with 2.
  cbn [mbind result_bind with_Type Type_].
  zbool; reflexivity.
Qed.

Lemma Decode_tlv (t h l : byte) (pl : list byte) :
  128 <= to_Z t ->
  Decode (t :: h :: l :: pl) =
    let n := Z.lor (Z.shiftl (to_Z h) 8) (to_Z l) in
    if n >? len pl then Err ErrInvalidLength
    else Ok (mkIE t n (take (Z.to_nat n) pl)).
Proof.
  intros Ht. cbv zeta. pose proof (len_nonneg pl) as Hr.
  pose proof (to_Z_range h). pose proof (to_Z_range l).
  assert (Hn : 0 <= Z.lor (Z.shiftl (to_Z h) 8) (to_Z l))
    by (rewrite lor_shiftl8; lia).
  unfold Decode, DecodeFromBytes, decodeTLVFromBytes, IsTV.
  rewrite index_head, Uint16_at1, !len_cons.
  unfold with_Type, with_Length, with_Payload, zeroIE.
  cbn [mbind result_bind Type_ Length Payload].
  zbool; try reflexivity. rewrite slice_in by (rewrite ?len_cons; lia).
  cbn [mbind result_bind]. do 3 f_equal. lia.
Qed.

(** ** What [Serialize] returns, by the kind of type *)

Lemma IsTV_table (i : IE) (l : Z) :
  tvLengthMap (Type_ i) = Some l -> IsTV i = true.
Proof.
  intros H. apply tvLengthMap_Some in H. unfold IsTV. zbool; reflexivity.
Qed.

Lemma replicate_S_Z (n : Z) (x : byte) :
  0 <= n -> replicate (Z.to_nat (n + 1)) x = x :: replicate (Z.to_nat n) x.
Proof. intros. rewrite Z2Nat.inj_add by lia. rewrite Nat.add_comm. reflexivity. Qed.

Lemma len_replicate (n : Z) (x : byte) : 0 <= n -> len (replicate (Z.to_nat n) x) = n.
Proof. intros. unfold len. rewrite length_replicate. lia. Qed.

Lemma Serialize_tv_table (i : IE) (l : Z) :
  tvLengthMap (Type_ i) = Some l ->
  Serialize i =
    Ok (Type_ i :: take (Z.to_nat l) (Payload i)
               ++ replicate (Z.to_nat l - length (Payload i)) x00).
Proof.
  intros Hl. pose proof (tvLengthMap_Some _ _ Hl) as [Ht Hr].
  unfold Serialize, SerializeTo, make.
  assert (HL : Len i = l + 1) by (unfold Len; rewrite Hl; reflexivity).
  rewrite HL, (IsTV_table i l Hl). zbool.
  rewrite replicate_S_Z by lia. cbn [mbind result_bind negb].
  rewrite len_cons, len_replicate by lia. zbool.
  rewrite store_head. cbn [mbind result_bind].
  rewrite copy_in by (rewrite ?len_cons, ?len_replicate; lia).
  change (Z.to_nat 1) with 1%nat. cbn [take drop app Nat.add].
  rewrite Z.add_simpl_r. do 2 f_equal.
  unfold len.
  rewrite take_0, app_nil_l, drop_replicate.
  destruct (Z.min_spec l (Z.of_nat (length (Payload i)))) as [[Hlt ->]|[Hge ->]].
  - f_equal; f_equal; lia.
  - rewrite Nat2Z.id. rewrite !take_ge by lia. f_equal; f_equal; lia.
Qed.

Lemma Serialize_tv_other (i : IE) :
  tvLengthMap (Type_ i) = None -> to_Z (Type_ i) < 128 ->
  Serialize i = Ok (Type_ i :: Payload i).
Proof.
  intros Hl Ht. pose proof (len_nonneg (Payload i)) as Hp.
  unfold Serialize, SerializeTo, make, IsTV.
  assert (HL : Len i = len (Payload i) + 1)
    by (unfold Len; rewrite Hl; zbool; lia).
  rewrite HL. zbool.
  rewrite replicate_S_Z by lia. cbn [mbind result_bind negb].
  rewrite len_cons, len_replicate by lia. zbool.
  rewrite store_head. cbn [mbind result_bind negb].
  rewrite copy_in by (rewrite ?len_cons, ?len_replicate; lia).
  change (Z.to_nat 1) with 1%nat. cbn [take drop app Nat.add].
  rewrite Z.add_simpl_r, Z.min_id. unfold len. rewrite Nat2Z.id.
  rewrite take_0, app_nil_l, drop_replicate, Nat.sub_diag, firstn_all.
  cbn [replicate]. rewrite app_nil_r. reflexivity.
Qed.

Lemma Serialize_tlv (i : IE) :
  128 <= to_Z (Type_ i) ->
  Serialize i =
    Ok (Type_ i :: of_Z (Z.shiftr (Length i) 8) :: of_Z (Length i) :: Payload i).
Proof.
  intros Ht. pose proof (len_nonneg (Payload i)) as Hp.
  assert (Hl : tvLengthMap (Type_ i) = None).
  { destruct (tvLengthMap (Type_ i)) eqn:E; [|reflexivity].
    apply tvLengthMap_Some in E. lia. }
  unfold Serialize, SerializeTo, make, IsTV.
  assert (HL : Len i = len (Payload i) + 1 + 1 + 1)
    by (unfold Len; rewrite Hl; zbool; lia).
  rewrite HL. zbool.
  rewrite !replicate_S_Z by lia. cbn [mbind result_bind negb].
  rewrite !len_cons, len_replicate by lia. zbool.
  rewrite store_head. cbn [mbind result_bind negb].
  rewrite PutUint16_at1. cbn [mbind result_bind].
  rewrite copy_in by (rewrite ?len_cons, ?len_replicate; lia).
  change (Z.to_nat (1 + 2)) with 3%nat. cbn [take drop app Nat.add].
  replace (len (Payload i) + 1 + 1 + 1 - (1 + 2)) with (len (Payload i)) by lia.
  rewrite Z.min_id. unfold len. rewrite Nat2Z.id.
  rewrite take_0, app_nil_l, drop_replicate, Nat.sub_diag, firstn_all.
  cbn [replicate]. rewrite app_nil_r. reflexivity.
Qed.

(** ** The loop of [DecodeMultiIEs] *)

(** A successful [Decode] consumes at least one byte and no more than the
    buffer holds, so the slice that advances the loop is in range. *)

Lemma Decode_Ok_Len (b : list byte) (i : IE) :
  Decode b = Ok i -> 1 <= Len i <= len b.
Proof.
  intros H. split; [apply Len_pos|].
  destruct b as [|t [|x rest]]; [discriminate H..|].
  pose proof (len_nonneg rest) as Hr.
  destruct (Z.ltb_spec (to_Z t) 128) as [Ht|Ht].
  - rewrite Decode_tv in H by assumption. cbv zeta in H.
    pose proof (tv_length_nonneg t) as Hl.
    destruct (_ >? _) eqn:Hc; [discriminate H|]. injection H as <-.
    rewrite Z.gtb_ltb in Hc. apply Z.ltb_ge in Hc.
    unfold Len. cbn [Type_ Payload]. rewrite !len_cons.
    destruct (tvLengthMap t) as [l|]; simpl default in *; [lia|].
    rewrite take_0. change (len []) with 0. zbool.
  - destruct rest as [|l pl]; [rewrite Decode_tlv_short in H by lia; discriminate H|].
    rewrite Decode_tlv in H by lia. cbv zeta in H.
    destruct (_ >? _) eqn:Hc; [discriminate H|]. injection H as <-.
    rewrite Z.gtb_ltb in Hc. apply Z.ltb_ge in Hc.
    pose proof (to_Z_range x). pose proof (to_Z_range l).
    rewrite lor_shiftl8 in * by lia.
    unfold Len. cbn [Type_ Payload]. rewrite !len_cons.
    destruct (tvLengthMap t) as [l'|] eqn:E; [apply tvLengthMap_Some in E; lia|].
    zbool. unfold len in *. rewrite length_take. lia.
Qed.

Lemma loop_nil (fuel : nat) (acc : list IE) :
  DecodeMultiIEs_loop fuel acc [] = Ok acc.
Proof. destruct fuel; reflexivity. Qed.

Lemma loop_cons (fuel : nat) (acc : list IE) (x : byte) (b : list byte) :
  DecodeMultiIEs_loop (S fuel) acc (x :: b) =
    i ← Decode (x :: b);
    DecodeMultiIEs_loop fuel (acc ++ [i]) (drop (Z.to_nat (Len i)) (x :: b)).
Proof.
  cbn [DecodeMultiIEs_loop]. rewrite len_cons. pose proof (len_nonneg b).
  zbool. destruct (Decode (x :: b)) as [i| |] eqn:Hd; try reflexivity.
  cbn [mbind result_bind]. apply Decode_Ok_Len in Hd.
  rewrite slice_from_in by lia. reflexivity.
Qed.

Lemma loop_fuel (fuel : nat) : forall (acc : list IE) (b : list byte),
  (length b <= fuel)%nat ->
  DecodeMultiIEs_loop fuel acc b = DecodeMultiIEs_loop (length b) acc b.
Proof.
  induction fuel as [fuel IH] using lt_wf_ind. intros acc b Hf.
  destruct b as [|x b]; [rewrite !loop_nil; reflexivity|].
  destruct fuel as [|fuel]; [simpl in Hf; lia|].
  cbn [length]. rewrite !loop_cons.
  destruct (Decode (x :: b)) as [i| |] eqn:Hd; try reflexivity.
  cbn [mbind result_bind]. apply Decode_Ok_Len in Hd.
  assert (Hlen : (length (drop (Z.to_nat (Len i)) (x :: b)) <= length b)%nat).
  { rewrite length_drop. cbn [length]. lia. }
  cbn [length] in Hf.
  rewrite (IH fuel) by lia. symmetry. rewrite (IH (length b)) by lia.
  reflexivity.
Qed.

Lemma loop_acc (fuel : nat) : forall (acc : list IE) (b : list byte),
  DecodeMultiIEs_loop fuel acc b =
    l ← DecodeMultiIEs_loop fuel [] b; Ok (acc ++ l).
Proof.
  induction fuel as [|fuel IH]; intros acc b;
    (destruct b as [|x b];
     [rewrite !loop_nil; cbn [mbind result_bind]; rewrite app_nil_r; reflexivity|]).
  - cbn [DecodeMultiIEs_loop]. rewrite len_cons. pose proof (len_nonneg b).
    zbool; reflexivity.
  - rewrite !loop_cons.
    destruct (Decode (x :: b)) as [i| |]; try reflexivity.
    cbn [mbind result_bind]. rewrite (IH (acc ++ [i])), (IH ([] ++ [i])).
    destruct (DecodeMultiIEs_loop fuel [] _); cbn [mbind result_bind];
      try reflexivity.
    rewrite <- app_assoc. reflexivity.
Qed.

Lemma DecodeMultiIEs_nil : DecodeMultiIEs [] = Ok [].
Proof. reflexivity. Qed.

Lemma DecodeMultiIEs_step (b : list byte) :
  b <> [] ->
  DecodeMultiIEs b =
    i ← Decode b;
    l ← DecodeMultiIEs (drop (Z.to_nat (Len i)) b);
    Ok (i :: l).
Proof.
  intros Hb. destruct b as [|x b]; [congruence|].
  unfold DecodeMultiIEs at 1. cbn [length]. rewrite loop_cons.
  destruct (Decode (x :: b)) as [i| |] eqn:Hd; try reflexivity.
  cbn [mbind result_bind]. apply Decode_Ok_Len in Hd.
  rewrite loop_fuel by (rewrite length_drop; cbn [length]; lia).
  rewrite loop_acc. reflexivity.
Qed.

(** [DecodeMultiIEs] neither panics nor runs out of iterations: it returns
    a list or an error on every input. *)
Lemma DecodeMultiIEs_no_panic (b : list byte) : DecodeMultiIEs b <> Panic.
Proof.
  remember (length b) as n eqn:Hn. revert b Hn.
  induction n as [n IH] using lt_wf_ind. intros b ->.
  destruct b as [|x b]; [discriminate|].
  rewrite DecodeMultiIEs_step by discriminate.
  destruct (Decode (x :: b)) as [i| |] eqn:Hd; cbn [mbind result_bind].
  - pose proof (Decode_Ok_Len _ _ Hd) as HL.
    specialize (IH (length (drop (Z.to_nat (Len i)) (x :: b)))).
    destruct (DecodeMultiIEs (drop _ _)) eqn:Hm; cbn; try discriminate.
    exfalso. eapply IH; [|reflexivity|exact Hm].
    rewrite length_drop. cbn [length]. lia.
  - discriminate.
  - exfalso. revert Hd. clear.
    destruct b as [|y rest]; [discriminate|].
    destruct (Z.ltb_spec (to_Z x) 128).
    + rewrite Decode_tv by assumption. cbv zeta. destruct (_ >? _); discriminate.
    + destruct rest; [rewrite Decode_tlv_short by lia; discriminate|].
      rewrite Decode_tlv by lia. cbv zeta. destruct (_ >? _); discriminate.
Qed.

(** ** Encoding then decoding *)

Ltac dflt :=
  repeat match goal with
  | |- context [default ?d (Some ?x)] => change (default d (Some x)) with x
  | |- context [default ?d None] => change (default d None) with d
  end.

Lemma New_table (t : byte) (l : Z) (p : list byte) :
  tvLengthMap t = Some l -> New t p = mkIE t 0 p.
Proof. intros H. unfold New, SetLength. cbn [Type_]. rewrite H. reflexivity. Qed.

Lemma New_other (t : byte) (p : list byte) :
  tvLengthMap t = None -> New t p = mkIE t (uint16 (len p)) p.
Proof. intros H. unfold New, SetLength. cbn [Type_]. rewrite H. reflexivity. Qed.

Lemma len_app {A} (l1 l2 : list A) : len (l1 ++ l2) = len l1 + len l2.
Proof. unfold len. rewrite length_app. lia. Qed.

Lemma take_len_app (p rest : list byte) :
  take (Z.to_nat (len p)) (p ++ rest) = p.
Proof. unfold len. rewrite Nat2Z.id. apply take_app_length. Qed.

Lemma drop_len_app (p rest : list byte) (n : Z) :
  n = len p -> drop (Z.to_nat n) (p ++ rest) = rest.
Proof. intros ->. unfold len. rewrite Nat2Z.id. apply drop_app_length. Qed.

(** Decoding the encoding of a valid IE, followed by any further bytes,
    returns the IE and consumes exactly its encoding.  The reserved type 0
    encodes to a single byte, which [Decode] accepts only when more bytes
    follow. *)
Lemma Decode_Serialize_app (t : byte) (p w rest : list byte) :
  valid_payload t p = true ->
  Serialize (New t p) = Ok w ->
  (t = x00 -> rest <> []) ->
  Decode (w ++ rest) = Ok (New t p) /\
  drop (Z.to_nat (Len (New t p))) (w ++ rest) = rest.
Proof.
  unfold valid_payload. intros Hv Hs Hr.
  destruct (tvLengthMap t) as [l|] eqn:Hl.
  - apply Z.eqb_eq in Hv. pose proof (tvLengthMap_Some _ _ Hl) as [Ht Hb].
    rewrite (New_table t l p Hl) in *.
    rewrite (Serialize_tv_table _ l) in Hs by exact Hl. cbn [Type_ Payload] in Hs.
    injection Hs as <-.
    assert (Hlen : length p = Z.to_nat l) by (unfold len in Hv; lia).
    rewrite Hlen, Nat.sub_diag, take_ge, app_nil_r by lia.
    assert (HL : Len (mkIE t 0 p) = len (t :: p))
      by (unfold Len; cbn [Type_]; rewrite Hl, len_cons; lia).
    split; [|rewrite HL; apply drop_len_app; reflexivity].
    destruct p as [|x p]; cbn [app].
    + destruct rest as [|r rest]; [exfalso; apply Hr; [|reflexivity]|].
      { apply tvLengthMap_zero. rewrite Hl, <- Hv. reflexivity. }
      rewrite Decode_tv, Hl by assumption. dflt. cbv zeta.
      change (len []) with 0 in Hv. subst l. pose proof (len_nonneg rest).
      zbool; reflexivity.
    + rewrite Decode_tv, Hl by assumption. dflt. cbv zeta.
      rewrite len_app, <- Hv, len_cons. pose proof (len_nonneg p).
      pose proof (len_nonneg rest). zbool.
      change (x :: p ++ rest) with ((x :: p) ++ rest).
      rewrite <- (len_cons x p), take_len_app. reflexivity.
  - apply andb_true_iff in Hv as [Ht Hp]. apply Z.leb_le in Ht, Hp.
    rewrite (New_other t p Hl) in *. pose proof (len_nonneg p) as Hp0.
    rewrite Serialize_tlv in Hs by exact Ht. cbn [Type_ Payload Length] in Hs.
    injection Hs as <-.
    assert (Hu : uint16 (len p) = len p) by (apply Z.mod_small; lia).
    rewrite !Hu.
    assert (HL : Len (mkIE t (len p) p) = 3 + len p).
    { unfold Len. cbn [Type_ Payload]. rewrite Hl. zbool; reflexivity. }
    split.
    + cbn [app]. rewrite Decode_tlv by exact Ht. cbv zeta.
      rewrite uint16_bytes by lia. rewrite len_app.
      pose proof (len_nonneg rest). zbool. rewrite take_len_app. reflexivity.
    + rewrite HL. replace (Z.to_nat (3 + len p)) with (3 + Z.to_nat (len p))%nat by lia.
      cbn [app drop Nat.add]. apply drop_len_app. reflexivity.
Qed.

(** C1 (as stated, refuted): the reserved type 0 has table length 0, so the
    empty payload is valid for it; its encoding is the single type byte,
    which [Decode] rejects as too short. *)
Lemma roundtrip_reserved_type_fails :
  valid_payload x00 [] = true /\
  Serialize (New x00 []) = Ok [x00] /\
  Decode [x00] = Err ErrTooShortToDecode /\
  (w ← Serialize (New x00 []); Decode w) <> Ok (New x00 []).
Proof. repeat split. discriminate. Qed.

(** C1 (amended): for every type other than the reserved type 0 and every
    payload whose length is valid for the type, decoding the bytes produced
    by [Serialize] for [New t p] returns [New t p] itself: same Type, Length
    and Payload. *)
Theorem decode_serialize_roundtrip (t : byte) (p : list byte) :
  valid_payload t p = true ->
  t <> x00 ->
  (w ← Serialize (New t p); Decode w) = Ok (New t p).
Proof.
  intros Hv Ht.
  destruct (Serialize (New t p)) as [w| |] eqn:Hs.
  - cbn [mbind result_bind].
    destruct (Decode_Serialize_app t p w [] Hv Hs) as [Hd _]; [congruence|].
    rewrite app_nil_r in Hd. exact Hd.
  - exfalso. unfold valid_payload in Hv.
    destruct (tvLengthMap t) as [l|] eqn:Hl.
    + rewrite (Serialize_tv_table _ l) in Hs; [discriminate|].
      rewrite (New_table t l p Hl). exact Hl.
    + apply andb_true_iff in Hv as [Hv _]. apply Z.leb_le in Hv.
      rewrite Serialize_tlv in Hs; [discriminate|].
      rewrite (New_other t p Hl). exact Hv.
  - exfalso. unfold valid_payload in Hv.
    destruct (tvLengthMap t) as [l|] eqn:Hl.
    + rewrite (Serialize_tv_table _ l) in Hs; [discriminate|].
      rewrite (New_table t l p Hl). exact Hl.
    + apply andb_true_iff in Hv as [Hv _]. apply Z.leb_le in Hv.
      rewrite Serialize_tlv in Hs; [discriminate|].
      rewrite (New_other t p Hl). exact Hv.
Qed.

Lemma decode_serialize_roundtrip_witness :
  (w ← Serialize (New x02 [x01; x02; x03; x04; x05; x06; x07; x08]); Decode w)
    = Ok (New x02 [x01; x02; x03; x04; x05; x06; x07; x08]) /\
  (w ← Serialize (New x83 [x61; x70; x6e]); Decode w) = Ok (New x83 [x61; x70; x6e]).
Proof.
  split.
  - apply decode_serialize_roundtrip; [reflexivity|discriminate].
  - apply decode_serialize_roundtrip; [reflexivity|discriminate].
Defined.

(** C2 (as stated, refuted): type 7 is below 128, so the code treats it as
    TV format, but it is absent from the table and [SetLength] stores the
    payload length in the Length field. *)
Lemma tv_length_nonzero_outside_table :
  IsTV (New x07 [x01; x02; x03]) = true /\
  Length (New x07 [x01; x02; x03]) = 3 /\
  Len (New x07 [x01; x02; x03]) = 4.
Proof. repeat split. Qed.

(** C2 (amended): for every type of the static table the Length field is
    zero after [SetLength] and [New], whatever the payload, and [Len] is the
    table length plus one, whatever the payload and the Length field; and
    every IE that [Decode] returns with a type below 128 has Length zero. *)
Theorem tv_length_field_zero :
  (forall (t : byte) (l n : Z) (p : list byte),
     tvLengthMap t = Some l ->
     Length (SetLength (mkIE t n p)) = 0 /\
     Length (New t p) = 0 /\
     Len (mkIE t n p) = l + 1) /\
  (forall (b : list byte) (i : IE),
     Decode b = Ok i -> IsTV i = true -> Length i = 0).
Proof.
  split.
  - intros t l n p Hl. unfold New, SetLength, Len. cbn [Type_].
    rewrite Hl. repeat split.
  - intros b i Hd Htv. destruct b as [|t [|x rest]]; [discriminate Hd..|].
    destruct (Z.ltb_spec (to_Z t) 128) as [Ht|Ht].
    + rewrite Decode_tv in Hd by assumption. cbv zeta in Hd.
      destruct (_ >? _); [discriminate Hd|]. injection Hd as <-. reflexivity.
    + exfalso. destruct rest as [|l pl].
      * rewrite Decode_tlv_short in Hd by lia. discriminate Hd.
      * rewrite Decode_tlv in Hd by lia. cbv zeta in Hd.
        destruct (_ >? _); [discriminate Hd|]. injection Hd as <-.
        unfold IsTV in Htv. cbn [Type_] in Htv. apply Z.ltb_lt in Htv. lia.
Qed.

Lemma tv_length_field_zero_witness :
  (Length (SetLength (mkIE x01 7 [x05; x06; x07])) = 0 /\
   Length (New x01 [x05; x06; x07]) = 0 /\
   Len (mkIE x01 7 [x05; x06; x07]) = 1 + 1) /\
  Length (mkIE x07 0 []) = 0.
Proof.
  destruct tv_length_field_zero as [Hnew Hdec]. split.
  - apply (Hnew x01 1 7 [x05; x06; x07]). reflexivity.
  - apply (Hdec [x07; x01; x02; x03] (mkIE x07 0 [])); reflexivity.
Defined.

(** C8: for a type of the static table [Len] is the table length plus one
    whatever the payload, and [Serialize] returns, without error, the type
    byte followed by exactly table-length bytes: the payload cut to the
    table length when it is longer, filled with zero bytes when shorter. *)
Theorem serialize_tv_fixed_length (i : IE) (l : Z) :
  tvLengthMap (Type_ i) = Some l ->
  Len i = l + 1 /\
  exists w : list byte,
    Serialize i = Ok (Type_ i :: w) /\
    len w = l /\
    w = take (Z.to_nat l) (Payload i)
          ++ replicate (Z.to_nat l - length (Payload i)) x00.
Proof.
  intros Hl. pose proof (tvLengthMap_Some _ _ Hl) as [_ Hb].
  split; [unfold Len; rewrite Hl; reflexivity|].
  eexists. split; [apply Serialize_tv_table; exact Hl|].
  split; [|reflexivity].
  unfold len. rewrite length_app, length_take, length_replicate. lia.
Qed.

Lemma serialize_tv_fixed_length_witness :
  Len (New x01 [x05; x06]) = 1 + 1 /\
  exists w : list byte,
    Serialize (New x01 [x05; x06]) = Ok (x01 :: w) /\
    len w = 1 /\
    w = take (Z.to_nat 1) [x05; x06] ++ replicate (Z.to_nat 1 - 2) x00.
Proof. apply (serialize_tv_fixed_length (New x01 [x05; x06]) 1). reflexivity. Defined.

(** The types 20 to 126 are below 128 and absent from the table. *)
Lemma tvLengthMap_20_126 (t : byte) :
  20 <= to_Z t <= 126 -> tvLengthMap t = None.
Proof.
  intros H. destruct (tvLengthMap t) as [l|] eqn:E; [|reflexivity].
  exfalso. revert H. destruct t; vm_compute in E; try discriminate E;
    vm_compute; intuition congruence.
Qed.

(** C9: for a type byte below 128 that is absent from the table, [Decode]
    of any buffer of at least two bytes starting with it succeeds with an
    IE of empty payload whose [Len] is 1, and [DecodeMultiIEs] consumes
    exactly that one byte: its result is that of the rest of the buffer
    with this IE in front, so the byte itself causes no failure. *)
Theorem decode_unknown_tv (t x : byte) (rest : list byte) :
  to_Z t < 128 ->
  tvLengthMap t = None ->
  Decode (t :: x :: rest) = Ok (mkIE t 0 []) /\
  Len (mkIE t 0 []) = 1 /\
  DecodeMultiIEs (t :: x :: rest) =
    (l ← DecodeMultiIEs (x :: rest); Ok (mkIE t 0 [] :: l)).
Proof.
  intros Ht Hl.
  assert (Hd : Decode (t :: x :: rest) = Ok (mkIE t 0 [])).
  { rewrite Decode_tv, Hl by assumption. dflt. cbv zeta.
    pose proof (len_nonneg rest). zbool; reflexivity. }
  assert (HL : Len (mkIE t 0 []) = 1).
  { unfold Len. cbn [Type_ Payload]. rewrite Hl. zbool; reflexivity. }
  repeat split; [exact Hd|exact HL|].
  rewrite DecodeMultiIEs_step, Hd by discriminate.
  cbn [mbind result_bind]. rewrite HL. reflexivity.
Qed.

Lemma decode_unknown_tv_witness :
  Decode [x14; x01; x05] = Ok (mkIE x14 0 []) /\
  Len (mkIE x14 0 []) = 1 /\
  DecodeMultiIEs [x14; x01; x05] =
    (l ← DecodeMultiIEs [x01; x05]; Ok (mkIE x14 0 [] :: l)).
Proof. apply decode_unknown_tv; reflexivity. Defined.

Ltac settle :=
  repeat split; intros;
  repeat match goal with
  | H : _ /\ _ |- _ => destruct H
  | H : exists _, _ |- _ => destruct H
  end;
  try discriminate; try lia; try reflexivity; eauto.

(** C4: [Decode] fails with [ErrTooShortToDecode] exactly when the input
    has fewer bytes than the minimum header of its format (2 for TV, 3 for
    TLV; the empty input is too short for either); with a complete header
    it fails with [ErrInvalidLength] exactly when the effective length (the
    table length for TV, the 2-byte length field for TLV) exceeds the bytes
    remaining after the header; otherwise it succeeds. *)
Theorem decode_error_conditions (b : list byte) :
  (Decode b = Err ErrTooShortToDecode <-> header_short b = true) /\
  (Decode b = Err ErrInvalidLength <->
     header_short b = false /\ effective_length b > remaining b) /\
  ((exists i : IE, Decode b = Ok i) <->
     header_short b = false /\ effective_length b <= remaining b).
Proof.
  destruct b as [|t [|x rest]].
  - rewrite Decode_nil. cbn [header_short]. settle.
  - assert (Hs : header_short [t] = true).
    { unfold header_short, min_header. change (len [t]) with 1.
      destruct (_ <? 128); reflexivity. }
    rewrite Decode_one, Hs.
    settle.
  - pose proof (len_nonneg rest) as Hr.
    unfold header_short, effective_length, remaining, min_header.
    destruct (Z.ltb_spec (to_Z t) 128) as [Ht|Ht].
    + rewrite Decode_tv by assumption. cbv zeta.
      rewrite !len_cons, Z.gtb_ltb, (proj2 (Z.ltb_ge _ 2)) by lia.
      destruct (Z.ltb_spec (1 + len rest) (default 0 (tvLengthMap t)));
        settle.
    + destruct rest as [|l pl].
      * rewrite Decode_tlv_short by lia. change (len [t; x] <? 3) with true.
        settle.
      * pose proof (len_nonneg pl) as Hp.
        rewrite Decode_tlv by lia. cbv zeta.
        rewrite lor_shiftl8 by apply to_Z_range.
        rewrite !len_cons, Z.gtb_ltb, (proj2 (Z.ltb_ge _ 3)) by lia.
        destruct (Z.ltb_spec (len pl) (to_Z x * 256 + to_Z l));
          settle.
Qed.

(** ** Concatenated encodings *)

Lemma Serialize_nonempty (t : byte) (p w : list byte) :
  Serialize (New t p) = Ok w -> w <> [].
Proof.
  intros Hs. destruct (tvLengthMap t) as [l|] eqn:Hl.
  - rewrite (Serialize_tv_table _ l) in Hs
      by (rewrite (New_table t l p Hl); exact Hl).
    injection Hs as <-. discriminate.
  - rewrite (New_other t p Hl) in Hs.
    destruct (Z.ltb_spec (to_Z t) 128).
    + rewrite Serialize_tv_other in Hs by assumption. injection Hs as <-. discriminate.
    + rewrite Serialize_tlv in Hs by assumption. injection Hs as <-. discriminate.
Qed.

Lemma DecodeMultiIEs_app (t : byte) (p w rest : list byte) :
  valid_payload t p = true ->
  Serialize (New t p) = Ok w ->
  (t = x00 -> rest <> []) ->
  DecodeMultiIEs (w ++ rest) = (l ← DecodeMultiIEs rest; Ok (New t p :: l)).
Proof.
  intros Hv Hs Hr.
  destruct (Decode_Serialize_app t p w rest Hv Hs Hr) as [Hd Hdrop].
  rewrite DecodeMultiIEs_step, Hd.
  - cbn [mbind result_bind]. rewrite Hdrop. reflexivity.
  - apply Serialize_nonempty in Hs. destruct w; [congruence|discriminate].
Qed.

Lemma decode_all_concat (tps : list (byte * list byte)) :
  forall bs : list (list byte),
  Forall (fun tp => valid_payload tp.1 tp.2 = true) tps ->
  Forall2 encoded tps bs ->
  (forall tp, last tps = Some tp -> tp.1 <> x00) ->
  DecodeMultiIEs (concat bs) = Ok (map build tps).
Proof.
  induction tps as [|[t p] tps IH]; intros bs Hv He Hl.
  - apply Forall2_nil_inv_l in He as ->. reflexivity.
  - apply Forall2_cons_inv_l in He as (w & bs' & Hw & He & ->).
    apply Forall_cons in Hv as [Hv1 Hv]. cbn [concat map].
    assert (Hrest : t = x00 -> concat bs' <> []).
    { intros ->. destruct He as [|tp' w' tps' bs'' Hw' He'].
      - exfalso. apply (Hl (x00, p)); reflexivity.
      - cbn [concat]. apply Serialize_nonempty in Hw'.
        destruct w'; [congruence|discriminate]. }
    assert (Hlast : forall tp, last tps = Some tp -> tp.1 <> x00).
    { intros tp Htp. apply Hl. destruct tps; [discriminate Htp|exact Htp]. }
    rewrite (DecodeMultiIEs_app t p w _ Hv1 Hw Hrest), (IH bs' Hv He Hlast).
    reflexivity.
Qed.

Lemma truncate1_cons (x y : byte) (b : list byte) :
  truncate1 (x :: y :: b) = x :: truncate1 (y :: b).
Proof. unfold truncate1. cbn [length]. rewrite !Nat.sub_succ, !Nat.sub_0_r. reflexivity. Qed.

Lemma truncate1_one (x : byte) : truncate1 [x] = [].
Proof. reflexivity. Qed.

Lemma truncate1_length (b : list byte) : length (truncate1 b) = (length b - 1)%nat.
Proof. unfold truncate1. rewrite length_take. lia. Qed.

Lemma truncate1_app (w r : list byte) :
  r <> [] -> truncate1 (w ++ r) = w ++ truncate1 r.
Proof.
  intros Hr. unfold truncate1. rewrite length_app.
  destruct r as [|x r]; [congruence|]. cbn [length].
  replace (length w + S (length r) - 1)%nat with (length w + length r)%nat by lia.
  rewrite take_app_add, Nat.sub_succ, Nat.sub_0_r. reflexivity.
Qed.

(** Cutting the last byte off the encoding of a valid IE of a type other
    than 0 leaves a non-empty buffer that [Decode] rejects. *)
Lemma Decode_truncated (t : byte) (p w : list byte) :
  valid_payload t p = true ->
  t <> x00 ->
  Serialize (New t p) = Ok w ->
  truncate1 w <> [] /\ exists e : error, Decode (truncate1 w) = Err e.
Proof.
  unfold valid_payload. intros Hv Ht0 Hs.
  destruct (tvLengthMap t) as [l|] eqn:Hl.
  - apply Z.eqb_eq in Hv. pose proof (tvLengthMap_Some _ _ Hl) as [Ht Hb].
    rewrite (New_table t l p Hl) in Hs.
    rewrite (Serialize_tv_table _ l) in Hs by exact Hl. cbn [Type_ Payload] in Hs.
    injection Hs as <-.
    assert (Hlen : length p = Z.to_nat l) by (unfold len in Hv; lia).
    rewrite Hlen, Nat.sub_diag, take_ge, app_nil_r by lia.
    destruct p as [|x [|y p]].
    + exfalso. apply Ht0, tvLengthMap_zero. rewrite Hl, <- Hv. reflexivity.
    + rewrite truncate1_cons, truncate1_one. split; [discriminate|].
      eexists. apply Decode_one.
    + rewrite !truncate1_cons. split; [discriminate|].
      rewrite Decode_tv, Hl by assumption. dflt. cbv zeta.
      unfold len in *. rewrite truncate1_length. cbn [length] in *.
      eexists. zbool. reflexivity.
  - apply andb_true_iff in Hv as [Ht Hp]. apply Z.leb_le in Ht, Hp.
    rewrite (New_other t p Hl) in Hs. pose proof (len_nonneg p) as Hp0.
    rewrite Serialize_tlv in Hs by exact Ht. cbn [Type_ Payload Length] in Hs.
    injection Hs as <-.
    assert (Hu : uint16 (len p) = len p) by (apply Z.mod_small; lia).
    rewrite !Hu.
    destruct p as [|x p].
    + rewrite !truncate1_cons, truncate1_one. split; [discriminate|].
      eexists. apply Decode_tlv_short. exact Ht.
    + rewrite !truncate1_cons. split; [discriminate|].
      rewrite Decode_tlv by exact Ht. cbv zeta. rewrite uint16_bytes by lia.
      unfold len in *. rewrite truncate1_length. cbn [length] in *.
      eexists. zbool. reflexivity.
Qed.

Lemma decode_all_truncated (tps : list (byte * list byte)) :
  forall bs : list (list byte),
  Forall (fun tp => valid_payload tp.1 tp.2 = true) tps ->
  Forall2 encoded tps bs ->
  (forall tp, last tps = Some tp -> tp.1 <> x00) ->
  tps <> [] ->
  truncate1 (concat bs) <> [] /\
  exists e : error, DecodeMultiIEs (truncate1 (concat bs)) = Err e.
Proof.
  induction tps as [|[t p] tps IH]; intros bs Hv He Hl Hne; [congruence|].
  apply Forall2_cons_inv_l in He as (w & bs' & Hw & He & ->).
  apply Forall_cons in Hv as [Hv1 Hv]. cbn [concat].
  pose proof (Serialize_nonempty _ _ _ Hw) as Hwne.
  destruct tps as [|tp2 tps].
  - apply Forall2_nil_inv_l in He as ->. cbn [concat]. rewrite app_nil_r.
    destruct (Decode_truncated t p w Hv1) as [Hn [e Hd]]; try assumption.
    { apply (Hl (t, p)). reflexivity. }
    split; [exact Hn|]. exists e.
    rewrite DecodeMultiIEs_step, Hd by exact Hn. reflexivity.
  - destruct (IH bs' Hv He) as [Hn [e Hd]]; [|discriminate|].
    { intros tp Htp. apply Hl. exact Htp. }
    assert (Hr : concat bs' <> []).
    { intros Heq. rewrite Heq in Hn. apply Hn. reflexivity. }
    rewrite truncate1_app by exact Hr. split.
    + destruct w; [congruence|discriminate].
    + exists e. rewrite (DecodeMultiIEs_app t p w _ Hv1 Hw) by (intros _; exact Hn).
      rewrite Hd. reflexivity.
Qed.

Lemma inner_decode_fails_Err (b : list byte) (e : error) :
  inner_decode_fails b e -> DecodeMultiIEs b = Err e.
Proof.
  induction 1 as [b e Hb Hd|b i e Hb Hd _ IH];
    rewrite DecodeMultiIEs_step, Hd by exact Hb; cbn [mbind result_bind].
  - reflexivity.
  - rewrite IH. reflexivity.
Qed.

(** C3 (as stated, refuted): the single byte 0 is the encoding of the valid
    IE of reserved type 0, yet [DecodeMultiIEs] fails on it; and cutting the
    last byte off the encodings of a Cause IE and a type-0 IE leaves a
    buffer that decodes, without error, to a list of one IE. *)
Lemma decode_all_reserved_type_last :
  valid_payload x00 [] = true /\
  valid_payload x01 [x05] = true /\
  encoded (x00, []) [x00] /\
  encoded (x01, [x05]) [x01; x05] /\
  DecodeMultiIEs (concat [[x00]]) = Err ErrTooShortToDecode /\
  DecodeMultiIEs (truncate1 (concat [[x01; x05]; [x00]]))
    = Ok [build (x01, [x05])].
Proof. repeat split. Qed.

(** C3 (amended): for every buffer that is the concatenation of the
    encodings of N valid IEs the last of which is not of the reserved
    type 0, [DecodeMultiIEs] returns exactly these N IEs in their order, and
    on the same buffer with its last byte cut off (N > 0) it returns an
    error; and on every buffer on which some inner [Decode] fails it
    returns that error and no list. *)
Theorem decode_all_spec (tps : list (byte * list byte)) (bs : list (list byte)) :
  Forall (fun tp => valid_payload tp.1 tp.2 = true) tps ->
  Forall2 encoded tps bs ->
  (forall tp, last tps = Some tp -> tp.1 <> x00) ->
  DecodeMultiIEs (concat bs) = Ok (map build tps) /\
  length (map build tps) = length bs /\
  (tps <> [] ->
   exists e : error, DecodeMultiIEs (truncate1 (concat bs)) = Err e) /\
  (forall (b : list byte) (e : error),
     inner_decode_fails b e -> DecodeMultiIEs b = Err e).
Proof.
  intros Hv He Hl. repeat split.
  - apply decode_all_concat; assumption.
  - rewrite length_map. eapply Forall2_length, He.
  - intros Hne. eapply decode_all_truncated; eassumption.
  - apply inner_decode_fails_Err.
Qed.

Lemma decode_all_spec_witness :
  DecodeMultiIEs (concat [[x00]; [x01; x05]; [x83; x00; x01; xff]])
    = Ok (map build [(x00, []); (x01, [x05]); (x83, [xff])]) /\
  length (map build [(x00, []); (x01, [x05]); (x83, [xff])]) = 3%nat /\
  ([(x00, []); (x01, [x05]); (x83, [xff])] <> [] ->
   exists e : error,
     DecodeMultiIEs (truncate1 (concat [[x00]; [x01; x05]; [x83; x00; x01; xff]]))
       = Err e) /\
  (forall (b : list byte) (e : error),
     inner_decode_fails b e -> DecodeMultiIEs b = Err e).
Proof.
  apply (decode_all_spec [(x00, []); (x01, [x05]); (x83, [xff])]
           [[x00]; [x01; x05]; [x83; x00; x01; xff]]).
  - repeat constructor.
  - repeat constructor.
  - intros tp Htp. injection Htp as <-. discriminate.
Defined.

End IesFacts.

(** * Proofs: the S-GW handlers *)

Module SgwFacts.
Import v2 v2.messages sgw SgwClaims.

(** ** Running the handlers' computations step by step *)

Lemma run_bind {A B} (m : M A) (k : A -> M B) (w : World) :
  (m ≫= k) w =
    match m w with
    | (w', Ok a) => k a w'
    | (w', Err e) => (w', Err e)
    | (w', Panic) => (w', Panic)
    end.
Proof. reflexivity. Qed.

Lemma run_fmap {A B} (f : A -> B) (m : M A) (w : World) :
  (f <$> m) w =
    match m w with
    | (w', Ok a) => (w', Ok (f a))
    | (w', Err e) => (w', Err e)
    | (w', Panic) => (w', Panic)
    end.
Proof. reflexivity. Qed.

Lemma run_ret {A} (a : A) (w : World) : (mret a : M A) w = (w, Ok a).
Proof. reflexivity. Qed.

Lemma run_update (p : ptr) (f : Session -> Session) (w : World) (s : Session) :
  heap w !! p = Some s ->
  update p f w = (set_heap (<[p := f s]> (heap w)) w, Ok tt).
Proof. intros H. unfold update. rewrite H. reflexivity. Qed.

Lemma run_load (p : ptr) (w : World) (s : Session) :
  heap w !! p = Some s -> load p w = (w, Ok s).
Proof. intros H. unfold load. rewrite H. reflexivity. Qed.

Ltac heap_lookup :=
  cbn [heap set_heap set_conn];
  first [ apply lookup_insert_eq
        | eassumption
        | rewrite lookup_insert_ne by congruence; heap_lookup ].

Ltac mred_in H :=
  repeat (progress (
    try rewrite run_bind in H;
    try rewrite run_fmap in H;
    try rewrite run_ret in H;
    try (erewrite run_update in H by heap_lookup);
    try (erewrite run_load in H by heap_lookup);
    unfold set_heap, set_conn in H;
    cbn [log emit new fail panic lift get conn
         heap s11Conn s5cConn s1uConn s5uConn out fst snd
         sgw.RemoveSession sgw.NewFTEID
         sgw.GetSessionByIMSI sgw.GetSessionByTEID] in H;
    rewrite ?insert_insert_eq in H)).

Lemma first_missing_eq (req : CreateSessionRequest.t) :
  first_missing req =
    match CreateSessionRequest.PGWS5S8FTEIDC req,
          CreateSessionRequest.SenderFTEIDC req,
          CreateSessionRequest.IMSI req,
          CreateSessionRequest.MSISDN req,
          CreateSessionRequest.MEI req,
          CreateSessionRequest.APN req,
          CreateSessionRequest.ServingNetwork req,
          CreateSessionRequest.RATType req with
    | None, _, _, _, _, _, _, _ => Some ies.FullyQualifiedTEID
    | _, None, _, _, _, _, _, _ => Some ies.FullyQualifiedTEID
    | _, _, None, _, _, _, _, _ => Some ies.IMSI
    | _, _, _, None, _, _, _, _ => Some ies.MSISDN
    | _, _, _, _, None, _, _, _ => Some ies.MobileEquipmentIdentity
    | _, _, _, _, _, None, _, _ => Some ies.AccessPointName
    | _, _, _, _, _, _, None, _ => Some ies.ServingNetwork
    | _, _, _, _, _, _, _, None => Some ies.RATType
    | _, _, _, _, _, _, _, _ => None
    end.
Proof.
  destruct req as [? ? imsi msisdn mei ? sn rat ? sender pgw apn ? ? ? ? ? ?].
  cbn [CreateSessionRequest.PGWS5S8FTEIDC CreateSessionRequest.SenderFTEIDC
       CreateSessionRequest.IMSI CreateSessionRequest.MSISDN
       CreateSessionRequest.MEI CreateSessionRequest.APN
       CreateSessionRequest.ServingNetwork CreateSessionRequest.RATType].
  destruct pgw, sender, imsi, msisdn, mei, apn, sn, rat; reflexivity.
Qed.

Lemma fresh_heap (h : gmap ptr Session) : h !! fresh (dom h) = None.
Proof. apply not_elem_of_dom, is_fresh. Qed.

Lemma heap_kept (h : gmap ptr Session) (s0 : Session) (p : ptr) (s : Session) :
  h !! p = Some s -> <[fresh (dom h) := s0]> h !! p = Some s.
Proof.
  intros H. rewrite lookup_insert_ne; [exact H|].
  intros <-. rewrite fresh_heap in H. discriminate H.
Qed.

(** ** handleCreateSessionRequest: a required IE is missing *)

Lemma RemoveSession_subseteq (p : ptr) (c : Conn) :
  Sessions (v2.RemoveSession p c) ⊆ Sessions c.
Proof. apply map_filter_subseteq. Qed.

Lemma RemoveSession_not_registered (p : ptr) (c : Conn) :
  ~ registered p (v2.RemoveSession p c).
Proof.
  intros [imsi H]. cbn [v2.RemoveSession Sessions] in H.
  apply map_lookup_filter_Some in H as [_ H]. apply H. reflexivity.
Qed.

Ltac destruct_req req :=
  destruct req as [? ? imsi msisdn mei ? net rat ? sender pgw apn ? ? ? ? ? ?];
  cbn [CreateSessionRequest.PGWS5S8FTEIDC CreateSessionRequest.SenderFTEIDC
       CreateSessionRequest.IMSI CreateSessionRequest.MSISDN
       CreateSessionRequest.MEI CreateSessionRequest.APN
       CreateSessionRequest.ServingNetwork CreateSessionRequest.RATType
       CreateSessionRequest.SequenceNumber CreateSessionRequest.TEID
       CreateSessionRequest.ULI CreateSessionRequest.IndicationFlags
       CreateSessionRequest.SelectionMode CreateSessionRequest.PDNType
       CreateSessionRequest.PAA CreateSessionRequest.APNRestriction
       CreateSessionRequest.AMBR CreateSessionRequest.MMEFQCSID] in *.

(** C5 (amended): for every Create-Session request that lacks one of the
    listed IEs, when the two addresses the handler resolves first do
    resolve, the handler returns [ErrRequiredIEMissing] with the type of
    the first required IE that is absent; it writes nothing to any
    connection (only the log line of reception leaves the process); no
    Session is added to either store: the upstream store is unchanged and
    the requester-side store holds only entries it held before; no
    existing Session object is modified; and the requester-side store is
    unchanged whenever it held no Session for the request's subscriber
    identity. *)
Theorem create_session_required_ie_missing
    (env : Env) (mmeAddr : UDPAddr) (req : CreateSessionRequest.t)
    (w w' : World) (r : res unit) :
  lacks_listed_IE req ->
  addresses_resolve env req ->
  handleCreateSessionRequest env mmeAddr req w = (w', r) ->
  (exists t, first_missing req = Some t /\ r = Err (ErrRequiredIEMissing t)) /\
  out w' = out w ++ [Logged (Received mmeAddr)] /\
  s5cConn w' = s5cConn w /\
  Sessions (s11Conn w') ⊆ Sessions (s11Conn w) /\
  (forall p s, heap w !! p = Some s -> heap w' !! p = Some s) /\
  ((forall ie, CreateSessionRequest.IMSI req = Some ie ->
      Sessions (s11Conn w) !! ies.text ie = None) ->
   s11Conn w' = s11Conn w).
Proof.
  intros Hlack [[laddr Hl] Hr] Hrun.
  unfold handleCreateSessionRequest, createSessionSetup in Hrun.
  rewrite first_missing_eq. unfold lacks_listed_IE in Hlack.
  destruct_req req.
  destruct pgw as [pgw|];
    [destruct (Hr pgw eq_refl) as [raddr Hraddr]; clear Hr|];
    (destruct sender as [sender|]; [|
       mred_in Hrun; injection Hrun as <- <-;
       cbn [out s5cConn s11Conn heap];
       repeat split; eauto using heap_kept ]).
  all: try (mred_in Hrun; injection Hrun as <- <-;
            cbn [out s5cConn s11Conn heap];
            repeat split; eauto 6 using heap_kept; fail).
  mred_in Hrun. rewrite Hl, Hraddr in Hrun. mred_in Hrun.
  destruct imsi as [imsi|]; [|
    mred_in Hrun; injection Hrun as <- <-; cbn [out s5cConn s11Conn heap];
    repeat split; eauto 6 using heap_kept ].
  mred_in Hrun. unfold v2.GetSessionByIMSI in Hrun.
  destruct (Sessions (s11Conn w) !! ies.text imsi) as [sess|] eqn:Hsess;
    [|destruct (decide (ErrUnknownIMSI = ErrUnknownIMSI)); [|congruence]];
    mred_in Hrun;
    (destruct msisdn as [msisdn|]; [mred_in Hrun|]);
    try (destruct mei as [mei|]; [mred_in Hrun|]);
    try (destruct apn as [apn|]; [mred_in Hrun|]);
    try (destruct net as [net|]; [mred_in Hrun|]);
    try (destruct rat as [rat|]; [exfalso; intuition congruence|]).
  all: mred_in Hrun; injection Hrun as <- <-; cbn [out s5cConn s11Conn heap].
  all: repeat split; eauto 6 using heap_kept, RemoveSession_subseteq.
  all: try (intros Hno; specialize (Hno imsi eq_refl); congruence).
Qed.

(** ** handleCreateSessionRequest: the state when the goroutine starts *)

Lemma run_AddSession (c : CPlane) (p : ptr) (w : World) (s : Session) :
  heap w !! p = Some s ->
  sgw.AddSession c p w =
    (set_conn c (mkConn (<[IMSI s := p]> (delete (IMSI s) (Sessions (conn c w))))
                        (teidCounter (conn c w))) w, Ok tt).
Proof. intros H. unfold sgw.AddSession, v2.AddSession. rewrite H. reflexivity. Qed.

Lemma run_NewFTEID (c : CPlane) (t : IFType) (v4 v6 : string) (w : World) :
  sgw.NewFTEID c t v4 v6 w =
    (set_conn c (mkConn (Sessions (conn c w)) (teidCounter (conn c w) + 1)) w,
     Ok (ies.NewFullyQualifiedTEID t (teidCounter (conn c w) + 1) v4 v6)).
Proof. reflexivity. Qed.

Ltac mred2_in H :=
  repeat (progress (
    mred_in H;
    try (erewrite run_AddSession in H by heap_lookup);
    try rewrite run_NewFTEID in H;
    unfold CreateSession, SendMessageTo in H;
    cbn [Sessions teidCounter] in H)).

Ltac present x H :=
  destruct x as [x|]; [|mred2_in H; discriminate H]; mred2_in H.

Ltac session_fields :=
  cbn [IMSI MSISDN IMEI MCC MNC RATType teidMap DefaultBearer isActive PeerAddr
       set_IMSI set_MSISDN set_IMEI set_MCC set_MNC set_RATType set_teidMap
       set_DefaultBearer set_isActive AddTEID Activate NewSession
       v2.GetTEID] in *.

(** What holds when the first part of the handler has succeeded: all the
    required IEs were present; the new S11 session is allocated, carries
    the requester's control TEID and the subscriber identity, and is
    registered on the S11 connection; the new S5 session is another
    object, registered on the S5 connection under its subscriber
    identity. *)
Lemma createSessionSetup_ok env mmeAddr req w w1 p11 p5 laddr pgwAddr :
  createSessionSetup env mmeAddr req w = (w1, Ok (p11, p5, laddr, pgwAddr)) ->
  exists sender s11 s5,
    CreateSessionRequest.SenderFTEIDC req = Some sender /\
    heap w1 !! p11 = Some s11 /\
    v2.GetTEID IFTypeS11MMEGTPC s11 = Ok (ies.TEID sender) /\
    Sessions (s11Conn w1) !! IMSI s11 = Some p11 /\
    heap w1 !! p5 = Some s5 /\
    Sessions (s5cConn w1) !! IMSI s5 = Some p5 /\
    p11 <> p5.
Proof.
  intros Hrun. unfold createSessionSetup in Hrun. destruct_req req.
  mred2_in Hrun.
  present pgw Hrun. present sender Hrun.
  destruct (ResolveUDPAddr env (s5c env)) as [la| |] eqn:Hla; try discriminate Hrun.
  mred2_in Hrun.
  destruct (ResolveUDPAddr env (_ +:+ _)) as [ra| |] eqn:Hra; try discriminate Hrun.
  mred2_in Hrun.
  present imsi Hrun.
  unfold v2.GetSessionByIMSI in Hrun.
  destruct (Sessions (s11Conn w) !! ies.text imsi) as [old|] eqn:Hold;
    [|destruct (decide (ErrUnknownIMSI = ErrUnknownIMSI)); [|congruence]];
    mred2_in Hrun.
  all: present msisdn Hrun; present mei Hrun; present apn Hrun;
       present net Hrun; present rat Hrun.
  all: destruct (transport env S5C ra _) eqn:Htr; mred2_in Hrun;
       try discriminate Hrun.
  all: injection Hrun as <- <- <- <- <-.
  all: exists sender; do 2 eexists; cbn [heap s11Conn s5cConn Sessions].
  all: match goal with
       | |- context [<[?q := _]> (<[?p := _]> _)] =>
           assert (Hne : p <> q) by
             (intros Heq;
              match type of Heq with
              | _ = fresh (dom ?h) =>
                  apply (is_fresh (dom h)); rewrite <- Heq;
                  apply elem_of_dom; rewrite lookup_insert_eq; eauto
              end)
       end.
  all: split; [reflexivity|].
  all: split; [rewrite lookup_insert_ne by congruence; apply lookup_insert_eq|].
  all: session_fields.
  all: unfold v2.GetTEID; session_fields.
  all: split; [rewrite lookup_insert_eq; reflexivity|].
  all: split; [apply lookup_insert_eq|].
  all: split; [apply lookup_insert_eq|].
  all: split; [apply lookup_insert_eq|exact Hne].
Qed.

(** *** Frame reasoning over the two monads *)

Section Keeps.

Context (R : World -> World -> Prop) `{!Reflexive R} `{!Transitive R}.

Lemma M_keeps_ret {A} (a : A) : M_keeps R (mret a).
Proof. intros w w' r [= <- <-]. reflexivity. Qed.

Lemma M_keeps_fail {A} (e : error) : M_keeps R (fail (A:=A) e).
Proof. intros w w' r [= <- <-]. reflexivity. Qed.

Lemma M_keeps_panic {A} : M_keeps R (panic (A:=A)).
Proof. intros w w' r [= <- <-]. reflexivity. Qed.

Lemma M_keeps_lift {A} (x : res A) : M_keeps R (lift x).
Proof. intros w w' r [= <- <-]. reflexivity. Qed.

Lemma M_keeps_get : M_keeps R get.
Proof. intros w w' r [= <- <-]. reflexivity. Qed.

Lemma M_keeps_bind {A B} (m : M A) (k : A -> M B) :
  M_keeps R m -> (forall a, M_keeps R (k a)) -> M_keeps R (m ≫= k).
Proof.
  intros Hm Hk w w' r Hrun. rewrite run_bind in Hrun.
  destruct (m w) as [w1 [a|e|]] eqn:Hmw.
  - transitivity w1; [eapply Hm, Hmw|eapply Hk, Hrun].
  - injection Hrun as <- <-. eapply Hm, Hmw.
  - injection Hrun as <- <-. eapply Hm, Hmw.
Qed.

Lemma M_keeps_fmap {A B} (f : A -> B) (m : M A) :
  M_keeps R m -> M_keeps R (f <$> m).
Proof.
  intros Hm w w' r Hrun. rewrite run_fmap in Hrun.
  destruct (m w) as [w1 [a|e|]] eqn:Hmw; injection Hrun as <- <-;
    eapply Hm, Hmw.
Qed.

Lemma M_keeps_load (p : ptr) : M_keeps R (load p).
Proof.
  intros w w' r Hrun. unfold load in Hrun.
  destruct (heap w !! p); injection Hrun as <- <-; reflexivity.
Qed.

Lemma M_keeps_GetTEID (p : ptr) (t : IFType) : M_keeps R (sgw.GetTEID p t).
Proof.
  apply M_keeps_bind; [apply M_keeps_load|intros s; apply M_keeps_lift].
Qed.

Lemma M_keeps_GetSessionByIMSI (c : CPlane) (imsi : string) :
  M_keeps R (sgw.GetSessionByIMSI c imsi).
Proof. intros w w' r [= <- <-]. reflexivity. Qed.

Lemma M_keeps_GetSessionByTEID (c : CPlane) (teid : N) :
  M_keeps R (sgw.GetSessionByTEID c teid).
Proof. intros w w' r [= <- <-]. reflexivity. Qed.

Lemma M_keeps_forEach (l : list ies.IE) (body : ies.IE -> M unit) :
  (forall ie, M_keeps R (body ie)) -> M_keeps R (forEach l body).
Proof.
  intros Hb. induction l as [|ie l IH]; cbn [forEach].
  - apply M_keeps_ret.
  - apply M_keeps_bind; [apply Hb|intros _; exact IH].
Qed.

Lemma G_keeps_ret {A} (a : A) : G_keeps R (mret a).
Proof. intros n w w' r [= <- <-]. reflexivity. Qed.

Lemma G_keeps_send {A} (rep : Report) : G_keeps R (send (A:=A) rep).
Proof. intros [|n] w w' r [= <- <-]; reflexivity. Qed.

Lemma G_keeps_stop {A} : G_keeps R (stop (A:=A)).
Proof. intros n w w' r [= <- <-]. reflexivity. Qed.

Lemma G_keeps_gpanic {A} : G_keeps R (gpanic (A:=A)).
Proof. intros n w w' r [= <- <-]. reflexivity. Qed.

Lemma G_keeps_bind {A B} (g : G A) (k : A -> G B) :
  G_keeps R g -> (forall a, G_keeps R (k a)) -> G_keeps R (g ≫= k).
Proof.
  intros Hg Hk n w w' r Hrun.
  change ((g ≫= k) n w) with
    (match g n w with
     | (w1, Next a n1) => k a n1 w1
     | (w1, Stop rep) => (w1, Stop rep)
     | (w1, GPanic) => (w1, GPanic)
     end) in Hrun.
  destruct (g n w) as [w1 [a n1|rep|]] eqn:Hgw.
  - transitivity w1; [eapply Hg, Hgw|eapply Hk, Hrun].
  - injection Hrun as <- <-. eapply Hg, Hgw.
  - injection Hrun as <- <-. eapply Hg, Hgw.
Qed.

Lemma G_keeps_step {A} (m : M A) (onErr : error -> G A) :
  M_keeps R m -> (forall e, G_keeps R (onErr e)) -> G_keeps R (step m onErr).
Proof.
  intros Hm He [|n] w w' r Hrun; cbn [step] in Hrun.
  - injection Hrun as <- <-. reflexivity.
  - destruct (m w) as [w1 [a|e|]] eqn:Hmw.
    + injection Hrun as <- <-. eapply Hm, Hmw.
    + transitivity w1; [eapply Hm, Hmw|eapply He, Hrun].
    + injection Hrun as <- <-. eapply Hm, Hmw.
Qed.

End Keeps.

(** *** The goroutine of handleCreateSessionRequest *)

#[local] Instance waiter_frame_refl (p : ptr) : Reflexive (waiter_frame p).
Proof. intros w. unfold waiter_frame. auto. Qed.

#[local] Instance waiter_frame_trans (p : ptr) : Transitive (waiter_frame p).
Proof.
  intros w1 w2 w3 (Ha & Hb & Hc & Hd) (Ha' & Hb' & Hc' & Hd').
  unfold waiter_frame. repeat split.
  - congruence.
  - congruence.
  - intros q Hq. rewrite Hc', Hc by exact Hq. reflexivity.
  - auto.
Qed.

Lemma waiter_frame_emit (p : ptr) (e : Event) : M_keeps (waiter_frame p) (emit e).
Proof.
  intros w w' r [= <- <-]. unfold waiter_frame. cbn [s5cConn s11Conn heap]. auto.
Qed.

Lemma waiter_frame_update (p : ptr) (f : Session -> Session) :
  M_keeps (waiter_frame p) (update p f).
Proof.
  intros w w' r Hrun. unfold update in Hrun.
  destruct (heap w !! p) as [s|] eqn:Hp; injection Hrun as <- <-;
    [|reflexivity].
  unfold waiter_frame, set_heap. cbn [s5cConn s11Conn heap]. repeat split.
  - intros q Hq. apply lookup_insert_ne. congruence.
  - intros _. rewrite lookup_insert_eq. eauto.
Qed.

Lemma waiter_frame_NewFTEID (p : ptr) (t : IFType) (v4 v6 : string) :
  M_keeps (waiter_frame p) (sgw.NewFTEID S11 t v4 v6).
Proof.
  intros w w' r Hrun. rewrite run_NewFTEID in Hrun. injection Hrun as <- <-.
  unfold waiter_frame, set_conn. cbn [s5cConn s11Conn heap Sessions]. auto.
Qed.

Lemma waiter_frame_RespondTo (p : ptr) env c to req rsp :
  M_keeps (waiter_frame p) (RespondTo env c to req rsp).
Proof.
  unfold RespondTo, SendMessageTo. destruct (transport _ _ _ _).
  - apply M_keeps_fail; typeclasses eauto.
  - apply waiter_frame_emit.
Qed.

Ltac keeps_step :=
  lazymatch goal with
  | |- G_keeps _ (_ ≫= _) => apply G_keeps_bind; [typeclasses eauto..| |intros ?]
  | |- G_keeps _ (step _ _) => apply G_keeps_step; [typeclasses eauto..| |intros ?]
  | |- G_keeps _ (fails _) => apply G_keeps_send; typeclasses eauto
  | |- G_keeps _ (send _) => apply G_keeps_send; typeclasses eauto
  | |- G_keeps _ stop => apply G_keeps_stop; typeclasses eauto
  | |- G_keeps _ gpanic => apply G_keeps_gpanic; typeclasses eauto
  | |- G_keeps _ (mret _) => apply G_keeps_ret; typeclasses eauto
  | |- G_keeps _ (match ?x with _ => _ end) => destruct x
  | |- G_keeps _ (let _ := _ in _) => cbv zeta
  | |- M_keeps _ (_ ≫= _) => apply M_keeps_bind; [typeclasses eauto..| |intros ?]
  | |- M_keeps _ (_ <$> _) => apply M_keeps_fmap; [typeclasses eauto..|]
  | |- M_keeps _ (mret _) => apply M_keeps_ret; typeclasses eauto
  | |- M_keeps _ (fail _) => apply M_keeps_fail; typeclasses eauto
  | |- M_keeps _ panic => apply M_keeps_panic; typeclasses eauto
  | |- M_keeps _ (lift _) => apply M_keeps_lift; typeclasses eauto
  | |- M_keeps _ get => apply M_keeps_get; typeclasses eauto
  | |- M_keeps _ (load _) => apply M_keeps_load; typeclasses eauto
  | |- M_keeps _ (sgw.GetTEID _ _) => apply M_keeps_GetTEID; typeclasses eauto
  | |- M_keeps _ (sgw.GetSessionByIMSI _ _) =>
      apply M_keeps_GetSessionByIMSI; typeclasses eauto
  | |- M_keeps _ (sgw.GetSessionByTEID _ _) =>
      apply M_keeps_GetSessionByTEID; typeclasses eauto
  | |- M_keeps _ (match ?x with _ => _ end) => destruct x
  | |- M_keeps _ (if ?x then _ else _) => destruct x
  | |- M_keeps _ (let _ := _ in _) => cbv zeta
  end.

Lemma createSessionWaiter_frame env mmeAddr req p11 p5 laddr pgwAddr :
  G_keeps (waiter_frame p11)
    (createSessionWaiter env mmeAddr req p11 p5 laddr pgwAddr).
Proof.
  unfold createSessionWaiter.
  repeat first
    [ keeps_step
    | apply waiter_frame_emit
    | apply waiter_frame_update
    | apply waiter_frame_NewFTEID
    | apply waiter_frame_RespondTo
    | unfold log ].
Qed.

Lemma run_step {A} (m : M A) (onErr : error -> G A) (n : nat) (w : World) :
  step m onErr (S n) w =
    match m w with
    | (w', Ok a) => (w', Next a n)
    | (w', Err e) => onErr e n w'
    | (w', Panic) => (w', GPanic)
    end.
Proof. reflexivity. Qed.

Lemma run_gbind {A B} (g : G A) (k : A -> G B) (n : nat) (w : World) :
  (g ≫= k) n w =
    match g n w with
    | (w', Next a n') => k a n' w'
    | (w', Stop rep) => (w', Stop rep)
    | (w', GPanic) => (w', GPanic)
    end.
Proof. reflexivity. Qed.

(** C10: on every Create-Session flow that has stored the upstream-side
    Session and then returns an error, whatever the peer, the transport
    and the timer do, the handler leaves the upstream connection as it was
    when that Session was stored: the Session is still registered there
    under its subscriber identity; of the requester-side store exactly the
    entries of the new requester-side Session are gone. *)
Theorem create_session_failure_keeps_upstream_session
    (env : Env) (mmeAddr : UDPAddr) (req : CreateSessionRequest.t)
    (w w1 w' : World) (p11 p5 : ptr) (laddr : UDPAddr) (pgwAddr : string)
    (err : error) :
  createSessionSetup env mmeAddr req w = (w1, Ok (p11, p5, laddr, pgwAddr)) ->
  handleCreateSessionRequest env mmeAddr req w = (w', Err err) ->
  s5cConn w' = s5cConn w1 /\
  (exists s5, heap w' !! p5 = Some s5 /\
              Sessions (s5cConn w') !! IMSI s5 = Some p5) /\
  Sessions (s11Conn w') = filter (fun kv => kv.2 <> p11) (Sessions (s11Conn w1)) /\
  ~ registered p11 (s11Conn w').
Proof.
  intros Hsetup Hrun.
  destruct (createSessionSetup_ok _ _ _ _ _ _ _ _ _ Hsetup)
    as (sender & s11 & s5 & _ & Hp11 & _ & _ & Hp5 & Hreg5 & Hne).
  unfold handleCreateSessionRequest in Hrun.
  rewrite run_bind, Hsetup in Hrun. unfold awaitWaiter in Hrun.
  destruct (createSessionWaiter _ _ _ _ _ _ _ _ w1) as [w2 gr] eqn:Hg.
  apply createSessionWaiter_frame in Hg as (H5 & H11 & Hheap & Halloc).
  assert (Hfail : forall e,
    (sgw.RemoveSession S11 p11;; fail (A:=unit) e) w2 = (w', Err err) ->
    s5cConn w' = s5cConn w1 /\
    (exists s5, heap w' !! p5 = Some s5 /\
                Sessions (s5cConn w') !! IMSI s5 = Some p5) /\
    Sessions (s11Conn w') = filter (fun kv => kv.2 <> p11) (Sessions (s11Conn w1)) /\
    ~ registered p11 (s11Conn w')).
  { intros e He. mred_in He. injection He as <- _.
    cbn [s5cConn s11Conn heap]. repeat split.
    - exact H5.
    - exists s5. rewrite Hheap, H5 by congruence. auto.
    - cbn [v2.RemoveSession Sessions]. rewrite H11. reflexivity.
    - apply RemoveSession_not_registered. }
  destruct gr as [a n|[ |e| | ]|]; eauto.
  - exfalso. unfold update in Hrun.
    destruct (heap w2 !! p11); discriminate Hrun.
  - discriminate Hrun.
Qed.

(** C6 (amended): for every Create-Session flow that has sent its request
    upstream and whose wait for the answer fails (the peer did not respond
    within the 5 seconds), when the transport accepts the response and the
    goroutine reports before the handler's 10-second timer fires, the
    handler sends to the original requester a Create-Session response with
    the requester's control TEID, the request's sequence number and the
    "no resources available" cause, leaves the upstream connection alone,
    removes the new requester-side Session from its store and returns the
    error of the wait. *)
Theorem create_session_timeout
    (env : Env) (mmeAddr : UDPAddr) (req : CreateSessionRequest.t)
    (w w1 w' : World) (p11 p5 : ptr) (laddr : UDPAddr) (pgwAddr : string)
    (err : error) (r : res unit) :
  createSessionSetup env mmeAddr req w = (w1, Ok (p11, p5, laddr, pgwAddr)) ->
  WaitMessage env = Err err ->
  (forall m, transport env S11 mmeAddr m = None) ->
  (5 <= timerAfter env)%nat ->
  handleCreateSessionRequest env mmeAddr req w = (w', r) ->
  exists sender s11,
    CreateSessionRequest.SenderFTEIDC req = Some sender /\
    heap w1 !! p11 = Some s11 /\
    out w' = out w1 ++
      [ Sent S11 mmeAddr
          (CSRsp (CreateSessionResponse.mk
                    (ies.TEID sender)
                    (CreateSessionRequest.SequenceNumber req)
                    (Some (ies.NewCause CauseNoResourcesAvailable))
                    None None None []));
        Logged (SentWithFailureCode CausePGWNotResponding (IMSI s11)) ] /\
    s5cConn w' = s5cConn w1 /\
    Sessions (s11Conn w') = filter (fun kv => kv.2 <> p11) (Sessions (s11Conn w1)) /\
    ~ registered p11 (s11Conn w') /\
    r = Err err.
Proof.
  intros Hsetup Hwait Htr Htimer Hrun.
  destruct (createSessionSetup_ok _ _ _ _ _ _ _ _ _ Hsetup)
    as (sender & s11 & s5 & Hsender & Hp11 & Hteid & _).
  exists sender, s11. split; [exact Hsender|]. split; [exact Hp11|].
  unfold handleCreateSessionRequest in Hrun.
  rewrite run_bind, Hsetup in Hrun.
  unfold awaitWaiter, createSessionWaiter in Hrun.
  destruct (timerAfter env) as [|[|[|[|[|n]]]]]; try lia.
  rewrite run_gbind, run_step in Hrun.
  unfold sgw.GetTEID in Hrun. rewrite run_bind, (run_load _ _ _ Hp11) in Hrun.
  cbn [lift] in Hrun. rewrite Hteid in Hrun.
  rewrite run_gbind, run_step, run_ret, Hwait in Hrun.
  rewrite run_gbind, run_step in Hrun.
  unfold RespondTo, SendMessageTo in Hrun. rewrite Htr in Hrun.
  cbn [emit] in Hrun.
  rewrite run_gbind, run_step, run_bind in Hrun.
  erewrite run_load in Hrun by (cbn [heap]; exact Hp11).
  cbn [log emit fails send] in Hrun.
  rewrite run_bind in Hrun. cbn [sgw.RemoveSession fail set_conn conn] in Hrun.
  injection Hrun as <- <-.
  cbn [out s5cConn s11Conn heap Sequence SetSequenceNumber
       NewCreateSessionResponse v2.RemoveSession Sessions].
  rewrite <- app_assoc. repeat split.
  apply (RemoveSession_not_registered p11 (s11Conn w1)).
Qed.

(** *** handleModifyBearerRequest *)

#[local] Instance only_emits_refl (P : Event -> Prop) : Reflexive (only_emits P).
Proof. intros w. exists []. rewrite app_nil_r. auto. Qed.

#[local] Instance only_emits_trans (P : Event -> Prop) : Transitive (only_emits P).
Proof.
  intros w1 w2 w3 (t1 & H1 & F1) (t2 & H2 & F2). exists (t1 ++ t2).
  rewrite H2, H1, app_assoc. split; [reflexivity|]. apply Forall_app. auto.
Qed.

Lemma only_emits_emit (P : Event -> Prop) (e : Event) :
  P e -> M_keeps (only_emits P) (emit e).
Proof.
  intros He w w' r [= <- <-]. exists [e]. cbn [out]. auto.
Qed.

Lemma only_emits_update (P : Event -> Prop) (p : ptr) (f : Session -> Session) :
  M_keeps (only_emits P) (update p f).
Proof.
  intros w w' r Hrun. unfold update in Hrun.
  destruct (heap w !! p); injection Hrun as <- <-;
    exists []; cbn [out set_heap]; rewrite app_nil_r; auto.
Qed.

Lemma only_emits_RelayTo (P : Event -> Prop) from to teidIn teidOut raddr :
  M_keeps (only_emits P) (RelayTo from to teidIn teidOut raddr).
Proof.
  intros w w' r Hrun. destruct from; injection Hrun as <- <-;
    exists []; cbn [out]; rewrite app_nil_r; auto.
Qed.

Lemma only_emits_RespondTo_S11 env to req rsp :
  M_keeps (only_emits (fun e => sent_on S5C e = false))
    (RespondTo env S11 to req rsp).
Proof.
  unfold RespondTo, SendMessageTo. destruct (transport _ _ _ _).
  - apply M_keeps_fail; typeclasses eauto.
  - apply only_emits_emit. reflexivity.
Qed.

#[local] Instance loop_frame_refl (p : ptr) : Reflexive (loop_frame p).
Proof. intros w. unfold loop_frame. auto 10. Qed.

#[local] Instance loop_frame_trans (p : ptr) : Transitive (loop_frame p).
Proof.
  intros w1 w2 w3 (Ha & Hb & Hc & Hd & He & Hf & Hg)
    (Ha' & Hb' & Hc' & Hd' & He' & Hf' & Hg').
  unfold loop_frame. repeat split; try congruence.
  - intros q Hq. rewrite Hf', Hf by exact Hq. reflexivity.
  - auto.
Qed.

Lemma loop_frame_update (p : ptr) (f : Session -> Session) :
  M_keeps (loop_frame p) (update p f).
Proof.
  intros w w' r Hrun. unfold update in Hrun.
  destruct (heap w !! p) as [s|] eqn:Hp; injection Hrun as <- <-;
    [|reflexivity].
  unfold loop_frame, set_heap. cbn [out s5cConn s11Conn s1uConn s5uConn heap].
  repeat split.
  - intros q Hq. apply lookup_insert_ne. congruence.
  - intros _. rewrite lookup_insert_eq. eauto.
Qed.

(** The loop over the children of the bearer context, as the handler
    runs it on the Session [p]. *)
Lemma modify_loop_frame env (p : ptr) (l : list ies.IE) :
  M_keeps (loop_frame p)
    (forEach l (fun ie =>
       match ies.Type_ ie with
       | ies.Indication => mret tt
       | ies.FullyQualifiedTEID => handleFTEIDU env ie p p
       | _ => mret tt
       end)).
Proof.
  apply M_keeps_forEach; [typeclasses eauto..|]. intros ie.
  unfold handleFTEIDU.
  repeat first [keeps_step | apply loop_frame_update].
Qed.

Lemma modify_bearer_no_upstream env mmeAddr msg :
  M_keeps (only_emits (fun e => sent_on S5C e = false))
    (handleModifyBearerRequest env mmeAddr msg).
Proof.
  unfold handleModifyBearerRequest.
  repeat first
    [ apply M_keeps_forEach; [typeclasses eauto..|intros ?]
    | keeps_step
    | apply only_emits_update
    | apply only_emits_RelayTo
    | apply only_emits_RespondTo_S11
    | apply only_emits_emit; reflexivity
    | unfold log, handleFTEIDU ].
Qed.

Lemma modify_children_frame env (p : ptr) (brCtx : option ies.IE) :
  M_keeps (loop_frame p)
    match brCtx with
    | Some brCtxIE =>
        forEach (ies.ChildIEs brCtxIE) (fun ie =>
          match ies.Type_ ie with
          | ies.Indication => mret tt
          | ies.FullyQualifiedTEID => handleFTEIDU env ie p p
          | _ => mret tt
          end)
    | None => mret tt
    end.
Proof.
  destruct brCtx; [apply modify_loop_frame|apply M_keeps_ret; typeclasses eauto].
Qed.

(** C7 (amended): on every run of the Modify-Bearer handler, whatever it
    returns, nothing is written to the upstream control-plane connection;
    and on every run that succeeds (the Session and the peer Session
    resolve, the tunnel-endpoint children are applied, the requester's
    control TEID and the two local user-plane TEIDs are recorded, the
    local S1-U address splits and the transport accepts the response)
    exactly one message leaves the process: the response to the requester,
    with the requester's control TEID, the request's sequence number, the
    "accepted" cause and a bearer context holding the "accepted" cause, the
    bearer identifier and the local S1-U tunnel-endpoint IE. *)
Theorem modify_bearer_response
    (env : Env) (mmeAddr : UDPAddr) (msg : ModifyBearerRequest.t)
    (w w' : World) (r : res unit) :
  handleModifyBearerRequest env mmeAddr msg w = (w', r) ->
  only_emits (fun e => sent_on S5C e = false) w w' /\
  (r = Ok tt ->
   exists p11 s11 s11mmeTEID s1usgwTEID s1uIP port,
     v2.GetSessionByTEID (heap w) (ModifyBearerRequest.TEID msg) (s11Conn w)
       = Ok p11 /\
     heap w' !! p11 = Some s11 /\
     v2.GetTEID IFTypeS11MMEGTPC s11 = Ok s11mmeTEID /\
     v2.GetTEID IFTypeS1USGWGTPU s11 = Ok s1usgwTEID /\
     SplitHostPort env (s1u env) = Ok (s1uIP, port) /\
     out w' = out w ++
       [ Logged (Received mmeAddr);
         Sent S11 mmeAddr
           (MBRsp (ModifyBearerResponse.mk
                     s11mmeTEID
                     (ModifyBearerRequest.SequenceNumber msg)
                     (Some (ies.NewCause CauseRequestAccepted))
                     (Some (ies.NewBearerContext
                              [ ies.NewCause CauseRequestAccepted;
                                ies.NewEPSBearerID (EBI (DefaultBearer s11));
                                ies.NewFullyQualifiedTEID IFTypeS1USGWGTPU
                                  s1usgwTEID s1uIP EmptyString ]))));
         Logged (StartedListening (IMSI s11)) ]).
Proof.
  intros Hrun. split; [eapply modify_bearer_no_upstream, Hrun|].
  intros ->. unfold handleModifyBearerRequest in Hrun.
  mred_in Hrun.
  destruct (v2.GetSessionByTEID _ _ _) as [p11| |] eqn:Hp11; try discriminate Hrun.
  mred_in Hrun. unfold load at 1 in Hrun. cbn [heap] in Hrun.
  destruct (heap w !! p11) as [s0|] eqn:Hs0; try discriminate Hrun.
  mred_in Hrun.
  destruct (v2.GetSessionByIMSI _ _) as [p5| |] eqn:Hp5; try discriminate Hrun.
  mred_in Hrun.
  match type of Hrun with
  | context [match ?m ?w0 with _ => _ end] =>
      destruct (m w0) as [w2 [[]|e|]] eqn:Hloop; try discriminate Hrun
  end.
  apply modify_children_frame in Hloop
    as (Hout & H11 & H5 & _ & _ & Hheap & Halloc).
  cbn [out s11Conn s5cConn heap] in *.
  destruct Halloc as [s11 Hs11]; [eauto|].
  unfold sgw.GetTEID in Hrun.
  mred_in Hrun.
  destruct (v2.GetTEID IFTypeS11MMEGTPC s11) as [s11mmeTEID| |] eqn:Ht1;
    try discriminate Hrun.
  mred_in Hrun.
  destruct (v2.GetTEID IFTypeS1USGWGTPU s11) as [s1usgwTEID| |] eqn:Ht2;
    try discriminate Hrun.
  mred_in Hrun. unfold load at 1 in Hrun.
  destruct (heap w2 !! p5) as [s5|] eqn:Hs5; try discriminate Hrun.
  mred_in Hrun.
  destruct (v2.GetTEID IFTypeS5S8SGWGTPU s5) as [s5usgwTEID| |] eqn:Ht3;
    try discriminate Hrun.
  mred_in Hrun.
  cbn [RelayTo] in Hrun. mred_in Hrun.
  cbn [RelayTo] in Hrun. mred_in Hrun.
  destruct (SplitHostPort env (s1u env)) as [[s1uIP port]| |] eqn:Hsplit;
    try discriminate Hrun.
  mred_in Hrun. unfold RespondTo, SendMessageTo in Hrun.
  destruct (transport env S11 mmeAddr _) eqn:Htr; mred_in Hrun;
    try discriminate Hrun.
  injection Hrun as <-.
  exists p11, s11, s11mmeTEID, s1usgwTEID, s1uIP, port.
  cbn [heap out Sequence SetSequenceNumber NewModifyBearerResponse].
  rewrite Hout, <- !app_assoc. repeat split; assumption.
Qed.

(** *** The claims at the sample runs *)

Import Samples.

(** C5 (as stated, refuted): the request lacks only its RAT type, and the
    subscriber has a Session in the requester-side store; the handler
    returns [ErrRequiredIEMissing] for the RAT type, yet the store has
    lost that Session. *)
Lemma create_session_missing_ie_drops_old_session :
  lacks_listed_IE request_without_rat /\
  (handleCreateSessionRequest (env (Err ErrTimeout) accepts 10) mme
     request_without_rat world_with_session).2
    = Err (ErrRequiredIEMissing ies.RATType) /\
  Sessions (s11Conn world_with_session) !! imsi = Some 1%positive /\
  Sessions (s11Conn
    (handleCreateSessionRequest (env (Err ErrTimeout) accepts 10) mme
       request_without_rat world_with_session).1) !! imsi = None.
Proof.
  split; [do 6 right; reflexivity|]. repeat split; vm_compute; reflexivity.
Qed.

Lemma create_session_required_ie_missing_witness :
  let run := handleCreateSessionRequest (env (Err ErrTimeout) accepts 10) mme
               request_without_rat world_with_session in
  (exists t, first_missing request_without_rat = Some t /\
             run.2 = Err (ErrRequiredIEMissing t)) /\
  out run.1 = out world_with_session ++ [Logged (Received mme)] /\
  s5cConn run.1 = s5cConn world_with_session /\
  Sessions (s11Conn run.1) ⊆ Sessions (s11Conn world_with_session) /\
  (forall p s, heap world_with_session !! p = Some s -> heap run.1 !! p = Some s) /\
  ((forall ie, CreateSessionRequest.IMSI request_without_rat = Some ie ->
      Sessions (s11Conn world_with_session) !! ies.text ie = None) ->
   s11Conn run.1 = s11Conn world_with_session).
Proof.
  intros run.
  apply (create_session_required_ie_missing
           (env (Err ErrTimeout) accepts 10) mme request_without_rat
           world_with_session run.1 run.2).
  - do 6 right. reflexivity.
  - split; [eexists; reflexivity|]. intros ie _. eexists. reflexivity.
  - apply surjective_pairing.
Defined.

(** C6 (as stated, refuted): the peer does not respond and the transport
    refuses the response; nothing is written to the requester and the
    handler returns the transport's error, not the timeout error. *)
Lemma create_session_timeout_send_refused :
  WaitMessage (env (Err ErrTimeout) refuses_S11 10) = Err ErrTimeout /\
  (handleCreateSessionRequest (env (Err ErrTimeout) refuses_S11 10) mme
     request fresh_world).2
    = Err (ErrNet "write: network is unreachable") /\
  Forall (fun e => sent_on S11 e = false)
    (out (handleCreateSessionRequest (env (Err ErrTimeout) refuses_S11 10) mme
            request fresh_world).1).
Proof.
  split; [reflexivity|]. split; [vm_compute; reflexivity|].
  vm_compute. repeat constructor.
Qed.

Lemma create_session_timeout_witness :
  let e := env (Err ErrTimeout) accepts 10 in
  let w1 := (createSessionSetup e mme request fresh_world).1 in
  let run := handleCreateSessionRequest e mme request fresh_world in
  exists sender s11,
    CreateSessionRequest.SenderFTEIDC request = Some sender /\
    heap w1 !! 1%positive = Some s11 /\
    out run.1 = out w1 ++
      [ Sent S11 mme
          (CSRsp (CreateSessionResponse.mk
                    (ies.TEID sender)
                    (CreateSessionRequest.SequenceNumber request)
                    (Some (ies.NewCause CauseNoResourcesAvailable))
                    None None None []));
        Logged (SentWithFailureCode CausePGWNotResponding (IMSI s11)) ] /\
    s5cConn run.1 = s5cConn w1 /\
    Sessions (s11Conn run.1)
      = filter (fun kv => kv.2 <> 1%positive) (Sessions (s11Conn w1)) /\
    ~ registered 1%positive (s11Conn run.1) /\
    run.2 = Err ErrTimeout.
Proof.
  intros e w1 run.
  apply (create_session_timeout e mme request fresh_world w1 run.1
           1%positive 2%positive (mkAddr "10.0.1.2:2123" "udp") "10.0.0.3:2123"
           ErrTimeout run.2).
  - vm_compute. reflexivity.
  - reflexivity.
  - intros m. reflexivity.
  - cbn. lia.
  - apply surjective_pairing.
Defined.

Lemma create_session_failure_keeps_upstream_session_witness :
  let e := env (Err ErrTimeout) refuses_S11 10 in
  let w1 := (createSessionSetup e mme request fresh_world).1 in
  let w' := (handleCreateSessionRequest e mme request fresh_world).1 in
  s5cConn w' = s5cConn w1 /\
  (exists s5, heap w' !! 2%positive = Some s5 /\
              Sessions (s5cConn w') !! IMSI s5 = Some 2%positive) /\
  Sessions (s11Conn w')
    = filter (fun kv => kv.2 <> 1%positive) (Sessions (s11Conn w1)) /\
  ~ registered 1%positive (s11Conn w').
Proof.
  intros e w1 w'.
  apply (create_session_failure_keeps_upstream_session e mme request
           fresh_world w1 w' 1%positive 2%positive
           (mkAddr "10.0.1.2:2123" "udp") "10.0.0.3:2123"
           (ErrNet "write: network is unreachable")).
  - vm_compute. reflexivity.
  - vm_compute. reflexivity.
Defined.

(** C7 (as stated, refuted): the Session and the peer Session resolve, but
    the Session has no local S1-U TEID yet (its Create-Session flow is
    still waiting); the handler returns an error and writes no response. *)
Lemma modify_bearer_without_local_teid :
  v2.GetSessionByTEID (heap world_pending)
    (ModifyBearerRequest.TEID (modify_request 100)) (s11Conn world_pending)
    = Ok 1%positive /\
  v2.GetSessionByIMSI imsi (s5cConn world_pending) = Ok 2%positive /\
  (handleModifyBearerRequest (env (Err ErrTimeout) accepts 10) mme
     (modify_request 100) world_pending).2 = Err ErrUnknownInterface /\
  out (handleModifyBearerRequest (env (Err ErrTimeout) accepts 10) mme
         (modify_request 100) world_pending).1 = [Logged (Received mme)].
Proof. repeat split; vm_compute; reflexivity. Qed.

Lemma modify_bearer_response_witness :
  let run := handleModifyBearerRequest (env (Err ErrTimeout) accepts 10) mme
               (modify_request 201) world_established in
  only_emits (fun e => sent_on S5C e = false) world_established run.1 /\
  (run.2 = Ok tt ->
   exists p11 s11 s11mmeTEID s1usgwTEID s1uIP port,
     v2.GetSessionByTEID (heap world_established)
       (ModifyBearerRequest.TEID (modify_request 201))
       (s11Conn world_established) = Ok p11 /\
     heap run.1 !! p11 = Some s11 /\
     v2.GetTEID IFTypeS11MMEGTPC s11 = Ok s11mmeTEID /\
     v2.GetTEID IFTypeS1USGWGTPU s11 = Ok s1usgwTEID /\
     SplitHostPort (env (Err ErrTimeout) accepts 10)
       (s1u (env (Err ErrTimeout) accepts 10)) = Ok (s1uIP, port) /\
     out run.1 = out world_established ++
       [ Logged (Received mme);
         Sent S11 mme
           (MBRsp (ModifyBearerResponse.mk
                     s11mmeTEID
                     (ModifyBearerRequest.SequenceNumber (modify_request 201))
                     (Some (ies.NewCause CauseRequestAccepted))
                     (Some (ies.NewBearerContext
                              [ ies.NewCause CauseRequestAccepted;
                                ies.NewEPSBearerID (EBI (DefaultBearer s11));
                                ies.NewFullyQualifiedTEID IFTypeS1USGWGTPU
                                  s1usgwTEID s1uIP EmptyString ]))));
         Logged (StartedListening (IMSI s11)) ]) /\
  run.2 = Ok tt.
Proof.
  intros run. split; [|split; [|vm_compute; reflexivity]].
  - apply (modify_bearer_response (env (Err ErrTimeout) accepts 10) mme
             (modify_request 201) world_established run.1 run.2).
    apply surjective_pairing.
  - apply (modify_bearer_response (env (Err ErrTimeout) accepts 10) mme
             (modify_request 201) world_established run.1 run.2).
    apply surjective_pairing.
Defined.
End SgwFacts.

(** * Proofs: further properties of the GTPv0 IE codec *)

Module IesMore.
Import Bytes Binary Ies IesValues IesClaims IesShapes IesFacts.

Lemma of_Z_mod (v : Z) : of_Z (v mod 256) = of_Z v.
Proof. unfold of_Z. rewrite Z.mod_mod by lia. reflexivity. Qed.

Lemma of_Z_bytes (h l : byte) :
  of_Z (Z.shiftr (to_Z h * 256 + to_Z l) 8) = h /\
  of_Z (to_Z h * 256 + to_Z l) = l.
Proof.
  pose proof (to_Z_range h). pose proof (to_Z_range l). split.
  - rewrite Z.shiftr_div_pow2 by lia. change (2 ^ 8) with 256.
    rewrite Z.div_add_l, Z.div_small, Z.add_0_r by lia. apply of_to_Z.
  - rewrite <- of_Z_mod, Z.add_comm, Z.mod_add, Z.mod_small by lia.
    apply of_to_Z.
Qed.

Lemma tvLengthMap_tlv_None (t : byte) : 128 <= to_Z t -> tvLengthMap t = None.
Proof.
  intros Ht. destruct (tvLengthMap t) eqn:E; [|reflexivity].
  apply tvLengthMap_Some in E. lia.
Qed.

Lemma Len_table (i : IE) (l : Z) : tvLengthMap (Type_ i) = Some l -> Len i = l + 1.
Proof. intros H. unfold Len. rewrite H. reflexivity. Qed.

Lemma Len_tv_other (i : IE) :
  tvLengthMap (Type_ i) = None -> to_Z (Type_ i) < 128 ->
  Len i = 1 + len (Payload i).
Proof. intros H Ht. unfold Len. rewrite H. zbool; reflexivity. Qed.

Lemma Len_tlv (i : IE) : 128 <= to_Z (Type_ i) -> Len i = 3 + len (Payload i).
Proof.
  intros Ht. unfold Len. rewrite tvLengthMap_tlv_None by assumption.
  zbool; reflexivity.
Qed.

(** The three shapes an IE's type can have. *)
Lemma type_cases (t : byte) :
  (exists l, tvLengthMap t = Some l /\ to_Z t < 128 /\ 0 <= l <= 28) \/
  (tvLengthMap t = None /\ to_Z t < 128) \/
  (tvLengthMap t = None /\ 128 <= to_Z t).
Proof.
  destruct (tvLengthMap t) as [l|] eqn:E.
  - left. exists l. apply tvLengthMap_Some in E. tauto.
  - right. destruct (Z.ltb_spec (to_Z t) 128); tauto.
Qed.

(** X1: [Serialize] never fails and never panics: for every IE, whatever
    its type, Length field and payload, it returns a byte string of exactly
    [Len] bytes whose first byte is the type. *)
Theorem Serialize_total (i : IE) :
  exists w : list byte,
    Serialize i = Ok w /\ len w = Len i /\ head w = Some (Type_ i).
Proof.
  destruct (type_cases (Type_ i)) as [(l & Hl & Ht & Hb)|[[Hl Ht]|[Hl Ht]]].
  - eexists. split; [apply Serialize_tv_table; exact Hl|].
    rewrite (Len_table i l Hl). split; [|reflexivity].
    rewrite len_cons. unfold len.
    rewrite length_app, length_take, length_replicate. lia.
  - eexists. split; [apply Serialize_tv_other; assumption|].
    rewrite Len_tv_other by assumption. split; [apply len_cons|reflexivity].
  - eexists. split; [apply Serialize_tlv; assumption|].
    rewrite Len_tlv by assumption. split; [|reflexivity].
    rewrite !len_cons. lia.
Qed.


Lemma SerializeTo_closed (i : IE) (b : list byte) :
  Len i <= len b ->
  SerializeTo i b =
    Ok (header i ++ take (copied i) (Payload i)
          ++ drop (length (header i) + copied i) b).
Proof.
  intros Hb. pose proof (Len_pos i) as Hpos.
  unfold SerializeTo, copied, header. zbool.
  destruct b as [|t0 rest]; [change (len (@nil byte)) with 0 in Hb; lia|].
  rewrite store_head. cbn [mbind result_bind].
  rewrite len_cons in Hb. pose proof (len_nonneg rest) as Hr.
  destruct (IsTV i) eqn:Htv; cbn [negb mbind result_bind].
  - rewrite copy_in by (rewrite ?len_cons; lia).
    change (len [Type_ i]) with 1. reflexivity.
  - unfold IsTV in Htv. apply Z.ltb_ge in Htv.
    pose proof (Len_tlv i Htv) as HL. pose proof (len_nonneg (Payload i)).
    destruct rest as [|x [|y rest]];
      [change (len (@nil byte)) with 0 in Hb; lia
      |change (len [x]) with 1 in Hb; lia|].
    rewrite PutUint16_at1. cbn [mbind result_bind].
    rewrite !len_cons in Hb.
    rewrite copy_in by (rewrite ?len_cons; lia).
    change (len [Type_ i; _; _]) with 3. reflexivity.
Qed.

Lemma SerializeTo_table_short (i : IE) (l : Z) (b : list byte) :
  tvLengthMap (Type_ i) = Some l ->
  len (Payload i) <= l ->
  l + 1 <= len b ->
  SerializeTo i b =
    Ok (Type_ i :: Payload i ++ drop (1 + length (Payload i)) b).
Proof.
  intros Hl Hp Hb. rewrite SerializeTo_closed by (rewrite (Len_table i l Hl); lia).
  unfold copied, header. rewrite (IsTV_table i l Hl), (Len_table i l Hl).
  change (len [Type_ i]) with 1.
  replace (l + 1 - 1) with l by lia. rewrite Z.min_r by lia.
  unfold len. rewrite Nat2Z.id, firstn_all. reflexivity.
Qed.

(** X2: [SerializeTo] fails with [ErrTooShortToSerialize] when the buffer
    is shorter than [Len]; on every buffer of at least [Len] bytes it
    succeeds, keeps the buffer's length, puts the type in the first byte
    and leaves every byte from index [Len] on as it was.  It writes no
    padding: for a table type whose payload is shorter than the table
    length, the bytes of the buffer after the payload stay as they were,
    also those before index [Len]. *)
Theorem SerializeTo_buffer (i : IE) (b : list byte) :
  (len b < Len i -> SerializeTo i b = Err ErrTooShortToSerialize) /\
  (Len i <= len b ->
   exists b' : list byte,
     SerializeTo i b = Ok b' /\
     length b' = length b /\
     head b' = Some (Type_ i) /\
     drop (Z.to_nat (Len i)) b' = drop (Z.to_nat (Len i)) b) /\
  (forall l : Z,
     tvLengthMap (Type_ i) = Some l ->
     len (Payload i) <= l ->
     l + 1 <= len b ->
     SerializeTo i b =
       Ok (Type_ i :: Payload i ++ drop (1 + length (Payload i)) b)).
Proof.
  split; [|split].
  - intros Hb. unfold SerializeTo. zbool; reflexivity.
  - intros Hb. eexists. split; [apply SerializeTo_closed; exact Hb|].
    pose proof (Len_pos i) as Hpos. pose proof (len_nonneg (Payload i)) as Hp.
    assert (Hh : 1 <= len (header i) <= Len i /\ head (header i) = Some (Type_ i)).
    { unfold header. destruct (IsTV i) eqn:Htv.
      - change (len [Type_ i]) with 1. split; [lia|reflexivity].
      - unfold IsTV in Htv. apply Z.ltb_ge in Htv. rewrite (Len_tlv i Htv).
        change (len [Type_ i; _; _]) with 3. split; [lia|reflexivity]. }
    destruct Hh as [Hh Hhd].
    assert (Hc : (length (header i) + copied i <= Z.to_nat (Len i))%nat).
    { unfold copied, len in *. lia. }
    assert (Hcp : (copied i <= length (Payload i))%nat).
    { unfold copied, len in *. lia. }
    repeat split.
    + rewrite !length_app, length_take, length_drop. unfold len in *. lia.
    + destruct (header i); [discriminate Hhd|exact Hhd].
    + rewrite app_assoc, drop_app_ge;
        rewrite length_app, length_take, Nat.min_l by lia; [|lia].
      rewrite drop_drop. f_equal. lia.
  - intros l. apply SerializeTo_table_short.
Qed.

Lemma SerializeTo_buffer_witness :
  SerializeTo (mkIE x02 0 [x11; x22]) [xff; xff] = Err ErrTooShortToSerialize /\
  (exists b' : list byte,
     SerializeTo (mkIE x83 2 [x11; x22]) (replicate 7 xff) = Ok b' /\
     length b' = length (replicate 7 xff) /\
     head b' = Some (Type_ (mkIE x83 2 [x11; x22])) /\
     drop (Z.to_nat (Len (mkIE x83 2 [x11; x22]))) b'
       = drop (Z.to_nat (Len (mkIE x83 2 [x11; x22]))) (replicate 7 xff)) /\
  SerializeTo (mkIE x02 0 [x11; x22]) (replicate 10 xff) =
    Ok (x02 :: [x11; x22] ++ drop (1 + 2) (replicate 10 xff)).
Proof.
  split; [|split].
  - apply (SerializeTo_buffer (mkIE x02 0 [x11; x22]) [xff; xff]).
    vm_compute. reflexivity.
  - apply (SerializeTo_buffer (mkIE x83 2 [x11; x22]) (replicate 7 xff)).
    vm_compute. discriminate.
  - destruct (SerializeTo_buffer (mkIE x02 0 [x11; x22]) (replicate 10 xff))
      as (_ & _ & Hshort).
    apply (Hshort 8);
      [reflexivity|vm_compute; discriminate|vm_compute; discriminate].
Defined.

(** The two ways [Decode] succeeds. *)
Lemma Decode_Ok_inv (b : list byte) (i : IE) :
  Decode b = Ok i ->
  (exists t x rest, b = t :: x :: rest /\ to_Z t < 128 /\
     0 <= default 0 (tvLengthMap t) <= 1 + len rest /\
     i = mkIE t 0 (take (Z.to_nat (default 0 (tvLengthMap t))) (x :: rest))) \/
  (exists t h l pl, b = t :: h :: l :: pl /\ 128 <= to_Z t /\
     0 <= to_Z h * 256 + to_Z l <= len pl /\
     i = mkIE t (to_Z h * 256 + to_Z l)
           (take (Z.to_nat (to_Z h * 256 + to_Z l)) pl)).
Proof.
  intros H. destruct b as [|t [|x rest]]; [discriminate H..|].
  destruct (Z.ltb_spec (to_Z t) 128) as [Ht|Ht].
  - left. rewrite Decode_tv in H by assumption. cbv zeta in H.
    destruct (_ >? _) eqn:Hc; [discriminate H|]. injection H as <-.
    rewrite Z.gtb_ltb in Hc. apply Z.ltb_ge in Hc.
    pose proof (tv_length_nonneg t).
    exists t, x, rest. repeat split; try assumption; lia.
  - right. destruct rest as [|l pl];
      [rewrite Decode_tlv_short in H by lia; discriminate H|].
    rewrite Decode_tlv in H by lia. cbv zeta in H.
    pose proof (to_Z_range x). pose proof (to_Z_range l).
    rewrite lor_shiftl8 in H by lia.
    destruct (_ >? _) eqn:Hc; [discriminate H|]. injection H as <-.
    rewrite Z.gtb_ltb in Hc. apply Z.ltb_ge in Hc.
    exists t, x, l, pl. repeat split; try assumption; lia.
Qed.

Lemma Serialize_of_Decode (b : list byte) (i : IE) :
  Decode b = Ok i ->
  Serialize i = Ok (take (Z.to_nat (Len i)) b).
Proof.
  intros H.
  destruct (Decode_Ok_inv b i H)
    as [(t & x & rest & -> & Ht & Hl & ->)|(t & h & l & pl & -> & Ht & Hn & ->)].
  - destruct (tvLengthMap t) as [n|] eqn:Hn; simpl default in *.
    + rewrite (Serialize_tv_table _ n) by exact Hn.
      rewrite (Len_table _ n) by exact Hn. cbn [Type_ Payload].
      rewrite (Z2Nat.inj_add n 1), Nat.add_comm by lia.
      change (Z.to_nat 1) with 1%nat. cbn [Nat.add take]. do 2 f_equal.
      assert (Hlen : length (take (Z.to_nat n) (x :: rest)) = Z.to_nat n).
      { rewrite length_take. unfold len in Hl. cbn [length]. lia. }
      rewrite Hlen, Nat.sub_diag, take_take, Nat.min_id. apply app_nil_r.
    + rewrite Serialize_tv_other, Len_tv_other by assumption. reflexivity.
  - rewrite Serialize_tlv, Len_tlv by exact Ht. cbn [Type_ Length Payload].
    destruct (of_Z_bytes h l) as [-> ->].
    assert (Hlen : len (take (Z.to_nat (to_Z h * 256 + to_Z l)) pl)
                   = to_Z h * 256 + to_Z l).
    { unfold len in *. rewrite length_take. lia. }
    rewrite Hlen, (Z2Nat.inj_add 3) by lia.
    change (Z.to_nat 3) with 3%nat. reflexivity.
Qed.

(** X3: whenever [Decode] succeeds on a buffer, [Serialize] of the IE it
    returns gives back the first [Len] bytes of that buffer: the buffer is
    this encoding followed by the bytes [Decode] did not read. *)
Theorem Serialize_Decode (b : list byte) (i : IE) :
  Decode b = Ok i ->
  exists w : list byte,
    Serialize i = Ok w /\
    w = take (Z.to_nat (Len i)) b /\
    b = w ++ drop (Z.to_nat (Len i)) b.
Proof.
  intros H. eexists. split; [apply Serialize_of_Decode; exact H|].
  split; [reflexivity|]. symmetry. apply take_drop.
Qed.

Lemma Serialize_Decode_witness :
  exists w : list byte,
    Serialize (mkIE x83 2 [x61; x62]) = Ok w /\
    w = take (Z.to_nat (Len (mkIE x83 2 [x61; x62])))
          [x83; x00; x02; x61; x62; x01; x05] /\
    [x83; x00; x02; x61; x62; x01; x05] =
      w ++ drop (Z.to_nat (Len (mkIE x83 2 [x61; x62])))
             [x83; x00; x02; x61; x62; x01; x05].
Proof.
  apply (Serialize_Decode [x83; x00; x02; x61; x62; x01; x05]). reflexivity.
Defined.

Lemma Decode_prefix (b rest : list byte) (i : IE) :
  Decode b = Ok i -> Decode (b ++ rest) = Ok i.
Proof.
  intros H. pose proof (len_nonneg rest) as Hr.
  destruct (Decode_Ok_inv b i H)
    as [(t & x & r0 & -> & Ht & Hl & ->)|(t & h & l & pl & -> & Ht & Hn & ->)].
  - cbn [app]. rewrite Decode_tv by assumption. cbv zeta.
    rewrite len_app. zbool. do 2 f_equal.
    change (x :: r0 ++ rest) with ((x :: r0) ++ rest).
    apply take_app_le. unfold len in Hl. cbn [length]. lia.
  - cbn [app]. rewrite Decode_tlv by assumption. cbv zeta.
    pose proof (to_Z_range h). pose proof (to_Z_range l).
    rewrite lor_shiftl8 by lia. rewrite len_app. zbool. do 2 f_equal.
    apply take_app_le. unfold len in Hn. lia.
Qed.

(** X4: [Decode] reads nothing beyond the IE it returns: when it succeeds
    on a buffer it returns the same IE on that buffer followed by any
    further bytes, [Len] of the IE is at most the length of the buffer, and
    dropping [Len] bytes leaves exactly the bytes that followed. *)
Theorem Decode_app (b rest : list byte) (i : IE) :
  Decode b = Ok i ->
  Decode (b ++ rest) = Ok i /\
  Len i <= len b /\
  drop (Z.to_nat (Len i)) (b ++ rest) = drop (Z.to_nat (Len i)) b ++ rest.
Proof.
  intros H. split; [apply Decode_prefix; exact H|].
  pose proof (Decode_Ok_Len b i H) as HL. split; [lia|].
  apply drop_app_le. unfold len in HL. lia.
Qed.

Lemma Decode_app_witness :
  Decode ([x01; x05] ++ [xff; xff; xff]) = Ok (mkIE x01 0 [x05]) /\
  Len (mkIE x01 0 [x05]) <= len [x01; x05] /\
  drop (Z.to_nat (Len (mkIE x01 0 [x05]))) ([x01; x05] ++ [xff; xff; xff]) =
    drop (Z.to_nat (Len (mkIE x01 0 [x05]))) [x01; x05] ++ [xff; xff; xff].
Proof. apply Decode_app. reflexivity. Defined.

(** X5: every IE that [Decode] returns has the type of the buffer's first
    byte and a Length field consistent with its payload: [SetLength] leaves
    it unchanged; for a TLV type Length is the payload's length and [Len]
    is Length plus 3; for a TV type Length is 0 and the payload has the
    table length (no byte at all for a type absent from the table). *)
Theorem Decode_well_formed (b : list byte) (i : IE) :
  Decode b = Ok i ->
  head b = Some (Type_ i) /\
  SetLength i = i /\
  (IsTV i = false -> Length i = len (Payload i) /\ Len i = 3 + Length i) /\
  (IsTV i = true -> Length i = 0 /\
                    len (Payload i) = default 0 (tvLengthMap (Type_ i))).
Proof.
  intros H.
  destruct (Decode_Ok_inv b i H)
    as [(t & x & rest & -> & Ht & Hl & ->)|(t & h & l & pl & -> & Ht & Hn & ->)].
  - assert (Hlen : len (take (Z.to_nat (default 0 (tvLengthMap t))) (x :: rest))
                   = default 0 (tvLengthMap t)).
    { unfold len in *. rewrite length_take. cbn [length] in *. lia. }
    unfold IsTV, SetLength. cbn [Type_ Length Payload head].
    split; [reflexivity|]. split; [|split].
    + destruct (tvLengthMap t) eqn:E; reflexivity.
    + intros Hf. apply Z.ltb_ge in Hf. lia.
    + intros _. split; [reflexivity|exact Hlen].
  - assert (Hlen : len (take (Z.to_nat (to_Z h * 256 + to_Z l)) pl)
                   = to_Z h * 256 + to_Z l).
    { unfold len in *. rewrite length_take. lia. }
    pose proof (to_Z_range h). pose proof (to_Z_range l).
    unfold IsTV, SetLength. cbn [Type_ Length Payload head].
    rewrite tvLengthMap_tlv_None by assumption.
    split; [reflexivity|]. split; [|split].
    + unfold with_Length. cbn [Type_ Length Payload]. rewrite Hlen.
      unfold uint16. rewrite Z.mod_small by lia. reflexivity.
    + intros _. split; [symmetry; exact Hlen|].
      rewrite Len_tlv by exact Ht. cbn [Payload]. lia.
    + intros Hf. apply Z.ltb_lt in Hf. lia.
Qed.

Lemma Decode_well_formed_witness :
  head [x83; x00; x01; xaa; x07] = Some (Type_ (mkIE x83 1 [xaa])) /\
  SetLength (mkIE x83 1 [xaa]) = mkIE x83 1 [xaa] /\
  (IsTV (mkIE x83 1 [xaa]) = false ->
   Length (mkIE x83 1 [xaa]) = len (Payload (mkIE x83 1 [xaa])) /\
   Len (mkIE x83 1 [xaa]) = 3 + Length (mkIE x83 1 [xaa])) /\
  (IsTV (mkIE x83 1 [xaa]) = true ->
   Length (mkIE x83 1 [xaa]) = 0 /\
   len (Payload (mkIE x83 1 [xaa])) =
     default 0 (tvLengthMap (Type_ (mkIE x83 1 [xaa])))).
Proof. apply (Decode_well_formed [x83; x00; x01; xaa; x07]). reflexivity. Defined.


(** ** [DecodeFromBytes] on a receiver that is not fresh *)

Lemma DecodeFromBytes_tv (i : IE) (t x : byte) (rest : list byte) :
  to_Z t < 128 ->
  DecodeFromBytes i (t :: x :: rest) =
    let L := Len (with_Type t i) in
    if L >? 2 + len rest then Err ErrInvalidLength
    else Ok (mkIE t 0 (take (Z.to_nat (L - 1)) (x :: rest))).
Proof.
  intros Ht. cbv zeta. pose proof (len_nonneg rest) as Hr.
  pose proof (Len_pos (with_Type t i)) as Hpos.
  unfold DecodeFromBytes, decodeTVFromBytes, IsTV.
  rewrite index_head, !len_cons.
  cbn [mbind result_bind]. unfold with_Type at 1. cbn [Type_].
  assert (HL : Len (with_Length 0 (with_Type t i)) = Len (with_Type t i))
    by reflexivity.
  rewrite HL. zbool; try reflexivity.
  rewrite slice_in by (rewrite ?len_cons; lia).
  reflexivity.
Qed.

Lemma DecodeFromBytes_tlv (i : IE) (t : byte) (rest : list byte) :
  128 <= to_Z t ->
  DecodeFromBytes i (t :: rest) = Decode (t :: rest).
Proof.
  intros Ht. destruct rest as [|h [|l pl]]; [reflexivity| |].
  - rewrite Decode_tlv_short by assumption.
    unfold DecodeFromBytes, decodeTLVFromBytes, IsTV.
    rewrite index_head. change (len [t; h]) with 2.
    cbn [mbind result_bind with_Type Type_]. zbool; reflexivity.
  - pose proof (len_nonneg pl) as Hr.
    pose proof (to_Z_range h). pose proof (to_Z_range l).
    assert (Hn : 0 <= Z.lor (Z.shiftl (to_Z h) 8) (to_Z l))
      by (rewrite lor_shiftl8; lia).
    unfold Decode, DecodeFromBytes, decodeTLVFromBytes, IsTV.
    rewrite !index_head, !Uint16_at1, !len_cons.
    unfold with_Type, with_Length, with_Payload, zeroIE.
    cbn [mbind result_bind Type_ Length Payload].
    zbool; reflexivity.
Qed.

(** X6: [DecodeFromBytes] on a receiver that is not fresh.  For a type of
    the table and for a TLV type the result is that of [Decode], whatever
    the receiver held.  For a TV type absent from the table the receiver's
    old payload decides how much is read: as many bytes as that payload
    had, or [ErrInvalidLength] when fewer bytes follow the type byte. *)
Theorem DecodeFromBytes_receiver (i : IE) (t x : byte) (rest : list byte) :
  DecodeFromBytes i (t :: x :: rest) =
    if (to_Z t <? 128) && negb (bool_decide (is_Some (tvLengthMap t)))
    then
      if len (Payload i) >? 1 + len rest then Err ErrInvalidLength
      else Ok (mkIE t 0 (take (length (Payload i)) (x :: rest)))
    else Decode (t :: x :: rest).
Proof.
  destruct (type_cases t) as [(l & Hl & Ht & Hb)|[[Hl Ht]|[Hl Ht]]].
  - rewrite Hl. rewrite bool_decide_eq_true_2 by eauto.
    rewrite andb_false_r.
    rewrite DecodeFromBytes_tv, Decode_tv by assumption. cbv zeta.
    rewrite (Len_table _ l) by exact Hl. rewrite Hl. dflt.
    rewrite !Z.gtb_ltb. pose proof (len_nonneg rest).
    replace (l + 1 - 1) with l by lia.
    destruct (Z.ltb_spec (2 + len rest) (l + 1)),
             (Z.ltb_spec (1 + len rest) l); try lia; reflexivity.
  - rewrite Hl. rewrite bool_decide_eq_false_2 by (intros [? ?]; discriminate).
    rewrite DecodeFromBytes_tv by assumption. cbv zeta.
    rewrite Len_tv_other by assumption. cbn [with_Type Payload negb].
    rewrite !Z.gtb_ltb. pose proof (len_nonneg (Payload i)).
    replace (1 + len (Payload i) - 1) with (len (Payload i)) by lia.
    assert (Hnat : Z.to_nat (len (Payload i)) = length (Payload i))
      by (unfold len; lia).
    rewrite Hnat.
    destruct (Z.ltb_spec (to_Z t) 128); [|lia]. cbn [andb].
    destruct (Z.ltb_spec (2 + len rest) (1 + len (Payload i))),
             (Z.ltb_spec (1 + len rest) (len (Payload i))); try lia; reflexivity.
  - destruct (Z.ltb_spec (to_Z t) 128); [lia|]. cbn [andb].
    apply DecodeFromBytes_tlv. exact Ht.
Qed.

(** X7: no input makes the decoders panic: [DecodeFromBytes] on any
    receiver, [Decode] and [DecodeMultiIEs] return a result or an error on
    every byte string, every index and slice bound being in range. *)
Theorem decoding_never_panics (i : IE) (b : list byte) :
  DecodeFromBytes i b <> Panic /\
  Decode b <> Panic /\
  DecodeMultiIEs b <> Panic.
Proof.
  assert (H : forall i, DecodeFromBytes i b <> Panic).
  { clear i. intros i. destruct b as [|t [|x rest]]; [discriminate..|].
    destruct (Z.ltb_spec (to_Z t) 128) as [Ht|Ht].
    - rewrite DecodeFromBytes_tv by assumption. cbv zeta.
      destruct (_ >? _); discriminate.
    - rewrite DecodeFromBytes_tlv by assumption.
      destruct rest as [|l pl]; [rewrite Decode_tlv_short by lia; discriminate|].
      rewrite Decode_tlv by lia. cbv zeta. destruct (_ >? _); discriminate. }
  split; [apply H|]. split; [apply H|]. apply DecodeMultiIEs_no_panic.
Qed.


(** ** Lists of IEs *)

Lemma encode_all_nil : encode_all [] = Ok [].
Proof. reflexivity. Qed.

Lemma encode_all_cons (i : IE) (l : list IE) :
  encode_all (i :: l) = (w ← Serialize i; r ← encode_all l; Ok (w ++ r)).
Proof.
  unfold encode_all. cbn [mapM]. destruct (Serialize i) as [w| |]; try reflexivity.
  cbn [mbind result_bind]. destruct (mapM Serialize l) as [ws| |]; reflexivity.
Qed.

Lemma DecodeMultiIEs_Ok_nil (l : list IE) : DecodeMultiIEs [] = Ok l -> l = [].
Proof. intros H. rewrite DecodeMultiIEs_nil in H. congruence. Qed.

Lemma DecodeMultiIEs_Ok_inv (b : list byte) (l : list IE) :
  b <> [] ->
  DecodeMultiIEs b = Ok l ->
  exists i l', Decode b = Ok i /\
               DecodeMultiIEs (drop (Z.to_nat (Len i)) b) = Ok l' /\
               l = i :: l' /\ 1 <= Len i <= len b.
Proof.
  intros Hb H. rewrite DecodeMultiIEs_step in H by exact Hb.
  destruct (Decode b) as [i| |] eqn:Hd; try discriminate H.
  cbn [mbind result_bind] in H.
  destruct (DecodeMultiIEs (drop _ b)) as [l'| |] eqn:Hm; try discriminate H.
  cbn [mbind result_bind] in H. injection H as <-.
  exists i, l'. pose proof (Decode_Ok_Len b i Hd). auto.
Qed.

(** X8: whenever [DecodeMultiIEs] succeeds, serializing the IEs it
    returns, in order, and concatenating the results rebuilds the buffer
    byte for byte; the list never has more IEs than the buffer has bytes. *)
Theorem DecodeMultiIEs_reencode (b : list byte) (l : list IE) :
  DecodeMultiIEs b = Ok l ->
  encode_all l = Ok b /\ (length l <= length b)%nat.
Proof.
  remember (length b) as n eqn:Hn. revert b l Hn.
  induction n as [n IH] using lt_wf_ind. intros b l -> H.
  destruct b as [|x b].
  - apply DecodeMultiIEs_Ok_nil in H as ->. split; [reflexivity|cbn; lia].
  - assert (Hne : x :: b <> []) by discriminate.
    destruct (DecodeMultiIEs_Ok_inv _ l Hne H)
      as (i & l' & Hd & Hm & -> & HL).
    assert (Hlen : (length (drop (Z.to_nat (Len i)) (x :: b)) < length (x :: b))%nat).
    { rewrite length_drop. cbn [length]. lia. }
    destruct (IH _ Hlen _ l' eq_refl Hm) as [He Hc].
    rewrite encode_all_cons, (Serialize_of_Decode _ _ Hd), He.
    cbn [mbind result_bind]. rewrite take_drop. split; [reflexivity|].
    cbn [length] in *. lia.
Qed.

Lemma DecodeMultiIEs_reencode_witness :
  encode_all [mkIE x01 0 [x05]; mkIE x83 1 [xaa]] =
    Ok [x01; x05; x83; x00; x01; xaa] /\
  (length [mkIE x01 0 [x05]; mkIE x83 1 [xaa]] <=
   length [x01; x05; x83; x00; x01; xaa])%nat.
Proof. apply DecodeMultiIEs_reencode. reflexivity. Defined.

(** X9: if [DecodeMultiIEs] succeeds on [b1], then on [b1] followed by
    [b2] it returns the IEs of [b1] followed by those of [b2], or the error
    it returns on [b2]. *)
Theorem DecodeMultiIEs_append (b1 b2 : list byte) (l1 : list IE) :
  DecodeMultiIEs b1 = Ok l1 ->
  DecodeMultiIEs (b1 ++ b2) = (l2 ← DecodeMultiIEs b2; Ok (l1 ++ l2)).
Proof.
  remember (length b1) as n eqn:Hn. revert b1 l1 Hn.
  induction n as [n IH] using lt_wf_ind. intros b1 l1 -> H.
  destruct b1 as [|x b1].
  - apply DecodeMultiIEs_Ok_nil in H as ->. cbn [app].
    destruct (DecodeMultiIEs b2); reflexivity.
  - assert (Hne : x :: b1 <> []) by discriminate.
    destruct (DecodeMultiIEs_Ok_inv _ l1 Hne H)
      as (i & l' & Hd & Hm & -> & HL).
    assert (Hlen : (length (drop (Z.to_nat (Len i)) (x :: b1)) < length (x :: b1))%nat).
    { rewrite length_drop. cbn [length]. lia. }
    rewrite DecodeMultiIEs_step by discriminate.
    rewrite (Decode_prefix _ b2 _ Hd). cbn [mbind result_bind].
    rewrite drop_app_le by (unfold len in HL; lia).
    rewrite (IH _ Hlen _ l' eq_refl Hm).
    destruct (DecodeMultiIEs b2); reflexivity.
Qed.

Lemma DecodeMultiIEs_append_witness :
  DecodeMultiIEs ([x01; x05] ++ [x83; x00; x01; xaa]) =
    (l2 ← DecodeMultiIEs [x83; x00; x01; xaa]; Ok ([mkIE x01 0 [x05]] ++ l2)).
Proof. apply DecodeMultiIEs_append. reflexivity. Defined.


(** ** Encoding then decoding, outside the valid payloads *)

Lemma uint16_range (n : Z) : 0 <= uint16 n < 65536.
Proof. unfold uint16. apply Z.mod_pos_bound. lia. Qed.

Lemma uint16_le (n : Z) : 0 <= n -> uint16 n <= n.
Proof. intros. unfold uint16. apply Z.mod_le; lia. Qed.

Lemma roundtrip_tlv_eq (t : byte) (p : list byte) :
  128 <= to_Z t ->
  roundtrip t p =
    Ok (mkIE t (uint16 (len p)) (take (Z.to_nat (uint16 (len p))) p)).
Proof.
  intros Ht. unfold roundtrip.
  rewrite (New_other t p) by (apply tvLengthMap_tlv_None; exact Ht).
  rewrite Serialize_tlv by exact Ht. cbn [mbind result_bind Type_ Length Payload].
  rewrite Decode_tlv by exact Ht. cbv zeta.
  pose proof (uint16_range (len p)). pose proof (len_nonneg p).
  pose proof (uint16_le (len p)).
  rewrite uint16_bytes by lia. zbool; reflexivity.
Qed.

Lemma roundtrip_tv_other_eq (t : byte) (p : list byte) :
  tvLengthMap t = None -> to_Z t < 128 ->
  roundtrip t p =
    match p with
    | [] => Err ErrTooShortToDecode
    | _ :: _ => Ok (mkIE t 0 [])
    end.
Proof.
  intros Hl Ht. unfold roundtrip. rewrite (New_other t p Hl).
  rewrite Serialize_tv_other by assumption.
  cbn [mbind result_bind Type_ Payload].
  destruct p as [|x p]; [reflexivity|].
  rewrite Decode_tv, Hl by assumption. dflt. cbv zeta.
  pose proof (len_nonneg p). zbool; reflexivity.
Qed.

Lemma roundtrip_table_eq (t : byte) (l : Z) (p : list byte) :
  tvLengthMap t = Some l ->
  roundtrip t p =
    if l =? 0 then Err ErrTooShortToDecode
    else Ok (mkIE t 0 (take (Z.to_nat l) p
                         ++ replicate (Z.to_nat l - length p) x00)).
Proof.
  intros Hl. pose proof (tvLengthMap_Some _ _ Hl) as [Ht Hb].
  unfold roundtrip. rewrite (New_table t l p Hl).
  rewrite (Serialize_tv_table _ l) by exact Hl.
  cbn [mbind result_bind Type_ Payload].
  set (body := take (Z.to_nat l) p ++ replicate (Z.to_nat l - length p) x00).
  assert (Hlen : len body = l).
  { unfold body, len. rewrite length_app, length_take, length_replicate. lia. }
  destruct body as [|x body].
  - change (len (@nil byte)) with 0 in Hlen. subst l. reflexivity.
  - rewrite len_cons in Hlen. pose proof (len_nonneg body).
    rewrite Decode_tv, Hl by assumption. dflt. cbv zeta.
    zbool. rewrite take_ge; [reflexivity|].
    unfold len in Hlen. cbn [length]. lia.
Qed.

(** X10: for a TLV type, decoding the encoding of [New t p] returns the
    payload cut to its length modulo 65536, with that number as Length; the
    result is [New t p] exactly when the payload has at most 65535
    bytes. *)
Theorem roundtrip_tlv (t : byte) (p : list byte) :
  128 <= to_Z t ->
  roundtrip t p =
    Ok (mkIE t (len p mod 65536) (take (Z.to_nat (len p mod 65536)) p)) /\
  (roundtrip t p = Ok (New t p) <-> len p <= 65535).
Proof.
  intros Ht. rewrite roundtrip_tlv_eq by exact Ht. split; [reflexivity|].
  rewrite (New_other t p) by (apply tvLengthMap_tlv_None; exact Ht).
  pose proof (len_nonneg p). pose proof (uint16_range (len p)).
  split.
  - intros Heq. injection Heq as Heq.
    apply (f_equal length) in Heq. rewrite length_take in Heq.
    unfold len in *. lia.
  - intros Hle. unfold uint16. rewrite Z.mod_small by lia.
    unfold len. rewrite Nat2Z.id, firstn_all. reflexivity.
Qed.

Lemma roundtrip_tlv_witness :
  roundtrip x83 [x61; x62] =
    Ok (mkIE x83 (len [x61; x62] mod 65536)
          (take (Z.to_nat (len [x61; x62] mod 65536)) [x61; x62])) /\
  (roundtrip x83 [x61; x62] = Ok (New x83 [x61; x62]) <->
   len [x61; x62] <= 65535).
Proof. apply roundtrip_tlv. vm_compute. discriminate. Defined.

(** X11: for a TV type absent from the table, the encoding of [New t p]
    never decodes to [New t p]: with an empty payload [Decode] fails with
    [ErrTooShortToDecode], otherwise it returns an IE of that type with
    Length 0 and no payload. *)
Theorem roundtrip_unknown_tv (t : byte) (p : list byte) :
  tvLengthMap t = None ->
  to_Z t < 128 ->
  roundtrip t p = (if bool_decide (p = []) then Err ErrTooShortToDecode
                   else Ok (mkIE t 0 [])) /\
  roundtrip t p <> Ok (New t p).
Proof.
  intros Hl Ht. rewrite roundtrip_tv_other_eq by assumption.
  rewrite (New_other t p Hl). destruct p as [|x p].
  - split; [reflexivity|discriminate].
  - split; [reflexivity|]. intros Heq. discriminate Heq.
Qed.

Lemma roundtrip_unknown_tv_witness :
  roundtrip x07 [x01; x02] =
    (if bool_decide ([x01; x02] = []) then Err ErrTooShortToDecode
     else Ok (mkIE x07 0 [])) /\
  roundtrip x07 [x01; x02] <> Ok (New x07 [x01; x02]).
Proof. apply roundtrip_unknown_tv; [reflexivity|vm_compute; reflexivity]. Defined.

(** X12: for a type of the table other than 0, decoding the encoding of
    [New t p] returns the payload cut to the table length, or filled with
    zero bytes up to it; the result is [New t p] exactly when the payload
    has the table length. *)
Theorem roundtrip_table (t : byte) (l : Z) (p : list byte) :
  tvLengthMap t = Some l ->
  t <> x00 ->
  roundtrip t p =
    Ok (mkIE t 0 (take (Z.to_nat l) p ++ replicate (Z.to_nat l - length p) x00)) /\
  (roundtrip t p = Ok (New t p) <-> len p = l).
Proof.
  intros Hl Ht0. pose proof (tvLengthMap_Some _ _ Hl) as [Ht Hb].
  rewrite (roundtrip_table_eq t l p Hl), (New_table t l p Hl).
  assert (Hnz : l <> 0).
  { intros ->. apply Ht0, tvLengthMap_zero, Hl. }
  destruct (Z.eqb_spec l 0) as [|_]; [contradiction|].
  split; [reflexivity|]. split.
  - intros Heq. injection Heq as Heq. apply (f_equal length) in Heq.
    rewrite length_app, length_take, length_replicate in Heq.
    unfold len. lia.
  - intros Hlen. unfold len in Hlen.
    rewrite take_ge by lia.
    replace (Z.to_nat l - length p)%nat with 0%nat by lia.
    cbn [replicate]. rewrite app_nil_r. reflexivity.
Qed.

Lemma roundtrip_table_witness :
  roundtrip x04 [x0a; x0b] =
    Ok (mkIE x04 0 (take (Z.to_nat 4) [x0a; x0b]
                      ++ replicate (Z.to_nat 4 - length [x0a; x0b]) x00)) /\
  (roundtrip x04 [x0a; x0b] = Ok (New x04 [x0a; x0b]) <-> len [x0a; x0b] = 4).
Proof. apply roundtrip_table; [reflexivity|discriminate]. Defined.

(** X13: decoding the encoding of [New t p] gives [New t p] back if and
    only if the type is not 0 and the payload is valid for the type: of the
    table length for a type of the table, of at most 65535 bytes for a TLV
    type. *)
Theorem roundtrip_iff (t : byte) (p : list byte) :
  roundtrip t p = Ok (New t p) <-> valid_payload t p = true /\ t <> x00.
Proof.
  unfold valid_payload.
  destruct (type_cases t) as [(l & Hl & Ht & Hb)|[[Hl Ht]|[Hl Ht]]].
  - rewrite Hl, (roundtrip_table_eq t l p Hl), (New_table t l p Hl).
    rewrite Z.eqb_eq. destruct (Z.eqb_spec l 0) as [->|Hnz].
    + apply tvLengthMap_zero in Hl. split; [discriminate|]. tauto.
    + split.
      * intros Heq. injection Heq as Heq. apply (f_equal length) in Heq.
        rewrite length_app, length_take, length_replicate in Heq.
        split; [unfold len; lia|].
        intros ->. vm_compute in Hl. congruence.
      * intros [Hlen _]. unfold len in Hlen. rewrite take_ge by lia.
        replace (Z.to_nat l - length p)%nat with 0%nat by lia.
        cbn [replicate]. rewrite app_nil_r. reflexivity.
  - rewrite Hl, roundtrip_tv_other_eq, (New_other t p Hl) by assumption.
    destruct (Z.leb_spec 128 (to_Z t)); [lia|]. cbn [andb].
    split; [|intros [? _]; discriminate].
    destruct p; intros Heq; discriminate Heq.
  - rewrite Hl, roundtrip_tlv_eq, (New_other t p Hl) by assumption.
    pose proof (len_nonneg p). pose proof (uint16_range (len p)).
    destruct (Z.leb_spec 128 (to_Z t)); [|lia]. cbn [andb].
    rewrite Z.leb_le. split.
    + intros Heq. injection Heq as Heq.
      apply (f_equal length) in Heq. rewrite length_take in Heq.
      split; [unfold len in *; lia|].
      intros ->. vm_compute in Ht. apply Ht. reflexivity.
    + intros [Hle _]. unfold uint16. rewrite Z.mod_small by lia.
      unfold len. rewrite Nat2Z.id, firstn_all. reflexivity.
Qed.


(** ** The named types and the value constructors *)

(** X14: the static table has an entry for the reserved type 0 and for
    each named TV constant, and for no other type; each named TLV constant
    is at least 128 and has no entry. *)
Theorem named_types_table :
  (forall t : byte, is_Some (tvLengthMap t) <-> t = x00 \/ t ∈ named_TV) /\
  Forall (fun t => 128 <= to_Z t /\ tvLengthMap t = None) named_TLV.
Proof.
  split.
  - intros t. split.
    + intros [l Hl]. destruct t; vm_compute in Hl; try discriminate Hl;
        first [left; reflexivity | right; unfold named_TV; set_solver].
    + intros [->|Hin]; [eexists; reflexivity|].
      unfold named_TV in Hin. repeat (apply elem_of_cons in Hin as [->|Hin];
        [eexists; reflexivity|]). inversion Hin.
  - unfold named_TLV. repeat constructor; vm_compute; congruence.
Qed.

Lemma be_value_2 (v : Z) :
  0 <= v < 65536 -> be_value [of_Z (Z.shiftr v 8); of_Z v] = v.
Proof.
  intros Hv. unfold be_value. cbn [fold_left].
  rewrite <- (uint16_bytes v Hv) at 3.
  rewrite lor_shiftl8 by apply to_Z_range. lia.
Qed.

Lemma be_value_4 (v : Z) :
  0 <= v < 4294967296 ->
  be_value [of_Z (Z.shiftr v 24); of_Z (Z.shiftr v 16);
            of_Z (Z.shiftr v 8); of_Z v] = v.
Proof.
  intros Hv. unfold be_value. cbn [fold_left].
  rewrite !to_of_Z, !Z.shiftr_div_pow2 by lia.
  change (2 ^ 24) with 16777216. change (2 ^ 16) with 65536.
  change (2 ^ 8) with 256.
  Z.to_euclidean_division_equations. lia.
Qed.

(** X15: the value constructors never panic and build, with [New], an IE
    whose payload holds the value most significant byte first:
    [newUint8ValIE] in one byte, [newUint16ValIE] in two, [newUint32ValIE]
    in four. *)
Theorem newUintValIE_value (t8 t16 t32 x : byte) (v16 v32 : Z) :
  0 <= v16 < 65536 ->
  0 <= v32 < 4294967296 ->
  (newUint8ValIE t8 x = New t8 [x] /\ be_value [x] = to_Z x) /\
  (exists p : list byte,
     newUint16ValIE t16 v16 = Ok (New t16 p) /\ len p = 2 /\ be_value p = v16) /\
  (exists p : list byte,
     newUint32ValIE t32 v32 = Ok (New t32 p) /\ len p = 4 /\ be_value p = v32).
Proof.
  intros H16 H32. split; [|split].
  - split; [reflexivity|]. unfold be_value. cbn [fold_left]. lia.
  - exists [of_Z (Z.shiftr v16 8); of_Z v16].
    split; [|split; [reflexivity|apply be_value_2; exact H16]].
    unfold newUint16ValIE, New, SetLength. cbn [Type_].
    destruct (tvLengthMap t16); reflexivity.
  - exists [of_Z (Z.shiftr v32 24); of_Z (Z.shiftr v32 16);
            of_Z (Z.shiftr v32 8); of_Z v32].
    split; [|split; [reflexivity|apply be_value_4; exact H32]].
    unfold newUint32ValIE, New, SetLength. cbn [Type_].
    destruct (tvLengthMap t32); reflexivity.
Qed.

Lemma newUintValIE_value_witness :
  (newUint8ValIE Cause x80 = New Cause [x80] /\ be_value [x80] = to_Z x80) /\
  (exists p : list byte,
     newUint16ValIE FlowLabelDataI 4660 = Ok (New FlowLabelDataI p) /\
     len p = 2 /\ be_value p = 4660) /\
  (exists p : list byte,
     newUint32ValIE ChargingID 305419896 = Ok (New ChargingID p) /\
     len p = 4 /\ be_value p = 305419896).
Proof. apply newUintValIE_value; lia. Defined.

Lemma length_list_byte_of_string (str : string) :
  length (String.list_byte_of_string str) = String.length str.
Proof.
  unfold String.list_byte_of_string. rewrite length_map.
  induction str as [|a str IH]; [reflexivity|].
  cbn [String.list_ascii_of_string length String.length]. rewrite IH. reflexivity.
Qed.

(** X16: for a TLV type and a string of at most 65535 bytes, the encoding
    of [newStringIE t str] has 3 more bytes than the string, decodes to
    [newStringIE t str], and the payload read back is the string. *)
Theorem newStringIE_roundtrip (t : byte) (str : string) (w : list byte) :
  128 <= to_Z t ->
  Z.of_nat (String.length str) <= 65535 ->
  Serialize (newStringIE t str) = Ok w ->
  len w = 3 + Z.of_nat (String.length str) /\
  Decode w = Ok (newStringIE t str) /\
  String.string_of_list_byte (Payload (newStringIE t str)) = str.
Proof.
  intros Ht Hlen Hs. unfold newStringIE in *.
  pose proof (length_list_byte_of_string str) as Hl.
  set (p := String.list_byte_of_string str) in *.
  assert (Hp : len p <= 65535) by (unfold len; lia).
  repeat split.
  - rewrite (New_other t p) in Hs by (apply tvLengthMap_tlv_None; exact Ht).
    rewrite Serialize_tlv in Hs by exact Ht. injection Hs as <-.
    cbn [Payload]. rewrite !len_cons. unfold len. lia.
  - pose proof (roundtrip_tlv_eq t p Ht) as Hrt. unfold roundtrip in Hrt.
    rewrite Hs in Hrt. cbn [mbind result_bind] in Hrt. rewrite Hrt.
    rewrite (New_other t p) by (apply tvLengthMap_tlv_None; exact Ht).
    pose proof (len_nonneg p).
    unfold uint16. rewrite Z.mod_small by lia.
    unfold len. rewrite Nat2Z.id, firstn_all. reflexivity.
  - rewrite (New_other t p) by (apply tvLengthMap_tlv_None; exact Ht).
    cbn [Payload]. apply String.string_of_list_byte_of_string.
Qed.


Lemma newStringIE_roundtrip_witness :
  len [x83; x00; x03; x61; x70; x6e]
    = 3 + Z.of_nat (String.length "apn") /\
  Decode [x83; x00; x03; x61; x70; x6e] = Ok (newStringIE AccessPointName "apn") /\
  String.string_of_list_byte (Payload (newStringIE AccessPointName "apn")) = "apn"%string.
Proof.
  apply (newStringIE_roundtrip AccessPointName "apn");
    [vm_compute; discriminate|vm_compute; discriminate|reflexivity].
Defined.

End IesMore.

(** * Proofs: further properties of the S-GW handlers *)

Module SgwMore.
Import v2 v2.messages sgw SgwClaims SgwShapes SgwFacts.

Lemma createSessionSetup_inv env mmeAddr req w w1 p11 p5 laddr pgwAddr :
  createSessionSetup env mmeAddr req w = (w1, Ok (p11, p5, laddr, pgwAddr)) ->
  exists pgw sender imsi msisdn mei apn net rat raddr s5,
    CreateSessionRequest.PGWS5S8FTEIDC req = Some pgw /\
    CreateSessionRequest.SenderFTEIDC req = Some sender /\
    CreateSessionRequest.IMSI req = Some imsi /\
    CreateSessionRequest.MSISDN req = Some msisdn /\
    CreateSessionRequest.MEI req = Some mei /\
    CreateSessionRequest.APN req = Some apn /\
    CreateSessionRequest.ServingNetwork req = Some net /\
    CreateSessionRequest.RATType req = Some rat /\
    pgwAddr = ies.IPAddress pgw +:+ ":2123" /\
    ResolveUDPAddr env (s5c env) = Ok laddr /\
    ResolveUDPAddr env pgwAddr = Ok raddr /\
    transport env S5C raddr
      (CSReqOf (upstream_ies req (IP laddr) (teidCounter (s5cConn w)))) = None /\
    heap w !! p11 = None /\ heap w !! p5 = None /\ p11 <> p5 /\
    heap w1 = <[p5 := s5]>
                (<[p11 := s11_of_request mmeAddr pgw sender imsi msisdn mei apn net rat]>
                   (heap w)) /\
    v2.GetTEID IFTypeS5S8SGWGTPU s5 = Ok (teidCounter (s5cConn w) + 1 + 1)%N /\
    s11Conn w1 = mkConn (<[ies.text imsi := p11]> (without_previous (ies.text imsi) (s11Conn w)))
                        (teidCounter (s11Conn w)) /\
    s5cConn w1 = mkConn (<[IMSI s5 := p5]> (Sessions (s5cConn w)))
                        (teidCounter (s5cConn w) + 1 + 1)%N /\
    s1uConn w1 = s1uConn w /\ s5uConn w1 = s5uConn w /\
    out w1 = out w ++
      [ Logged (Received mmeAddr);
        Sent S5C raddr
          (CSReqOf (upstream_ies req (IP laddr) (teidCounter (s5cConn w))));
        Logged (SentCreateSessionRequest pgwAddr (IMSI s5)) ].
Proof.
  intros Hrun. unfold createSessionSetup in Hrun.
  unfold upstream_ies, without_previous. destruct_req req.
  mred2_in Hrun.
  present pgw Hrun. present sender Hrun.
  destruct (ResolveUDPAddr env (s5c env)) as [la| |] eqn:Hla; try discriminate Hrun.
  mred2_in Hrun.
  destruct (ResolveUDPAddr env (_ +:+ _)) as [ra| |] eqn:Hra; try discriminate Hrun.
  mred2_in Hrun.
  present imsi Hrun.
  unfold v2.GetSessionByIMSI in Hrun.
  destruct (Sessions (s11Conn w) !! ies.text imsi) as [old|] eqn:Hold;
    [|destruct (decide (ErrUnknownIMSI = ErrUnknownIMSI)); [|congruence]];
    mred2_in Hrun.
  all: present msisdn Hrun; present mei Hrun; present apn Hrun;
       present net Hrun; present rat Hrun.
  all: destruct (transport env S5C ra _) eqn:Htr; mred2_in Hrun;
       try discriminate Hrun.
  all: injection Hrun as <- <- <- <- <-.
  all: exists pgw, sender, imsi, msisdn, mei, apn, net, rat, ra.
  all: eexists.
  all: cbn [heap s11Conn s5cConn s1uConn s5uConn out Sessions teidCounter].
  all: repeat match goal with |- _ /\ _ => split end.
  all: try reflexivity; try assumption; try apply fresh_heap.
  all: try (rewrite <- !app_assoc; reflexivity).
  all: try match goal with
       | |- ?h !! fresh (dom (<[?p := ?s]> ?h)) = None =>
           pose proof (fresh_heap (<[p := s]> h)) as Hf;
           apply lookup_insert_None in Hf as [Hf _]; exact Hf
       | |- fresh (dom ?h) <> fresh (dom (<[_ := ?s]> ?h)) =>
           intros Heq;
           apply (is_fresh (dom (<[fresh (dom h) := s]> h)));
           rewrite <- Heq; apply elem_of_dom; rewrite lookup_insert_eq; eauto
       | |- v2.GetTEID _ _ = _ =>
           unfold v2.GetTEID, AddTEID; cbn [teidMap set_teidMap];
           rewrite lookup_insert_eq; reflexivity
       | |- mkConn _ _ = mkConn _ _ =>
           session_fields; rewrite ?Hold, insert_delete_eq; reflexivity
       end.
Qed.


(** X17: once the first part of [handleCreateSessionRequest] has
    succeeded, the new requester-side Session is a newly allocated object
    registered under the request's IMSI; the Session the store held for
    that IMSI is no longer registered under any key; and the entries of
    the other subscriber identities are as they were (unless they pointed
    to that previous Session). *)
Theorem create_session_replaces_previous
    (env : Env) (mmeAddr : UDPAddr) (req : CreateSessionRequest.t)
    (w w1 : World) (p11 p5 : ptr) (laddr : UDPAddr) (pgwAddr : string)
    (ie : ies.IE) :
  createSessionSetup env mmeAddr req w = (w1, Ok (p11, p5, laddr, pgwAddr)) ->
  CreateSessionRequest.IMSI req = Some ie ->
  heap w !! p11 = None /\
  Sessions (s11Conn w1)
    = <[ies.text ie := p11]> (without_previous (ies.text ie) (s11Conn w)) /\
  (forall old, Sessions (s11Conn w) !! ies.text ie = Some old ->
     is_Some (heap w !! old) -> ~ registered old (s11Conn w1)) /\
  (forall k q, k <> ies.text ie ->
     Sessions (s11Conn w) !! k = Some q ->
     Sessions (s11Conn w) !! ies.text ie <> Some q ->
     Sessions (s11Conn w1) !! k = Some q).
Proof.
  intros Hsetup Hie.
  destruct (createSessionSetup_inv _ _ _ _ _ _ _ _ _ Hsetup)
    as (pgw & sender & imsi & msisdn & mei & apn & net & rat & raddr & s5
        & _ & _ & Himsi & _ & _ & _ & _ & _ & _ & _ & _ & _
        & Hfresh & _ & _ & _ & _ & H11 & _).
  rewrite Hie in Himsi. injection Himsi as <-.
  rewrite H11. unfold registered, without_previous. cbn [Sessions].
  split; [exact Hfresh|]. split; [reflexivity|]. split.
  - intros old Hold [s Hs] [k Hk]. rewrite Hold in Hk.
    destruct (decide (k = ies.text ie)) as [->|Hne].
    + rewrite lookup_insert_eq in Hk. injection Hk as <-. congruence.
    + rewrite lookup_insert_ne in Hk by congruence.
      apply map_lookup_filter_Some in Hk as [_ Hk]. apply Hk. reflexivity.
  - intros k q Hk Hq Hnot. rewrite lookup_insert_ne by congruence.
    destruct (Sessions (s11Conn w) !! ies.text ie) as [old|]; [|exact Hq].
    apply map_lookup_filter_Some. split; [exact Hq|].
    cbn [snd]. congruence.
Qed.

(** X19: once the first part of [handleCreateSessionRequest] has
    succeeded, it has written exactly one message: a Create-Session
    request on the S5C connection, to the address resolved from the IP of
    the request's P-GW tunnel endpoint and port 2123, carrying the IEs of
    the MME's request and the S-GW's own endpoints with the next two TEIDs
    of the S5C connection; the new upstream Session is a new object that
    records the second of them as its S5/S8-U S-GW TEID and is registered
    under its IMSI. *)
Theorem create_session_upstream_request
    (env : Env) (mmeAddr : UDPAddr) (req : CreateSessionRequest.t)
    (w w1 : World) (p11 p5 : ptr) (laddr : UDPAddr) (pgwAddr : string) :
  createSessionSetup env mmeAddr req w = (w1, Ok (p11, p5, laddr, pgwAddr)) ->
  exists pgw raddr s5,
    CreateSessionRequest.PGWS5S8FTEIDC req = Some pgw /\
    pgwAddr = ies.IPAddress pgw +:+ ":2123" /\
    ResolveUDPAddr env pgwAddr = Ok raddr /\
    ResolveUDPAddr env (s5c env) = Ok laddr /\
    out w1 = out w ++
      [ Logged (Received mmeAddr);
        Sent S5C raddr
          (CSReqOf (upstream_ies req (IP laddr) (teidCounter (s5cConn w))));
        Logged (SentCreateSessionRequest pgwAddr (IMSI s5)) ] /\
    heap w !! p5 = None /\
    heap w1 !! p5 = Some s5 /\
    v2.GetTEID IFTypeS5S8SGWGTPU s5 = Ok (teidCounter (s5cConn w) + 2)%N /\
    s5cConn w1 = mkConn (<[IMSI s5 := p5]> (Sessions (s5cConn w)))
                        (teidCounter (s5cConn w) + 2)%N.
Proof.
  intros Hsetup.
  destruct (createSessionSetup_inv _ _ _ _ _ _ _ _ _ Hsetup)
    as (pgw & sender & imsi & msisdn & mei & apn & net & rat & raddr & s5
        & Hpgw & _ & _ & _ & _ & _ & _ & _ & Haddr & Hla & Hra & _
        & _ & Hfresh5 & _ & Hheap & Hteid & _ & H5 & _ & _ & Hout).
  exists pgw, raddr, s5.
  replace (teidCounter (s5cConn w) + 2)%N
    with (teidCounter (s5cConn w) + 1 + 1)%N by lia.
  rewrite Hheap, lookup_insert_eq. auto 10.
Qed.

(** X18: once the first part of [handleCreateSessionRequest] has
    succeeded, all eight required IEs were present and the new
    requester-side Session holds what they say: the peer address, IMSI,
    MSISDN, IMEI, MCC, MNC and RAT type, the P-GW's and the MME's control
    TEIDs under their roles, the APN on its default bearer, and it is not
    yet active.  No Session object that existed before is changed. *)
Theorem create_session_records_request
    (env : Env) (mmeAddr : UDPAddr) (req : CreateSessionRequest.t)
    (w w1 : World) (p11 p5 : ptr) (laddr : UDPAddr) (pgwAddr : string) :
  createSessionSetup env mmeAddr req w = (w1, Ok (p11, p5, laddr, pgwAddr)) ->
  exists pgw sender imsi msisdn mei apn net rat,
    CreateSessionRequest.PGWS5S8FTEIDC req = Some pgw /\
    CreateSessionRequest.SenderFTEIDC req = Some sender /\
    CreateSessionRequest.IMSI req = Some imsi /\
    CreateSessionRequest.MSISDN req = Some msisdn /\
    CreateSessionRequest.MEI req = Some mei /\
    CreateSessionRequest.APN req = Some apn /\
    CreateSessionRequest.ServingNetwork req = Some net /\
    CreateSessionRequest.RATType req = Some rat /\
    heap w1 !! p11 =
      Some (s11_of_request mmeAddr pgw sender imsi msisdn mei apn net rat) /\
    (forall q s, heap w !! q = Some s -> heap w1 !! q = Some s).
Proof.
  intros Hsetup.
  destruct (createSessionSetup_inv _ _ _ _ _ _ _ _ _ Hsetup)
    as (pgw & sender & imsi & msisdn & mei & apn & net & rat & raddr & s5
        & Hpgw & Hsender & Himsi & Hmsisdn & Hmei & Hapn & Hnet & Hrat & _ & _ & _ & _
        & Hfresh & Hfresh5 & Hne & Hheap & _).
  exists pgw, sender, imsi, msisdn, mei, apn, net, rat.
  repeat match goal with |- _ /\ _ => split end; try assumption.
  - rewrite Hheap, lookup_insert_ne, lookup_insert_eq by congruence. reflexivity.
  - intros q s Hq. rewrite Hheap.
    rewrite !lookup_insert_ne by congruence. exact Hq.
Qed.

(** X20: when every required IE is present and the addresses resolve but
    the transport refuses the request to the P-GW, the handler returns the
    transport's error having written nothing, yet the new requester-side
    Session, not active, stays registered under the request's IMSI; the
    upstream store has no new entry. *)
Theorem create_session_upstream_send_fails
    (env : Env) (mmeAddr : UDPAddr) (req : CreateSessionRequest.t)
    (w w' : World) (r : res unit) (pgwIE : ies.IE) (laddr raddr : UDPAddr)
    (e : error) :
  first_missing req = None ->
  CreateSessionRequest.PGWS5S8FTEIDC req = Some pgwIE ->
  ResolveUDPAddr env (s5c env) = Ok laddr ->
  ResolveUDPAddr env (ies.IPAddress pgwIE +:+ ":2123") = Ok raddr ->
  transport env S5C raddr
    (CSReqOf (upstream_ies req (IP laddr) (teidCounter (s5cConn w)))) = Some e ->
  handleCreateSessionRequest env mmeAddr req w = (w', r) ->
  r = Err e /\
  out w' = out w ++ [Logged (Received mmeAddr)] /\
  (exists imsi p11 s11,
     CreateSessionRequest.IMSI req = Some imsi /\
     heap w !! p11 = None /\
     heap w' !! p11 = Some s11 /\
     IMSI s11 = ies.text imsi /\
     isActive s11 = false /\
     Sessions (s11Conn w') !! ies.text imsi = Some p11) /\
  Sessions (s5cConn w') = Sessions (s5cConn w).
Proof.
  intros Hall Hpgw Hla Hra Htr Hrun.
  rewrite first_missing_eq in Hall.
  unfold handleCreateSessionRequest, createSessionSetup in Hrun.
  unfold upstream_ies in Htr. destruct_req req.
  destruct pgw as [pgw|]; [|discriminate Hall]. injection Hpgw as ->.
  destruct sender as [sender|]; [|discriminate Hall].
  destruct imsi as [imsi|]; [|discriminate Hall].
  destruct msisdn as [msisdn|]; [|discriminate Hall].
  destruct mei as [mei|]; [|discriminate Hall].
  destruct apn as [apn|]; [|discriminate Hall].
  destruct net as [net|]; [|discriminate Hall].
  destruct rat as [rat|]; [|discriminate Hall].
  mred2_in Hrun. rewrite Hla in Hrun. mred2_in Hrun.
  rewrite Hra in Hrun. mred2_in Hrun.
  unfold v2.GetSessionByIMSI in Hrun.
  destruct (Sessions (s11Conn w) !! ies.text imsi) as [old|] eqn:Hold;
    [|destruct (decide (ErrUnknownIMSI = ErrUnknownIMSI)); [|congruence]];
    mred2_in Hrun.
  all: rewrite Htr in Hrun; mred2_in Hrun.
  all: injection Hrun as <- <-.
  all: cbn [heap s11Conn s5cConn out Sessions].
  all: split; [reflexivity|]. 
  all: split; [reflexivity|].
  all: split; [|reflexivity].
  all: exists imsi, (fresh (dom (heap w))); eexists.
  all: split; [reflexivity|]. 
  all: split; [apply fresh_heap|].
  all: split; [rewrite lookup_insert_ne; [apply lookup_insert_eq|]|].
  all: try (intros Heq; symmetry in Heq; revert Heq;
            match goal with
            | |- fresh (dom ?h) = fresh (dom (<[_ := ?s]> ?h)) -> False =>
                intros Heq;
                apply (is_fresh (dom (<[fresh (dom h) := s]> h)));
                rewrite <- Heq; apply elem_of_dom; rewrite lookup_insert_eq; eauto
            end).
  all: session_fields.
  all: split; [reflexivity|]. 
  all: split; [reflexivity|]. 
  all: apply lookup_insert_eq.
Qed.


(** *** The goroutine, step by step *)

Ltac gstep H :=
  rewrite run_gbind in H;
  lazymatch type of H with
  | context [step _ _ ?n _] =>
      destruct n; [discriminate H|rewrite run_step in H]
  end.

Lemma run_gret {A} (a : A) (n : nat) (w : World) :
  (mret a : G A) n w = (w, Next a n).
Proof. reflexivity. Qed.

Ltac gdead H :=
  solve [ try unfold fails in H; try unfold send in H;
          try unfold stop in H; try unfold gpanic in H;
          repeat lazymatch type of H with
                 | context [match ?n with O => _ | S _ => _ end] => destruct n
                 end;
          discriminate H ].

(** X21: when [handleCreateSessionRequest] returns nil, the peer answered
    with a Create-Session response holding a bearer context, and the timer
    let the goroutine complete its twelve steps.  The MME has been sent
    that response with its own control TEID, the request's sequence
    number, the S-GW's S11 endpoint as sender F-TEID, the S-GW's S1-U
    endpoint added to the bearer context and the charging ID (instance 0)
    removed from it.  The requester-side Session is active, records the two
    new TEIDs under their roles and is still registered; the upstream
    connection is untouched. *)
Theorem create_session_success
    (env : Env) (mmeAddr : UDPAddr) (req : CreateSessionRequest.t)
    (w w1 w' : World) (p11 p5 : ptr) (laddr : UDPAddr) (pgwAddr : string) :
  createSessionSetup env mmeAddr req w = (w1, Ok (p11, p5, laddr, pgwAddr)) ->
  handleCreateSessionRequest env mmeAddr req w = (w', Ok tt) ->
  exists sender rsp brCtx s11IP port s11 s5,
    CreateSessionRequest.SenderFTEIDC req = Some sender /\
    WaitMessage env = Ok (CSRsp rsp) /\
    CreateSessionResponse.BearerContextsCreated rsp = Some brCtx /\
    SplitHostPort env (sgw.s11 env) = Ok (s11IP, port) /\
    heap w1 !! p5 = Some s5 /\
    out w' = out w1 ++
      [ Sent S11 mmeAddr
          (CSRsp (CreateSessionResponse.mk
                    (ies.TEID sender)
                    (CreateSessionRequest.SequenceNumber req)
                    (CreateSessionResponse.Cause rsp)
                    (Some (ies.NewFullyQualifiedTEID IFTypeS11S4SGWGTPC
                             (teidCounter (s11Conn w1) + 1) s11IP EmptyString))
                    (Some (ies.WithInstance 1
                             (ies.NewFullyQualifiedCSID (IP laddr) 1)))
                    (Some (ies.Remove ies.ChargingID 0
                             (ies.Add
                                (ies.NewFullyQualifiedTEID IFTypeS1USGWGTPU
                                   (teidCounter (s11Conn w1) + 2) s11IP
                                   EmptyString)
                                brCtx)))
                    (CreateSessionResponse.Others rsp)));
        Logged (SessionCreated (IMSI s5)) ] /\
    heap w' !! p11 = Some s11 /\
    isActive s11 = true /\
    v2.GetTEID IFTypeS11MMEGTPC s11 = Ok (ies.TEID sender) /\
    v2.GetTEID IFTypeS11S4SGWGTPC s11 = Ok (teidCounter (s11Conn w1) + 1)%N /\
    v2.GetTEID IFTypeS1USGWGTPU s11 = Ok (teidCounter (s11Conn w1) + 2)%N /\
    Sessions (s11Conn w') !! IMSI s11 = Some p11 /\
    s11Conn w' = mkConn (Sessions (s11Conn w1)) (teidCounter (s11Conn w1) + 2)%N /\
    s5cConn w' = s5cConn w1 /\
    (12 <= timerAfter env)%nat.
Proof.
  intros Hsetup Hrun.
  destruct (createSessionSetup_ok _ _ _ _ _ _ _ _ _ Hsetup)
    as (sender & s11 & s5 & Hsender & Hp11 & Hteid & Hreg11 & Hp5 & Hreg5 & Hne).
  unfold handleCreateSessionRequest in Hrun.
  rewrite run_bind, Hsetup in Hrun. unfold awaitWaiter in Hrun.
  destruct (createSessionWaiter _ _ _ _ _ _ _ _ w1) as [w2 gr] eqn:Hg.
  destruct gr as [a n|[ |e| | ]|]; try (mred_in Hrun; discriminate Hrun).
  unfold createSessionWaiter in Hg.
  destruct (timerAfter env) as [|n0] eqn:Htimer; [discriminate Hg|].
  rewrite run_gbind, run_step in Hg.
  unfold sgw.GetTEID in Hg. rewrite run_bind, (run_load _ _ _ Hp11) in Hg.
  cbn [lift] in Hg. rewrite Hteid in Hg.
  gstep Hg. rewrite run_ret in Hg.
  destruct (WaitMessage env) as [message|err|] eqn:Hwait; [| |discriminate Hg].
  2: { gstep Hg. unfold RespondTo, SendMessageTo in Hg.
       destruct (transport env S11 mmeAddr _); cbn [fail emit] in Hg; [gdead Hg|].
       gstep Hg. rewrite run_bind in Hg.
       erewrite run_load in Hg by (cbn [heap]; exact Hp11).
       cbn [log emit] in Hg. gdead Hg. }
  rewrite run_gbind in Hg.
  destruct message as [| |rsp| | |]; try gdead Hg.
  rewrite run_gret, run_gbind in Hg.
  destruct (SplitHostPort env (sgw.s11 env)) as [[s11IP port]|e|] eqn:Hsplit;
    try gdead Hg.
  rewrite run_gret in Hg.
  gstep Hg. rewrite run_NewFTEID in Hg.
  gstep Hg. rewrite run_NewFTEID in Hg.
  rewrite run_gbind in Hg.
  destruct (CreateSessionResponse.BearerContextsCreated rsp) as [brCtx|] eqn:Hbr;
    try gdead Hg.
  rewrite run_gret in Hg.
  gstep Hg. unfold RespondTo, SendMessageTo in Hg.
  destruct (transport env S11 mmeAddr _) eqn:Htr; cbn [fail emit] in Hg;
    [gdead Hg|]. clear Htr.
  unfold set_conn in Hg. cbn [conn heap s11Conn s5cConn s1uConn s5uConn out
                             Sessions teidCounter] in Hg.
  gstep Hg. erewrite run_update in Hg by (cbn [heap]; exact Hp11).
  unfold set_heap in Hg. cbn [heap s11Conn s5cConn s1uConn s5uConn out] in Hg.
  gstep Hg. erewrite run_update in Hg by (cbn [heap]; apply lookup_insert_eq).
  unfold set_heap in Hg. cbn [heap s11Conn s5cConn s1uConn s5uConn out] in Hg.
  rewrite insert_insert_eq in Hg.
  cbn [ies.InterfaceType ies.TEID ies.value ies.NewFullyQualifiedTEID] in Hg.
  set (c := teidCounter (s11Conn w1)) in *.
  set (s11' := AddTEID IFTypeS1USGWGTPU (c + 1 + 1)
                 (AddTEID IFTypeS11S4SGWGTPC (c + 1) s11)) in *.
  assert (HA : v2.GetTEID IFTypeS11S4SGWGTPC s11' = Ok (c + 1)%N).
  { unfold v2.GetTEID, s11', AddTEID. cbn [teidMap set_teidMap].
    rewrite lookup_insert_ne, lookup_insert_eq by discriminate. reflexivity. }
  assert (HB : v2.GetTEID IFTypeS1USGWGTPU s11' = Ok (c + 1 + 1)%N).
  { unfold v2.GetTEID, s11', AddTEID. cbn [teidMap set_teidMap].
    rewrite lookup_insert_eq. reflexivity. }
  assert (HC : v2.GetTEID IFTypeS11MMEGTPC s11' = Ok (ies.TEID sender)).
  { unfold v2.GetTEID, s11', AddTEID in *. cbn [teidMap set_teidMap].
    rewrite !lookup_insert_ne by discriminate. exact Hteid. }
  assert (HI : IMSI s11' = IMSI s11) by reflexivity.
  clearbody s11'.
  gstep Hg. rewrite run_bind in Hg.
  erewrite run_load in Hg by (cbn [heap]; apply lookup_insert_eq).
  cbn [lift] in Hg. rewrite HA in Hg.
  assert (Hp5' : forall x, <[p11 := x]> (heap w1) !! p5 = Some s5)
    by (intros x; rewrite lookup_insert_ne by exact Hne; exact Hp5).
  gstep Hg. rewrite run_bind in Hg.
  erewrite run_load in Hg by (cbn [heap]; apply Hp5').
  cbn [lift] in Hg.
  destruct (v2.GetTEID IFTypeS5S8PGWGTPC s5) as [t1|e1|]; [|gdead Hg|discriminate Hg].
  gstep Hg. rewrite run_bind in Hg.
  erewrite run_load in Hg by (cbn [heap]; apply Hp5').
  cbn [lift] in Hg.
  destruct (v2.GetTEID IFTypeS5S8SGWGTPC s5) as [t2|e2|]; [|gdead Hg|discriminate Hg].
  gstep Hg. rewrite run_bind in Hg.
  erewrite run_load in Hg by (cbn [heap]; apply Hp5').
  cbn [log emit] in Hg.
  unfold send in Hg. destruct n0 as [|n0]; [discriminate Hg|].
  injection Hg as <-.
  erewrite run_update in Hrun by (cbn [heap]; apply lookup_insert_eq).
  injection Hrun as <-.
  unfold set_heap. cbn [heap s11Conn s5cConn out Sessions].
  rewrite insert_insert_eq, lookup_insert_eq.
  exists sender, rsp, brCtx, s11IP, port, (Activate s11'), s5.
  replace (c + 2)%N with (c + 1 + 1)%N by lia.
  cbn [Sequence SetSequenceNumber].
  rewrite <- !app_assoc. cbn [app].
  repeat match goal with |- _ /\ _ => split end;
    try reflexivity; try assumption.
  - change (IMSI (Activate s11')) with (IMSI s11'). rewrite HI. exact Hreg11.
  - lia.
Qed.


(** X22: when the answer that arrives is not a Create-Session response,
    or is one but the local S11 address does not split into host and port,
    the MME gets no response at all: nothing is written or logged, the new
    requester-side Session is removed and the upstream connection is
    untouched.  In the first case the handler returns [ErrUnexpectedType]
    (or [ErrTimeout] when the timer fires before the goroutine's report);
    in the second the goroutine returns without reporting and the handler
    returns [ErrTimeout] once its timer fires. *)
Theorem create_session_answer_not_relayed
    (env : Env) (mmeAddr : UDPAddr) (req : CreateSessionRequest.t)
    (w w1 w' : World) (r : res unit) (p11 p5 : ptr) (laddr : UDPAddr)
    (pgwAddr : string) (m : Message) :
  createSessionSetup env mmeAddr req w = (w1, Ok (p11, p5, laddr, pgwAddr)) ->
  WaitMessage env = Ok m ->
  (forall rsp, m = CSRsp rsp -> exists e, SplitHostPort env (sgw.s11 env) = Err e) ->
  handleCreateSessionRequest env mmeAddr req w = (w', r) ->
  out w' = out w1 /\
  heap w' = heap w1 /\
  s5cConn w' = s5cConn w1 /\
  ~ registered p11 (s11Conn w') /\
  r = Err match m with
          | CSRsp _ => ErrTimeout
          | _ => if (3 <=? timerAfter env)%nat then ErrUnexpectedType
                 else ErrTimeout
          end.
Proof.
  intros Hsetup Hwait Hsplit Hrun.
  destruct (createSessionSetup_ok _ _ _ _ _ _ _ _ _ Hsetup)
    as (sender & s11 & s5 & Hsender & Hp11 & Hteid & _).
  unfold handleCreateSessionRequest in Hrun.
  rewrite run_bind, Hsetup in Hrun.
  unfold awaitWaiter, createSessionWaiter in Hrun.
  assert (Hend : forall e,
    (sgw.RemoveSession S11 p11;; fail (A:=unit) e) w1 = (w', r) ->
    out w' = out w1 /\ heap w' = heap w1 /\ s5cConn w' = s5cConn w1 /\
    ~ registered p11 (s11Conn w') /\ r = Err e).
  { intros e He. mred_in He. injection He as <- <-.
    cbn [out heap s5cConn s11Conn]. repeat split.
    apply RemoveSession_not_registered. }
  destruct (timerAfter env) as [|[|n]].
  { destruct m; apply Hend; exact Hrun. }
  { rewrite run_gbind, run_step in Hrun.
    unfold sgw.GetTEID in Hrun. rewrite run_bind, (run_load _ _ _ Hp11) in Hrun.
    cbn [lift] in Hrun. rewrite Hteid in Hrun.
    destruct m; apply Hend; exact Hrun. }
  rewrite run_gbind, run_step in Hrun.
  unfold sgw.GetTEID in Hrun. rewrite run_bind, (run_load _ _ _ Hp11) in Hrun.
  cbn [lift] in Hrun. rewrite Hteid in Hrun.
  rewrite run_gbind, run_step, run_ret, Hwait in Hrun.
  rewrite run_gbind in Hrun.
  destruct m as [| |rsp| | |];
    try (unfold fails, send in Hrun; destruct n; apply Hend; exact Hrun).
  destruct (Hsplit rsp eq_refl) as [e He].
  rewrite run_gret, run_gbind, He in Hrun. apply Hend. exact Hrun.
Qed.


(** *** handleFTEIDU and the loop over the bearer context *)



(** The loop over the children, on the Session it updates: the last
    tunnel-endpoint child decides the default bearer's remote end. *)
Lemma modify_loop_bearer env (p : ptr) (l : list ies.IE) :
  forall (w w2 : World) (s : Session),
  forEach l (fun ie =>
    match ies.Type_ ie with
    | ies.Indication => mret tt
    | ies.FullyQualifiedTEID => handleFTEIDU env ie p p
    | _ => mret tt
    end) w = (w2, Ok tt) ->
  heap w !! p = Some s ->
  exists s2,
    heap w2 !! p = Some s2 /\
    IMSI s2 = IMSI s /\
    EBI (DefaultBearer s2) = EBI (DefaultBearer s) /\
    match last (filter (fun c => ies.Type_ c = ies.FullyQualifiedTEID) l) with
    | Some ie =>
        exists addr,
          ResolveUDPAddr env (ies.IPAddress ie +:+ ":2152") = Ok addr /\
          RemoteAddress (DefaultBearer s2) = Some addr /\
          OutgoingTEID (DefaultBearer s2) = ies.TEID ie
    | None => s2 = s
    end.
Proof.
  induction l as [|ie l IH]; intros w w2 s Hrun Hs.
  - injection Hrun as <-. exists s.
    split; [exact Hs|]. split; [reflexivity|]. split; reflexivity.
  - cbn [forEach] in Hrun. rewrite run_bind in Hrun.
    destruct (ies.Type_ ie) eqn:Hty.
    10: {
      rewrite filter_cons_True by exact Hty. rewrite last_cons.
      unfold handleFTEIDU in Hrun.
      destruct (decide (ies.Type_ ie <> ies.FullyQualifiedTEID)) as [Hn|_];
        [congruence|].
      mred_in Hrun.
      destruct (ResolveUDPAddr env _) as [addr|e|] eqn:Haddr;
        try discriminate Hrun.
      mred_in Hrun.
      match type of Hrun with
      | forEach _ _ ?wa = _ =>
          destruct (IH wa w2 _ Hrun ltac:(cbn [heap]; apply lookup_insert_eq))
            as (s2 & Hs2 & Hi & He & Hlast)
      end.
      exists s2. split; [exact Hs2|]. split; [exact Hi|]. split; [exact He|].
      destruct (last (filter _ l)) as [ie'|]; [exact Hlast|].
      subst s2. exists addr. auto. }
    all: rewrite filter_cons_False by congruence.
    all: rewrite run_ret in Hrun; exact (IH w w2 s Hrun Hs).
Qed.

(** A run of [handleModifyBearerRequest] that succeeds, step by step. *)
Lemma modify_bearer_run_ok env mmeAddr msg w w' :
  handleModifyBearerRequest env mmeAddr msg w = (w', Ok tt) ->
  exists p11 p5 s0 s11 s5 t0 t1 t5 s1uIP port,
    v2.GetSessionByTEID (heap w) (ModifyBearerRequest.TEID msg) (s11Conn w)
      = Ok p11 /\
    heap w !! p11 = Some s0 /\
    v2.GetSessionByIMSI (IMSI s0) (s5cConn w) = Ok p5 /\
    heap w' !! p11 = Some s11 /\
    heap w' !! p5 = Some s5 /\
    IMSI s11 = IMSI s0 /\
    EBI (DefaultBearer s11) = EBI (DefaultBearer s0) /\
    match last (FTEID_children (ModifyBearerRequest.BearerContextsToBeModified msg)) with
    | Some ie =>
        exists addr,
          ResolveUDPAddr env (ies.IPAddress ie +:+ ":2152") = Ok addr /\
          RemoteAddress (DefaultBearer s11) = Some addr /\
          OutgoingTEID (DefaultBearer s11) = ies.TEID ie
    | None => s11 = s0
    end /\
    (forall q, q <> p11 -> heap w' !! q = heap w !! q) /\
    v2.GetTEID IFTypeS11MMEGTPC s11 = Ok t0 /\
    v2.GetTEID IFTypeS1USGWGTPU s11 = Ok t1 /\
    v2.GetTEID IFTypeS5S8SGWGTPU s5 = Ok t5 /\
    SplitHostPort env (s1u env) = Ok (s1uIP, port) /\
    s11Conn w' = s11Conn w /\
    s5cConn w' = s5cConn w /\
    s1uConn w' = v1.RelayTo v1.S5U t1 (OutgoingTEID (DefaultBearer s5))
                   (RemoteAddress (DefaultBearer s5)) (s1uConn w) /\
    s5uConn w' = v1.RelayTo v1.S1U t5 (OutgoingTEID (DefaultBearer s11))
                   (RemoteAddress (DefaultBearer s11)) (s5uConn w).
Proof.
  intros Hrun. unfold handleModifyBearerRequest in Hrun.
  mred_in Hrun.
  destruct (v2.GetSessionByTEID _ _ _) as [p11| |] eqn:Hp11; try discriminate Hrun.
  mred_in Hrun. unfold load at 1 in Hrun. cbn [heap] in Hrun.
  destruct (heap w !! p11) as [s0|] eqn:Hs0; try discriminate Hrun.
  mred_in Hrun.
  destruct (v2.GetSessionByIMSI _ _) as [p5| |] eqn:Hp5; try discriminate Hrun.
  mred_in Hrun.
  match type of Hrun with
  | context [match ?m ?w0 with _ => _ end] =>
      destruct (m w0) as [w2 [[]|e|]] eqn:Hloop; try discriminate Hrun
  end.
  assert (Hbearer : exists s11,
    heap w2 !! p11 = Some s11 /\ IMSI s11 = IMSI s0 /\
    EBI (DefaultBearer s11) = EBI (DefaultBearer s0) /\
    match last (FTEID_children (ModifyBearerRequest.BearerContextsToBeModified msg)) with
    | Some ie =>
        exists addr,
          ResolveUDPAddr env (ies.IPAddress ie +:+ ":2152") = Ok addr /\
          RemoteAddress (DefaultBearer s11) = Some addr /\
          OutgoingTEID (DefaultBearer s11) = ies.TEID ie
    | None => s11 = s0
    end).
  { unfold FTEID_children.
    destruct (ModifyBearerRequest.BearerContextsToBeModified msg) as [brCtx|].
    - eapply modify_loop_bearer; [exact Hloop|]. cbn [heap]. exact Hs0.
    - injection Hloop as <-. exists s0. cbn [heap last]. auto. }
  destruct Hbearer as (s11 & Hs11 & Himsi & Hebi & Hlast).
  apply modify_children_frame in Hloop
    as (Hout & H11 & H5 & H1u & H5u & Hheap & _).
  cbn [out s11Conn s5cConn s1uConn s5uConn heap] in *.
  unfold sgw.GetTEID in Hrun.
  mred_in Hrun.
  destruct (v2.GetTEID IFTypeS11MMEGTPC s11) as [t0| |] eqn:Ht0;
    try discriminate Hrun.
  mred_in Hrun.
  destruct (v2.GetTEID IFTypeS1USGWGTPU s11) as [t1| |] eqn:Ht1;
    try discriminate Hrun.
  mred_in Hrun. unfold load at 1 in Hrun.
  destruct (heap w2 !! p5) as [s5|] eqn:Hs5; try discriminate Hrun.
  mred_in Hrun.
  destruct (v2.GetTEID IFTypeS5S8SGWGTPU s5) as [t5| |] eqn:Ht5;
    try discriminate Hrun.
  mred_in Hrun.
  cbn [RelayTo] in Hrun. mred_in Hrun.
  cbn [RelayTo] in Hrun. mred_in Hrun.
  destruct (SplitHostPort env (s1u env)) as [[s1uIP port]| |] eqn:Hsplit;
    try discriminate Hrun.
  mred_in Hrun. unfold RespondTo, SendMessageTo in Hrun.
  destruct (transport env S11 mmeAddr _) eqn:Htr; mred_in Hrun;
    try discriminate Hrun.
  injection Hrun as <-.
  exists p11, p5, s0, s11, s5, t0, t1, t5, s1uIP, port.
  cbn [heap s11Conn s5cConn s1uConn s5uConn].
  rewrite H11, H5, H1u, H5u.
  repeat match goal with |- _ /\ _ => split end;
    try reflexivity; try assumption.
Qed.


(** X24: when [handleModifyBearerRequest] returns nil, both relay entries
    are installed: on the S1-U connection, from the Session's S1-U S-GW
    TEID to the S5-U connection with the upstream bearer's outgoing TEID
    and remote address; on the S5-U connection, from the upstream
    Session's S5/S8-U S-GW TEID to the S1-U connection with the Session's
    bearer's outgoing TEID and remote address.  The two stores are
    unchanged and no Session object other than the request's is. *)
Theorem modify_bearer_installs_relays
    (env : Env) (mmeAddr : UDPAddr) (msg : ModifyBearerRequest.t)
    (w w' : World) :
  handleModifyBearerRequest env mmeAddr msg w = (w', Ok tt) ->
  exists p11 p5 s11 s5 t1 t5,
    v2.GetSessionByTEID (heap w) (ModifyBearerRequest.TEID msg) (s11Conn w)
      = Ok p11 /\
    v2.GetSessionByIMSI (IMSI s11) (s5cConn w) = Ok p5 /\
    heap w' !! p11 = Some s11 /\
    heap w' !! p5 = Some s5 /\
    v2.GetTEID IFTypeS1USGWGTPU s11 = Ok t1 /\
    v2.GetTEID IFTypeS5S8SGWGTPU s5 = Ok t5 /\
    v1.relayMap (s1uConn w') =
      <[t1 := v1.mkRelay v1.S5U (OutgoingTEID (DefaultBearer s5))
                (RemoteAddress (DefaultBearer s5))]> (v1.relayMap (s1uConn w)) /\
    v1.relayMap (s5uConn w') =
      <[t5 := v1.mkRelay v1.S1U (OutgoingTEID (DefaultBearer s11))
                (RemoteAddress (DefaultBearer s11))]> (v1.relayMap (s5uConn w)) /\
    s11Conn w' = s11Conn w /\
    s5cConn w' = s5cConn w /\
    (forall q, q <> p11 -> heap w' !! q = heap w !! q).
Proof.
  intros Hrun.
  destruct (modify_bearer_run_ok _ _ _ _ _ Hrun)
    as (p11 & p5 & s0 & s11 & s5 & t0 & t1 & t5 & s1uIP & port
        & Hp11 & Hs0 & Hp5 & Hs11 & Hs5 & Himsi & _ & _ & Hheap & _ & Ht1 & Ht5
        & _ & H11 & H5 & H1u & H5u).
  exists p11, p5, s11, s5, t1, t5.
  rewrite Himsi, H1u, H5u. cbn [v1.RelayTo v1.relayMap]. auto 12.
Qed.

(** X25: when [handleModifyBearerRequest] returns nil on a request whose
    bearer context has tunnel-endpoint children, the downlink relay entry
    (keyed by the upstream Session's S5/S8-U S-GW TEID, on the S5-U
    connection) sends to the S1-U connection with the TEID of the last of
    these children and the address resolved from its IP and port 2152. *)
Theorem modify_bearer_downlink_endpoint
    (env : Env) (mmeAddr : UDPAddr) (msg : ModifyBearerRequest.t)
    (w w' : World) (ie : ies.IE) :
  handleModifyBearerRequest env mmeAddr msg w = (w', Ok tt) ->
  last (FTEID_children (ModifyBearerRequest.BearerContextsToBeModified msg))
    = Some ie ->
  exists addr p11 s0 p5 s5 t5,
    ResolveUDPAddr env (ies.IPAddress ie +:+ ":2152") = Ok addr /\
    v2.GetSessionByTEID (heap w) (ModifyBearerRequest.TEID msg) (s11Conn w)
      = Ok p11 /\
    heap w !! p11 = Some s0 /\
    v2.GetSessionByIMSI (IMSI s0) (s5cConn w) = Ok p5 /\
    heap w' !! p5 = Some s5 /\
    v2.GetTEID IFTypeS5S8SGWGTPU s5 = Ok t5 /\
    v1.relayMap (s5uConn w') !! t5
      = Some (v1.mkRelay v1.S1U (ies.TEID ie) (Some addr)).
Proof.
  intros Hrun Hie.
  destruct (modify_bearer_run_ok _ _ _ _ _ Hrun)
    as (p11 & p5 & s0 & s11 & s5 & t0 & t1 & t5 & s1uIP & port
        & Hp11 & Hs0 & Hp5 & Hs11 & Hs5 & _ & _ & Hlast & _ & _ & _ & Ht5
        & _ & _ & _ & _ & H5u).
  rewrite Hie in Hlast. destruct Hlast as (addr & Haddr & Hra & Hot).
  exists addr, p11, s0, p5, s5, t5.
  rewrite H5u, Hra, Hot. cbn [v1.RelayTo v1.relayMap].
  rewrite lookup_insert_eq. auto 10.
Qed.

(** X26: when no Session of the requester-side store has the request's
    TEID, or the upstream store has none for that Session's IMSI,
    [handleModifyBearerRequest] returns the lookup's error
    ([ErrUnknownTEID], [ErrUnknownIMSI]) and changes nothing: only the log
    line of reception is added. *)
Theorem modify_bearer_unknown_session
    (env : Env) (mmeAddr : UDPAddr) (msg : ModifyBearerRequest.t)
    (w : World) (e : error) :
  (v2.GetSessionByTEID (heap w) (ModifyBearerRequest.TEID msg) (s11Conn w)
     = Err e \/
   exists p11 s,
     v2.GetSessionByTEID (heap w) (ModifyBearerRequest.TEID msg) (s11Conn w)
       = Ok p11 /\
     heap w !! p11 = Some s /\
     v2.GetSessionByIMSI (IMSI s) (s5cConn w) = Err e) ->
  handleModifyBearerRequest env mmeAddr msg w
    = (with_event (Logged (Received mmeAddr)) w, Err e) /\
  (e = ErrUnknownTEID \/ e = ErrUnknownIMSI).
Proof.
  unfold handleModifyBearerRequest, with_event.
  intros [Hteid|(p11 & s & Hteid & Hs & Himsi)].
  - split.
    + rewrite run_bind. cbn [log emit]. rewrite run_bind.
      cbn [sgw.GetSessionByTEID conn heap s11Conn]. rewrite Hteid. reflexivity.
    + left. unfold v2.GetSessionByTEID in Hteid.
      destruct (list_find _ _) as [[? [? ?]]|]; congruence.
  - split.
    + rewrite run_bind. cbn [log emit]. rewrite run_bind.
      cbn [sgw.GetSessionByTEID conn heap s11Conn]. rewrite Hteid.
      rewrite run_bind. erewrite run_load by (cbn [heap]; exact Hs).
      rewrite run_bind.
      cbn [sgw.GetSessionByIMSI conn s5cConn]. rewrite Himsi. reflexivity.
    + right. unfold v2.GetSessionByIMSI in Himsi.
      destruct (Sessions (s5cConn w) !! IMSI s); congruence.
Qed.


(** *** The properties at the sample runs *)

Import Samples MoreSamples.

Lemma create_session_replaces_previous_witness :
  let e := env (Err ErrTimeout) accepts 10 in
  let w1 := (createSessionSetup e mme request world_with_session).1 in
  heap world_with_session !! 2%positive = None /\
  Sessions (s11Conn w1)
    = <[ies.text imsi_ie := 2%positive]>
        (without_previous (ies.text imsi_ie) (s11Conn world_with_session)) /\
  (forall old, Sessions (s11Conn world_with_session) !! ies.text imsi_ie = Some old ->
     is_Some (heap world_with_session !! old) -> ~ registered old (s11Conn w1)) /\
  (forall k q, k <> ies.text imsi_ie ->
     Sessions (s11Conn world_with_session) !! k = Some q ->
     Sessions (s11Conn world_with_session) !! ies.text imsi_ie <> Some q ->
     Sessions (s11Conn w1) !! k = Some q).
Proof.
  intros e w1.
  apply (create_session_replaces_previous e mme request world_with_session w1
           2%positive 3%positive s5c_addr pgw_addr imsi_ie).
  - vm_compute. reflexivity.
  - reflexivity.
Defined.

Lemma create_session_records_request_witness :
  let e := env (Err ErrTimeout) accepts 10 in
  let w1 := (createSessionSetup e mme request world_with_session).1 in
  exists pgw sender imsi msisdn mei apn net rat,
    CreateSessionRequest.PGWS5S8FTEIDC request = Some pgw /\
    CreateSessionRequest.SenderFTEIDC request = Some sender /\
    CreateSessionRequest.IMSI request = Some imsi /\
    CreateSessionRequest.MSISDN request = Some msisdn /\
    CreateSessionRequest.MEI request = Some mei /\
    CreateSessionRequest.APN request = Some apn /\
    CreateSessionRequest.ServingNetwork request = Some net /\
    CreateSessionRequest.RATType request = Some rat /\
    heap w1 !! 2%positive =
      Some (s11_of_request mme pgw sender imsi msisdn mei apn net rat) /\
    (forall q s, heap world_with_session !! q = Some s -> heap w1 !! q = Some s).
Proof.
  intros e w1.
  apply (create_session_records_request e mme request world_with_session w1
           2%positive 3%positive s5c_addr pgw_addr).
  vm_compute. reflexivity.
Defined.

Lemma create_session_upstream_request_witness :
  let e := env (Err ErrTimeout) accepts 10 in
  let w1 := (createSessionSetup e mme request fresh_world).1 in
  exists pgw raddr s5,
    CreateSessionRequest.PGWS5S8FTEIDC request = Some pgw /\
    pgw_addr = ies.IPAddress pgw +:+ ":2123" /\
    ResolveUDPAddr e pgw_addr = Ok raddr /\
    ResolveUDPAddr e (s5c e) = Ok s5c_addr /\
    out w1 = out fresh_world ++
      [ Logged (Received mme);
        Sent S5C raddr
          (CSReqOf (upstream_ies request (IP s5c_addr)
                      (teidCounter (s5cConn fresh_world))));
        Logged (SentCreateSessionRequest pgw_addr (IMSI s5)) ] /\
    heap fresh_world !! 2%positive = None /\
    heap w1 !! 2%positive = Some s5 /\
    v2.GetTEID IFTypeS5S8SGWGTPU s5
      = Ok (teidCounter (s5cConn fresh_world) + 2)%N /\
    s5cConn w1 = mkConn (<[IMSI s5 := 2%positive]> (Sessions (s5cConn fresh_world)))
                        (teidCounter (s5cConn fresh_world) + 2)%N.
Proof.
  intros e w1.
  apply (create_session_upstream_request e mme request fresh_world w1
           1%positive 2%positive s5c_addr pgw_addr).
  vm_compute. reflexivity.
Defined.

Lemma create_session_upstream_send_fails_witness :
  let e := env (Err ErrTimeout) refuses_S5C 10 in
  let run := handleCreateSessionRequest e mme request fresh_world in
  run.2 = Err (ErrNet "write: network is unreachable") /\
  out run.1 = out fresh_world ++ [Logged (Received mme)] /\
  (exists imsi p11 s11,
     CreateSessionRequest.IMSI request = Some imsi /\
     heap fresh_world !! p11 = None /\
     heap run.1 !! p11 = Some s11 /\
     IMSI s11 = ies.text imsi /\
     isActive s11 = false /\
     Sessions (s11Conn run.1) !! ies.text imsi = Some p11) /\
  Sessions (s5cConn run.1) = Sessions (s5cConn fresh_world).
Proof.
  intros e run.
  apply (create_session_upstream_send_fails e mme request fresh_world
           run.1 run.2
           (ies.NewFullyQualifiedTEID IFTypeS5S8PGWGTPC 0 "10.0.0.3" EmptyString)
           s5c_addr (mkAddr pgw_addr "udp")
           (ErrNet "write: network is unreachable")).
  - reflexivity.
  - reflexivity.
  - reflexivity.
  - reflexivity.
  - reflexivity.
  - apply surjective_pairing.
Defined.

Lemma create_session_success_witness :
  let e := env (Ok (CSRsp pgw_answer)) accepts 12 in
  let w1 := (createSessionSetup e mme request fresh_world).1 in
  let w' := (handleCreateSessionRequest e mme request fresh_world).1 in
  exists sender rsp brCtx s11IP port s11 s5,
    CreateSessionRequest.SenderFTEIDC request = Some sender /\
    WaitMessage e = Ok (CSRsp rsp) /\
    CreateSessionResponse.BearerContextsCreated rsp = Some brCtx /\
    SplitHostPort e (sgw.s11 e) = Ok (s11IP, port) /\
    heap w1 !! 2%positive = Some s5 /\
    out w' = out w1 ++
      [ Sent S11 mme
          (CSRsp (CreateSessionResponse.mk
                    (ies.TEID sender)
                    (CreateSessionRequest.SequenceNumber request)
                    (CreateSessionResponse.Cause rsp)
                    (Some (ies.NewFullyQualifiedTEID IFTypeS11S4SGWGTPC
                             (teidCounter (s11Conn w1) + 1) s11IP EmptyString))
                    (Some (ies.WithInstance 1
                             (ies.NewFullyQualifiedCSID (IP s5c_addr) 1)))
                    (Some (ies.Remove ies.ChargingID 0
                             (ies.Add
                                (ies.NewFullyQualifiedTEID IFTypeS1USGWGTPU
                                   (teidCounter (s11Conn w1) + 2) s11IP
                                   EmptyString)
                                brCtx)))
                    (CreateSessionResponse.Others rsp)));
        Logged (SessionCreated (IMSI s5)) ] /\
    heap w' !! 1%positive = Some s11 /\
    isActive s11 = true /\
    v2.GetTEID IFTypeS11MMEGTPC s11 = Ok (ies.TEID sender) /\
    v2.GetTEID IFTypeS11S4SGWGTPC s11 = Ok (teidCounter (s11Conn w1) + 1)%N /\
    v2.GetTEID IFTypeS1USGWGTPU s11 = Ok (teidCounter (s11Conn w1) + 2)%N /\
    Sessions (s11Conn w') !! IMSI s11 = Some 1%positive /\
    s11Conn w' = mkConn (Sessions (s11Conn w1)) (teidCounter (s11Conn w1) + 2)%N /\
    s5cConn w' = s5cConn w1 /\
    (12 <= timerAfter e)%nat.
Proof.
  intros e w1 w'.
  apply (create_session_success e mme request fresh_world w1 w'
           1%positive 2%positive s5c_addr pgw_addr).
  - vm_compute. reflexivity.
  - vm_compute. reflexivity.
Defined.

Lemma create_session_answer_not_relayed_witness :
  let e := env (Ok (OtherMessage 35 0 0)) accepts 10 in
  let w1 := (createSessionSetup e mme request fresh_world).1 in
  let run := handleCreateSessionRequest e mme request fresh_world in
  out run.1 = out w1 /\
  heap run.1 = heap w1 /\
  s5cConn run.1 = s5cConn w1 /\
  ~ registered 1%positive (s11Conn run.1) /\
  run.2 = Err match OtherMessage 35 0 0 with
              | CSRsp _ => ErrTimeout
              | _ => if (3 <=? timerAfter e)%nat then ErrUnexpectedType
                     else ErrTimeout
              end.
Proof.
  intros e w1 run.
  apply (create_session_answer_not_relayed e mme request fresh_world w1
           run.1 run.2 1%positive 2%positive s5c_addr pgw_addr
           (OtherMessage 35 0 0)).
  - vm_compute. reflexivity.
  - reflexivity.
  - intros rsp Hm. discriminate Hm.
  - apply surjective_pairing.
Defined.


Lemma modify_bearer_installs_relays_witness :
  let e := env (Err ErrTimeout) accepts 10 in
  let w' := (handleModifyBearerRequest e mme (modify_request 201)
               world_established).1 in
  exists p11 p5 s11 s5 t1 t5,
    v2.GetSessionByTEID (heap world_established)
      (ModifyBearerRequest.TEID (modify_request 201)) (s11Conn world_established)
      = Ok p11 /\
    v2.GetSessionByIMSI (IMSI s11) (s5cConn world_established) = Ok p5 /\
    heap w' !! p11 = Some s11 /\
    heap w' !! p5 = Some s5 /\
    v2.GetTEID IFTypeS1USGWGTPU s11 = Ok t1 /\
    v2.GetTEID IFTypeS5S8SGWGTPU s5 = Ok t5 /\
    v1.relayMap (s1uConn w') =
      <[t1 := v1.mkRelay v1.S5U (OutgoingTEID (DefaultBearer s5))
                (RemoteAddress (DefaultBearer s5))]>
        (v1.relayMap (s1uConn world_established)) /\
    v1.relayMap (s5uConn w') =
      <[t5 := v1.mkRelay v1.S1U (OutgoingTEID (DefaultBearer s11))
                (RemoteAddress (DefaultBearer s11))]>
        (v1.relayMap (s5uConn world_established)) /\
    s11Conn w' = s11Conn world_established /\
    s5cConn w' = s5cConn world_established /\
    (forall q, q <> p11 -> heap w' !! q = heap world_established !! q).
Proof.
  intros e w'.
  apply (modify_bearer_installs_relays e mme (modify_request 201)
           world_established w').
  vm_compute. reflexivity.
Defined.

Lemma modify_bearer_downlink_endpoint_witness :
  let e := env (Err ErrTimeout) accepts 10 in
  let w' := (handleModifyBearerRequest e mme (modify_request 201)
               world_established).1 in
  exists addr p11 s0 p5 s5 t5,
    ResolveUDPAddr e (ies.IPAddress enb_fteid +:+ ":2152") = Ok addr /\
    v2.GetSessionByTEID (heap world_established)
      (ModifyBearerRequest.TEID (modify_request 201)) (s11Conn world_established)
      = Ok p11 /\
    heap world_established !! p11 = Some s0 /\
    v2.GetSessionByIMSI (IMSI s0) (s5cConn world_established) = Ok p5 /\
    heap w' !! p5 = Some s5 /\
    v2.GetTEID IFTypeS5S8SGWGTPU s5 = Ok t5 /\
    v1.relayMap (s5uConn w') !! t5
      = Some (v1.mkRelay v1.S1U (ies.TEID enb_fteid) (Some addr)).
Proof.
  intros e w'.
  apply (modify_bearer_downlink_endpoint e mme (modify_request 201)
           world_established w' enb_fteid).
  - vm_compute. reflexivity.
  - reflexivity.
Defined.

Lemma modify_bearer_unknown_session_witness :
  let e := env (Err ErrTimeout) accepts 10 in
  handleModifyBearerRequest e mme (modify_request 201) fresh_world
    = (with_event (Logged (Received mme)) fresh_world, Err ErrUnknownTEID) /\
  (ErrUnknownTEID = ErrUnknownTEID \/ ErrUnknownTEID = ErrUnknownIMSI).
Proof.
  intros e.
  apply (modify_bearer_unknown_session e mme (modify_request 201) fresh_world
           ErrUnknownTEID).
  left. reflexivity.
Defined.

End SgwMore.

(** * Proofs: the handlers of the deletion flows *)

Module SgwDeleteFacts.
Import v2 sgwDelete.

Lemma delete_run_bind {A B} (m : M A) (k : A -> M B) (w : World) :
  (m ≫= k) w =
    match m w with
    | (w', Ok a) => k a w'
    | (w', Err e) => (w', Err e)
    | (w', Panic) => (w', Panic)
    end.
Proof. reflexivity. Qed.

Lemma delete_run_ret {A} (a : A) (w : World) : (mret a : M A) w = (w, Ok a).
Proof. reflexivity. Qed.

Lemma delete_run_load (p : ptr) (w : World) (s : Session) :
  heap w !! p = Some s -> load p w = (w, Ok s).
Proof. intros H. unfold load. rewrite H. reflexivity. Qed.

Lemma GetSessionByTEID_registered (h : gmap ptr Session) (teid : N) (c : Conn)
    (p : ptr) :
  v2.GetSessionByTEID h teid c = Ok p ->
  SgwClaims.registered p c /\ is_Some (h !! p).
Proof.
  unfold v2.GetSessionByTEID. intros H.
  destruct (list_find _ _) as [[i [k q]]|] eqn:Hf; [|discriminate H].
  injection H as ->. apply list_find_Some in Hf as (Hi & Hp & _).
  cbn [snd] in Hp. split.
  - exists k. apply elem_of_map_to_list. eapply list_elem_of_lookup_2, Hi.
  - unfold has_TEID in Hp. destruct (h !! p); [eauto|discriminate Hp].
Qed.

Ltac dred_in H :=
  repeat (progress (
    try rewrite delete_run_bind in H;
    try rewrite delete_run_ret in H;
    try (erewrite delete_run_load in H by (cbn [heap]; eassumption));
    unfold set_conn in H;
    cbn [log emit fail lift conn heap s11Conn s5cConn out
         RemoveSession GetSessionByIMSI GetSessionByTEID] in H)).

(** What holds when the first part of the handler has succeeded: the
    Session of the request's TEID is allocated and registered in the
    requester-side store, which the first part leaves as it was, as it
    leaves the Session objects. *)
Lemma deleteSessionSetup_ok env mmeAddr req w w1 p11 :
  deleteSessionSetup env mmeAddr req w = (w1, Ok p11) ->
  v2.GetSessionByTEID (heap w) (DeleteSessionRequest.TEID req) (s11Conn w)
    = Ok p11 /\
  heap w1 = heap w /\
  s11Conn w1 = s11Conn w /\
  s5cConn w1 = s5cConn w /\
  exists to m, out w1 = out w ++ [Logged (Received mmeAddr); Sent sgw.S5C to m].
Proof.
  intros Hrun. unfold deleteSessionSetup in Hrun. dred_in Hrun.
  destruct (v2.GetSessionByTEID _ _ _) as [p| |] eqn:Hp; try discriminate Hrun.
  dred_in Hrun. unfold load at 1 in Hrun. cbn [heap] in Hrun.
  destruct (heap w !! p) as [s|] eqn:Hs; try discriminate Hrun.
  dred_in Hrun.
  destruct (v2.GetSessionByIMSI _ _) as [p5| |] eqn:Hp5; try discriminate Hrun.
  unfold GetTEID in Hrun.
  dred_in Hrun. unfold load at 1 in Hrun. cbn [heap] in Hrun.
  destruct (heap w !! p5) as [s5|] eqn:Hs5; try discriminate Hrun.
  dred_in Hrun.
  destruct (v2.GetTEID IFTypeS5S8PGWGTPC s5) as [t| |]; try discriminate Hrun.
  dred_in Hrun. unfold DeleteSession in Hrun. dred_in Hrun.
  destruct (v2.GetSessionByTEID _ t _) as [q| |]; try discriminate Hrun.
  dred_in Hrun. unfold load at 1 in Hrun. cbn [heap] in Hrun.
  destruct (heap w !! q) as [sq|] eqn:Hsq; try discriminate Hrun.
  unfold SendMessageTo in Hrun.
  destruct (transport env sgw.S5C _ _); dred_in Hrun; try discriminate Hrun.
  injection Hrun as <- <-. cbn [heap s11Conn s5cConn out].
  rewrite <- app_assoc. eauto 10.
Qed.


Ltac dfinish H :=
  try (injection H as <- <-; cbn [heap s11Conn s5cConn out]; auto; fail).

Lemma deleteSessionSetup_frame env mmeAddr req w w1 (r : res ptr) :
  deleteSessionSetup env mmeAddr req w = (w1, r) ->
  heap w1 = heap w /\ s11Conn w1 = s11Conn w /\ s5cConn w1 = s5cConn w.
Proof.
  intros Hrun. unfold deleteSessionSetup in Hrun. dred_in Hrun.
  destruct (v2.GetSessionByTEID _ _ _) as [p| |] eqn:Hp; dfinish Hrun.
  dred_in Hrun. unfold load at 1 in Hrun. cbn [heap] in Hrun.
  destruct (heap w !! p) as [s|] eqn:Hs; dfinish Hrun.
  dred_in Hrun.
  destruct (v2.GetSessionByIMSI _ _) as [p5| |] eqn:Hp5; dfinish Hrun.
  unfold GetTEID in Hrun.
  dred_in Hrun. unfold load at 1 in Hrun. cbn [heap] in Hrun.
  destruct (heap w !! p5) as [s5|] eqn:Hs5; dfinish Hrun.
  dred_in Hrun.
  destruct (v2.GetTEID IFTypeS5S8PGWGTPC s5) as [t| |]; dfinish Hrun.
  dred_in Hrun. unfold DeleteSession in Hrun. dred_in Hrun.
  destruct (v2.GetSessionByTEID _ t _) as [q| |]; dfinish Hrun.
  dred_in Hrun. unfold load at 1 in Hrun. cbn [heap] in Hrun.
  destruct (heap w !! q) as [sq|] eqn:Hsq; dfinish Hrun.
  unfold SendMessageTo in Hrun.
  destruct (transport env sgw.S5C _ _); dred_in Hrun; dfinish Hrun.
Qed.

Lemma deleteSessionWaiter_frame env mmeAddr req p11 w1 w' (r : res unit) :
  deleteSessionWaiter env mmeAddr req p11 w1 = (w', r) ->
  heap w' = heap w1 /\
  s5cConn w' = s5cConn w1 /\
  (r = Ok tt -> s11Conn w' = v2.RemoveSession p11 (s11Conn w1)) /\
  (r <> Ok tt -> s11Conn w' = s11Conn w1).
Proof.
  intros Hrun. unfold deleteSessionWaiter, GetTEID in Hrun.
  rewrite !delete_run_bind in Hrun. unfold load at 1 in Hrun.
  destruct (heap w1 !! p11) as [s|] eqn:Hs;
    [|injection Hrun as <- <-; repeat split; congruence].
  cbn [lift] in Hrun.
  destruct (v2.GetTEID IFTypeS11MMEGTPC s) as [t| |];
    [|injection Hrun as <- <-; repeat split; congruence..].
  unfold RespondTo, SendMessageTo in Hrun.
  destruct (WaitMessage env) as [message|err|].
  - rewrite delete_run_bind in Hrun.
    destruct message as [|m|];
      try (injection Hrun as <- <-; repeat split; congruence).
    rewrite delete_run_ret in Hrun. cbv zeta in Hrun.
    rewrite delete_run_bind in Hrun.
    destruct (transport env sgw.S11 mmeAddr _);
      [injection Hrun as <- <-; repeat split; congruence|].
    dred_in Hrun. injection Hrun as <- <-. cbn [heap s11Conn s5cConn].
    repeat split; congruence.
  - cbv zeta in Hrun. rewrite delete_run_bind in Hrun.
    destruct (transport env sgw.S11 mmeAddr _);
      [injection Hrun as <- <-; repeat split; congruence|].
    dred_in Hrun. injection Hrun as <- <-. cbn [heap s11Conn s5cConn].
    repeat split; congruence.
  - injection Hrun as <- <-. repeat split; congruence.
Qed.

(** X27: [handleDeleteSessionRequest] takes the Session out of the
    requester-side store exactly when it returns nil; on every other
    return that store is as it was.  It never changes a Session object nor
    the upstream store. *)
Theorem delete_session_removal
    (env : Env) (mmeAddr : UDPAddr) (req : DeleteSessionRequest.t)
    (w w' : World) (r : res unit) :
  handleDeleteSessionRequest env mmeAddr req w = (w', r) ->
  heap w' = heap w /\
  s5cConn w' = s5cConn w /\
  (r = Ok tt ->
   exists p11,
     v2.GetSessionByTEID (heap w) (DeleteSessionRequest.TEID req) (s11Conn w)
       = Ok p11 /\
     s11Conn w' = v2.RemoveSession p11 (s11Conn w) /\
     ~ SgwClaims.registered p11 (s11Conn w')) /\
  (r <> Ok tt -> s11Conn w' = s11Conn w).
Proof.
  intros Hrun. unfold handleDeleteSessionRequest in Hrun.
  rewrite delete_run_bind in Hrun.
  destruct (deleteSessionSetup env mmeAddr req w) as [w1 [p11|e|]] eqn:Hsetup.
  - destruct (deleteSessionSetup_ok _ _ _ _ _ _ Hsetup)
      as (Hp11 & Hh & H11 & H5 & _).
    apply deleteSessionWaiter_frame in Hrun as (Hh' & H5' & Hok & Herr).
    rewrite Hh', H5', Hh, H5.
    split; [reflexivity|]. split; [reflexivity|]. split.
    + intros Hr. exists p11. rewrite (Hok Hr), H11.
      split; [exact Hp11|]. split; [reflexivity|].
      apply SgwFacts.RemoveSession_not_registered.
    + intros Hr. rewrite (Herr Hr). exact H11.
  - apply deleteSessionSetup_frame in Hsetup as (Hh & H11 & H5).
    injection Hrun as <- <-.
    split; [exact Hh|]. split; [exact H5|]. split; [discriminate|].
    intros _. exact H11.
  - apply deleteSessionSetup_frame in Hsetup as (Hh & H11 & H5).
    injection Hrun as <- <-.
    split; [exact Hh|]. split; [exact H5|]. split; [discriminate|].
    intros _. exact H11.
Qed.

(** X28: when the P-GW does not answer the Delete-Session request and the
    transport accepts the response, the handler sends the MME a
    Delete-Session response with the MME's control TEID, the request's
    sequence number and the cause "P-GW not responding", returns the error
    of the wait, and leaves the Session registered in the requester-side
    store. *)
Theorem delete_session_timeout
    (env : Env) (mmeAddr : UDPAddr) (req : DeleteSessionRequest.t)
    (w w1 w' : World) (p11 : ptr) (s11 : Session) (t : N) (err : error)
    (r : res unit) :
  deleteSessionSetup env mmeAddr req w = (w1, Ok p11) ->
  heap w1 !! p11 = Some s11 ->
  v2.GetTEID IFTypeS11MMEGTPC s11 = Ok t ->
  WaitMessage env = Err err ->
  (forall m, transport env sgw.S11 mmeAddr m = None) ->
  handleDeleteSessionRequest env mmeAddr req w = (w', r) ->
  r = Err err /\
  out w' = out w1 ++
    [ Sent sgw.S11 mmeAddr
        (DSRsp (DeleteSessionResponse.mk t
                  (DeleteSessionRequest.SequenceNumber req)
                  (Some (ies.NewCause CausePGWNotResponding)) []));
      Logged (SentWithFailureCode CausePGWNotResponding (IMSI s11)) ] /\
  s11Conn w' = s11Conn w /\
  SgwClaims.registered p11 (s11Conn w').
Proof.
  intros Hsetup Hs Ht Hwait Htr Hrun.
  destruct (deleteSessionSetup_ok _ _ _ _ _ _ Hsetup)
    as (Hp11 & Hh & H11 & H5 & _).
  unfold handleDeleteSessionRequest in Hrun.
  rewrite delete_run_bind, Hsetup in Hrun.
  unfold deleteSessionWaiter, GetTEID in Hrun.
  rewrite !delete_run_bind, (delete_run_load _ _ _ Hs) in Hrun.
  cbn [lift] in Hrun. rewrite Ht, Hwait in Hrun. cbv zeta in Hrun.
  unfold RespondTo, SendMessageTo in Hrun. rewrite Htr in Hrun.
  rewrite delete_run_bind in Hrun. cbn [emit] in Hrun.
  rewrite delete_run_bind in Hrun.
  erewrite delete_run_load in Hrun by (cbn [heap]; exact Hs).
  dred_in Hrun. injection Hrun as <- <-.
  cbn [out s11Conn Sequence SetSequenceNumber NewDeleteSessionResponse
       DeleteSessionResponse.TEID DeleteSessionResponse.Cause
       DeleteSessionResponse.Others DeleteSessionRequest.SequenceNumber].
  rewrite <- app_assoc. repeat split; [exact H11|].
  rewrite H11. eapply GetSessionByTEID_registered, Hp11.
Qed.

(** X29: when the P-GW answers with a Delete-Session response and the
    transport accepts the relay, the handler sends the MME that response
    with its TEID set to the MME's control TEID and the request's sequence
    number, cause and other IEs as received, removes the Session from the
    requester-side store and returns nil; the upstream store keeps its
    entries. *)
Theorem delete_session_success
    (env : Env) (mmeAddr : UDPAddr) (req : DeleteSessionRequest.t)
    (w w1 w' : World) (p11 : ptr) (s11 : Session) (t : N)
    (m : DeleteSessionResponse.t) (r : res unit) :
  deleteSessionSetup env mmeAddr req w = (w1, Ok p11) ->
  heap w1 !! p11 = Some s11 ->
  v2.GetTEID IFTypeS11MMEGTPC s11 = Ok t ->
  WaitMessage env = Ok (DSRsp m) ->
  (forall m, transport env sgw.S11 mmeAddr m = None) ->
  handleDeleteSessionRequest env mmeAddr req w = (w', r) ->
  r = Ok tt /\
  out w' = out w1 ++
    [ Sent sgw.S11 mmeAddr
        (DSRsp (DeleteSessionResponse.mk t
                  (DeleteSessionRequest.SequenceNumber req)
                  (DeleteSessionResponse.Cause m)
                  (DeleteSessionResponse.Others m)));
      Logged (SessionDeleted (IMSI s11)) ] /\
  Sessions (s11Conn w') = filter (fun kv => kv.2 <> p11) (Sessions (s11Conn w)) /\
  ~ SgwClaims.registered p11 (s11Conn w') /\
  s5cConn w' = s5cConn w.
Proof.
  intros Hsetup Hs Ht Hwait Htr Hrun.
  destruct (deleteSessionSetup_ok _ _ _ _ _ _ Hsetup)
    as (Hp11 & Hh & H11 & H5 & _).
  unfold handleDeleteSessionRequest in Hrun.
  rewrite delete_run_bind, Hsetup in Hrun.
  unfold deleteSessionWaiter, GetTEID in Hrun.
  rewrite !delete_run_bind, (delete_run_load _ _ _ Hs) in Hrun.
  cbn [lift] in Hrun. rewrite Ht, Hwait in Hrun.
  rewrite delete_run_bind, delete_run_ret in Hrun. cbv zeta in Hrun.
  unfold RespondTo, SendMessageTo in Hrun. rewrite Htr in Hrun.
  rewrite delete_run_bind in Hrun. cbn [emit] in Hrun.
  rewrite delete_run_bind in Hrun.
  erewrite delete_run_load in Hrun by (cbn [heap]; exact Hs).
  dred_in Hrun. injection Hrun as <- <-.
  cbn [out s11Conn s5cConn Sequence SetSequenceNumber SetTEID
       DeleteSessionResponse.TEID DeleteSessionResponse.Cause
       DeleteSessionResponse.SequenceNumber
       DeleteSessionResponse.Others DeleteSessionRequest.SequenceNumber].
  rewrite <- app_assoc, H11. repeat split; [|exact H5].
  apply SgwFacts.RemoveSession_not_registered.
Qed.

(** X30: [handleDeleteBearerResponse] changes neither the stores nor any
    Session object.  When it returns nil it has passed the message,
    unmodified, to the upstream Session registered under the IMSI of the
    Session that has the message's TEID; otherwise nothing was passed. *)
Theorem delete_bearer_response_passed
    (env : Env) (mmeAddr : UDPAddr) (msg : Message) (w w' : World)
    (r : res unit) :
  handleDeleteBearerResponse env mmeAddr msg w = (w', r) ->
  heap w' = heap w /\
  s11Conn w' = s11Conn w /\
  s5cConn w' = s5cConn w /\
  match r with
  | Ok _ =>
      exists p11 s p5,
        v2.GetSessionByTEID (heap w) (TEID msg) (s11Conn w) = Ok p11 /\
        heap w !! p11 = Some s /\
        v2.GetSessionByIMSI (IMSI s) (s5cConn w) = Ok p5 /\
        out w' = out w ++ [Logged (Received mmeAddr); Passed p5 msg]
  | _ => out w' = out w ++ [Logged (Received mmeAddr)]
  end.
Proof.
  intros Hrun. unfold handleDeleteBearerResponse in Hrun. dred_in Hrun.
  destruct (v2.GetSessionByTEID _ _ _) as [p| |] eqn:Hp; dfinish Hrun.
  dred_in Hrun. unfold load at 1 in Hrun. cbn [heap] in Hrun.
  destruct (heap w !! p) as [s|] eqn:Hs; dfinish Hrun.
  dred_in Hrun.
  destruct (v2.GetSessionByIMSI _ _) as [p5| |] eqn:Hp5; dfinish Hrun.
  unfold PassMessageTo in Hrun.
  destruct (passes env p5 msg); dred_in Hrun; dfinish Hrun.
  injection Hrun as <- <-. cbn [heap s11Conn s5cConn out].
  rewrite <- app_assoc. repeat split. exists p, s, p5. auto.
Qed.


(** *** The properties at the sample runs *)

Lemma delete_session_removal_witness :
  let run := handleDeleteSessionRequest
               (DeleteSamples.env (Ok (DSRsp DeleteSamples.pgw_answer)))
               Samples.mme DeleteSamples.request DeleteSamples.world in
  heap run.1 = heap DeleteSamples.world /\
  s5cConn run.1 = s5cConn DeleteSamples.world /\
  (run.2 = Ok tt ->
   exists p11,
     v2.GetSessionByTEID (heap DeleteSamples.world)
       (DeleteSessionRequest.TEID DeleteSamples.request)
       (s11Conn DeleteSamples.world) = Ok p11 /\
     s11Conn run.1 = v2.RemoveSession p11 (s11Conn DeleteSamples.world) /\
     ~ SgwClaims.registered p11 (s11Conn run.1)) /\
  (run.2 <> Ok tt -> s11Conn run.1 = s11Conn DeleteSamples.world).
Proof.
  intros run.
  apply (delete_session_removal
           (DeleteSamples.env (Ok (DSRsp DeleteSamples.pgw_answer)))
           Samples.mme DeleteSamples.request DeleteSamples.world run.1 run.2).
  apply surjective_pairing.
Defined.

Lemma delete_session_timeout_witness :
  let e := DeleteSamples.env (Err ErrTimeout) in
  let w1 := (deleteSessionSetup e Samples.mme DeleteSamples.request
               DeleteSamples.world).1 in
  let run := handleDeleteSessionRequest e Samples.mme DeleteSamples.request
               DeleteSamples.world in
  run.2 = Err ErrTimeout /\
  out run.1 = out w1 ++
    [ Sent sgw.S11 Samples.mme
        (DSRsp (DeleteSessionResponse.mk 100
                  (DeleteSessionRequest.SequenceNumber DeleteSamples.request)
                  (Some (ies.NewCause CausePGWNotResponding)) []));
      Logged (SentWithFailureCode CausePGWNotResponding
                (IMSI Samples.s11_established)) ] /\
  s11Conn run.1 = s11Conn DeleteSamples.world /\
  SgwClaims.registered 1%positive (s11Conn run.1).
Proof.
  intros e w1 run.
  apply (delete_session_timeout e Samples.mme DeleteSamples.request
           DeleteSamples.world w1 run.1 1%positive Samples.s11_established
           100%N ErrTimeout run.2).
  - vm_compute. reflexivity.
  - vm_compute. reflexivity.
  - reflexivity.
  - reflexivity.
  - intros m. reflexivity.
  - apply surjective_pairing.
Defined.

Lemma delete_session_success_witness :
  let e := DeleteSamples.env (Ok (DSRsp DeleteSamples.pgw_answer)) in
  let w1 := (deleteSessionSetup e Samples.mme DeleteSamples.request
               DeleteSamples.world).1 in
  let run := handleDeleteSessionRequest e Samples.mme DeleteSamples.request
               DeleteSamples.world in
  run.2 = Ok tt /\
  out run.1 = out w1 ++
    [ Sent sgw.S11 Samples.mme
        (DSRsp (DeleteSessionResponse.mk 100
                  (DeleteSessionRequest.SequenceNumber DeleteSamples.request)
                  (DeleteSessionResponse.Cause DeleteSamples.pgw_answer)
                  (DeleteSessionResponse.Others DeleteSamples.pgw_answer)));
      Logged (SessionDeleted (IMSI Samples.s11_established)) ] /\
  Sessions (s11Conn run.1)
    = filter (fun kv => kv.2 <> 1%positive) (Sessions (s11Conn DeleteSamples.world)) /\
  ~ SgwClaims.registered 1%positive (s11Conn run.1) /\
  s5cConn run.1 = s5cConn DeleteSamples.world.
Proof.
  intros e w1 run.
  apply (delete_session_success e Samples.mme DeleteSamples.request
           DeleteSamples.world w1 run.1 1%positive Samples.s11_established
           100%N DeleteSamples.pgw_answer run.2).
  - vm_compute. reflexivity.
  - vm_compute. reflexivity.
  - reflexivity.
  - reflexivity.
  - intros m. reflexivity.
  - apply surjective_pairing.
Defined.

Lemma delete_bearer_response_passed_witness :
  let e := DeleteSamples.env (Err ErrTimeout) in
  let run := handleDeleteBearerResponse e Samples.mme
               DeleteSamples.bearer_response DeleteSamples.world in
  heap run.1 = heap DeleteSamples.world /\
  s11Conn run.1 = s11Conn DeleteSamples.world /\
  s5cConn run.1 = s5cConn DeleteSamples.world /\
  match run.2 with
  | Ok _ =>
      exists p11 s p5,
        v2.GetSessionByTEID (heap DeleteSamples.world)
          (TEID DeleteSamples.bearer_response) (s11Conn DeleteSamples.world)
          = Ok p11 /\
        heap DeleteSamples.world !! p11 = Some s /\
        v2.GetSessionByIMSI (IMSI s) (s5cConn DeleteSamples.world) = Ok p5 /\
        out run.1 = out DeleteSamples.world ++
          [Logged (Received Samples.mme); Passed p5 DeleteSamples.bearer_response]
  | _ => out run.1 = out DeleteSamples.world ++ [Logged (Received Samples.mme)]
  end.
Proof.
  intros e run.
  apply (delete_bearer_response_passed e Samples.mme
           DeleteSamples.bearer_response DeleteSamples.world run.1 run.2).
  apply surjective_pairing.
Defined.

End SgwDeleteFacts.
